(** * Vakyasaar: the press-release scraper and the training-set maker

    A shallow embedding of the two scripts of the repository,
    [Scrapper/scrape.py] and [Train-set-maker/Train_set.py], and the
    properties their specification states about them.

    Python strings are modelled as lists of characters, a character being a
    code point below 256 ([ascii]).  On that range [str.isspace], the line
    boundaries of [str.splitlines] and the classes [\s], [\S], [\d] of the
    [re] module are the finite sets written out below. *)

From Stdlib Require Import Ascii String.
From Stdlib Require Import List Bool Arith ZArith NArith Lia.
From Stdlib Require Import DecimalString DecimalZ.
Import ListNotations.

Set Implicit Arguments.
Set Warnings "-register-all,-abstract-large-number".

(** ** Python strings *)

Module PyStr.

Definition text := list ascii.

Definition lit (s : string) : text := list_ascii_of_string s.

Definition code (c : ascii) : N := N_of_ascii c.

Definition text_eq_dec : forall a b : text, {a = b} + {a <> b} :=
  list_eq_dec ascii_dec.

Definition text_eqb (a b : text) : bool :=
  if text_eq_dec a b then true else false.

Definition nl : ascii := ascii_of_N 10.
Definition cr : ascii := ascii_of_N 13.
Definition sp : ascii := ascii_of_N 32.

(** [str.isspace] on one character: TAB..CR, FS..US, space, NEL, NBSP. *)
Definition isspace (c : ascii) : bool :=
  let n := code c in
  ((9 <=? n) && (n <=? 13) || (28 <=? n) && (n <=? 31)
   || (n =? 32) || (n =? 133) || (n =? 160))%N.

(** The line boundaries of [str.splitlines]: LF, VT, FF, CR, FS, GS, RS,
    NEL.  (US is white space but no line boundary.) *)
Definition is_linebreak (c : ascii) : bool :=
  let n := code c in
  ((10 <=? n) && (n <=? 13) || (28 <=? n) && (n <=? 30) || (n =? 133))%N.

(** [\d] of a [str] pattern, on code points below 256. *)
Definition isdigit (c : ascii) : bool :=
  let n := code c in ((48 <=? n) && (n <=? 57))%N.

Definition is_upper (c : ascii) : bool :=
  let n := code c in ((65 <=? n) && (n <=? 90))%N.

Definition is_alpha (c : ascii) : bool :=
  let n := code c in ((65 <=? n) && (n <=? 90) || (97 <=? n) && (n <=? 122))%N.

Fixpoint drop_while (p : ascii -> bool) (s : text) : text :=
  match s with
  | [] => []
  | c :: r => if p c then drop_while p r else s
  end.

Fixpoint count_while (p : ascii -> bool) (s : text) : nat :=
  match s with
  | [] => 0
  | c :: r => if p c then S (count_while p r) else 0
  end.

Definition lstrip (s : text) : text := drop_while isspace s.
Definition rstrip (s : text) : text := rev (drop_while isspace (rev s)).

(** [s.strip()] *)
Definition strip (s : text) : text := rstrip (lstrip s).

(** [s.startswith(w)] *)
Fixpoint startswith (w s : text) : bool :=
  match w, s with
  | [], _ => true
  | a :: w', b :: s' => Ascii.eqb a b && startswith w' s'
  | _ :: _, [] => false
  end.

(** [s.splitlines()]: [cur] is the line read so far.  A CR directly
    followed by LF is one boundary; text after the last boundary is a line
    only when it is not empty. *)
Fixpoint splitlines_from (cur s : text) : list text :=
  match s with
  | [] => match cur with [] => [] | _ :: _ => [cur] end
  | c :: r =>
      if is_linebreak c then
        cur :: match r with
               | c' :: r' =>
                   if Ascii.eqb c cr && Ascii.eqb c' nl
                   then splitlines_from [] r'
                   else splitlines_from [] r
               | [] => []
               end
      else splitlines_from (cur ++ [c]) r
  end.

Definition splitlines (s : text) : list text := splitlines_from [] s.

(** [sep.join(ls)] *)
Fixpoint join (sep : text) (ls : list text) : text :=
  match ls with
  | [] => []
  | l :: ls' =>
      match ls' with
      | [] => l
      | _ :: _ => l ++ sep ++ join sep ls'
      end
  end.

(** [s[a:b]] for [0 <= a <= b]. *)
Definition slice (s : text) (a b : nat) : text := firstn (b - a) (skipn a s).

(** [s.find(w)]: the lowest index at which [w] occurs, [None] for -1. *)
Fixpoint find (w s : text) : option nat :=
  if startswith w s then Some 0
  else match s with
       | [] => None
       | _ :: r => option_map S (find w r)
       end.

(** [s.find(w, start)] for [0 <= start]. *)
Definition find_from (w s : text) (start : nat) : option nat :=
  if length s <? start then None
  else option_map (Nat.add start) (find w (skipn start s)).

(** [str(n)] for an [int]. *)
Definition str_of_Z (n : Z) : text := lit (NilEmpty.string_of_int (Z.to_int n)).

Definition zero : ascii := ascii_of_N 48.
Definition is_sign (c : ascii) : bool :=
  (N.eqb (code c) 43 || N.eqb (code c) 45)%bool.

(** [s.zfill(width)]: zeros are added on the left, after a leading sign. *)
Definition zfill (width : nat) (s : text) : text :=
  if width <=? length s then s
  else
    let fill := repeat zero (width - length s) in
    match s with
    | c :: r => if is_sign c then c :: fill ++ r else fill ++ s
    | [] => fill
    end.

(** *** Predicates on strings *)

Definition lclean (s : text) : Prop :=
  match s with
  | [] => True
  | c :: _ => isspace c = false
  end.

(** Neither white space at the left end nor at the right end. *)
Definition trimmed (s : text) : Prop := lclean s /\ lclean (rev s).

Definition nobreak (s : text) : Prop :=
  Forall (fun c => is_linebreak c = false) s.

(** [w] occurs in [s] at index [i]. *)
Definition occurs_at (w s : text) (i : nat) : Prop :=
  exists pre post, s = pre ++ w ++ post /\ length pre = i.

(** [i] is the index of the first occurrence of [w] in [s]. *)
Definition first_at (w s : text) (i : nat) : Prop :=
  occurs_at w s i /\ forall j, j < i -> ~ occurs_at w s j.

(** The integers from [lo] to [hi]. *)
Definition zrange (lo hi : Z) : list Z :=
  map (fun k => (lo + Z.of_nat k)%Z) (seq 0 (Z.to_nat (hi - lo + 1))).

End PyStr.

(** ** The fragment of Python's [re] the scripts use

    A pattern denotes, for a text, the lengths of its matches at the head of
    the text in the order a backtracking matcher tries them (greedy
    repetition first, the left alternative first); the match [re] reports is
    the first of them. *)

Module Re.
Import PyStr.

Definition regex := text -> list nat.

(** [k, k-1, ..., lo] *)
Definition countdown (k lo : nat) : list nat := rev (seq lo (S k - lo)).

Definition re_lit (w : text) : regex :=
  fun s => if startswith w s then [length w] else [].

(** A character class repeated [lo] to [hi] times, greedily; [None] for no
    upper bound. *)
Definition re_rep (p : ascii -> bool) (lo : nat) (hi : option nat) : regex :=
  fun s =>
    let k := count_while p s in
    countdown (match hi with Some h => Nat.min k h | None => k end) lo.

Definition re_plus (p : ascii -> bool) : regex := re_rep p 1 None.

Definition re_seq (r1 r2 : regex) : regex :=
  fun s => flat_map (fun n => map (Nat.add n) (r2 (skipn n s))) (r1 s).

Definition re_alt (r1 r2 : regex) : regex := fun s => r1 s ++ r2 s.

(** [r?] *)
Definition re_opt (r : regex) : regex := fun s => r s ++ [0].

(** [$] without MULTILINE: at the end, or before a final newline. *)
Definition re_eol : regex :=
  fun s => match s with
           | [] => [0]
           | c :: [] => if Ascii.eqb c nl then [0] else []
           | _ => []
           end.

Definition re_match (r : regex) (s : text) : option nat := hd_error (r s).

(** [pattern.fullmatch(s)]: some way of matching spans the whole text. *)
Definition fullmatch (r : regex) (s : text) : bool :=
  existsb (Nat.eqb (length s)) (r s).

(** [pattern.search(s)] finds a match: the pattern matches at some position. *)
Fixpoint search (r : regex) (s : text) : bool :=
  match re_match r s with
  | Some (S _) => true
  | _ => match s with
         | [] => false
         | _ :: t => search r t
         end
  end.

(** [pattern.sub(repl, s)] for a pattern that matches no empty string (all
    four patterns used are such): scan from the left, replace the match found
    at the current position and resume at its end.  [skip] counts the
    characters of the current match still to pass over. *)
Fixpoint sub_from (r : regex) (repl : text) (skip : nat) (s : text) : text :=
  match s with
  | [] => []
  | c :: t =>
      match skip with
      | S k => sub_from r repl k t
      | O =>
          match re_match r s with
          | Some (S k) => repl ++ sub_from r repl k t
          | _ => c :: sub_from r repl 0 t
          end
      end
  end.

Definition sub (r : regex) (repl s : text) : text := sub_from r repl 0 s.

End Re.

(** ** Train_set.py: the text cleanup of [extract_and_clean_text] *)

Module TrainSet.
Import PyStr Re.

Definition nonspace (c : ascii) : bool := negb (isspace c).
Definition is_nl (c : ascii) : bool := Ascii.eqb c nl.
Definition is_sp (c : ascii) : bool := Ascii.eqb c sp.
(** [multi_space_pattern = \s{3,}], read by [is_likely_table_line] only,
    whose call in the loop is commented out. *)
Definition multi_space_pattern : regex := re_rep isspace 3 None.

Definition HEADERS_FOOTERS_TO_REMOVE : list text :=
  [lit "Press Information Bureau"; lit "Government of India"; lit "****"].

(** [url_pattern = https?://\S+|www\.\S+] *)
Definition url_pattern : regex :=
  re_alt
    (re_seq (re_lit (lit "http"))
       (re_seq (re_opt (re_lit (lit "s")))
          (re_seq (re_lit (lit "://")) (re_plus nonspace))))
    (re_seq (re_lit (lit "www.")) (re_plus nonspace)).

(** [ref_pattern = \[\d+\]] *)
Definition ref_pattern : regex :=
  re_seq (re_lit (lit "[")) (re_seq (re_plus isdigit) (re_lit (lit "]"))).

(** [multi_newline_pattern = \n{3,}] *)
Definition multi_newline_pattern : regex := re_rep is_nl 3 None.

(** [datetime_pattern =
     ^\d{1,2}-[A-Za-z]+-\d{4}\s+\d{1,2}:\d{1,2}\s+[A-Z]+$].
    The pattern is only used through [fullmatch], which starts at the
    beginning of the line, where [^] holds. *)
Definition datetime_pattern : regex :=
  re_seq (re_rep isdigit 1 (Some 2))
    (re_seq (re_lit (lit "-"))
       (re_seq (re_plus is_alpha)
          (re_seq (re_lit (lit "-"))
             (re_seq (re_rep isdigit 4 (Some 4))
                (re_seq (re_plus isspace)
                   (re_seq (re_rep isdigit 1 (Some 2))
                      (re_seq (re_lit (lit ":"))
                         (re_seq (re_rep isdigit 1 (Some 2))
                            (re_seq (re_plus isspace)
                               (re_seq (re_plus is_upper) re_eol)))))))))).

(** [r' +'], the pattern of the last substitution. *)
Definition spaces_pattern : regex := re_plus is_sp.

Definition in_headers (l : text) : bool :=
  existsb (text_eqb l) HEADERS_FOOTERS_TO_REMOVE.

(** The body of the loop over the lines: [None] when the line is dropped
    ([continue], or nothing left to append), [Some l] when [l] is appended to
    [cleaned_lines]. *)
Definition clean_line (line : text) : option text :=
  let cleaned_line := strip line in
  match cleaned_line with
  | [] => None
  | _ :: _ =>
      if fullmatch datetime_pattern cleaned_line then None
      else if in_headers cleaned_line then None
      else
        let cleaned_line := sub url_pattern [] cleaned_line in
        let cleaned_line := strip (sub ref_pattern [] cleaned_line) in
        match cleaned_line with
        | [] => None
        | _ :: _ => Some cleaned_line
        end
  end.

Fixpoint filter_map {A B} (f : A -> option B) (l : list A) : list B :=
  match l with
  | [] => []
  | a :: r => match f a with
              | Some b => b :: filter_map f r
              | None => filter_map f r
              end
  end.

(** The cleanup of [extract_and_clean_text], from [full_text_unfiltered] to
    [final_text]. *)
Definition clean_text (full_text_unfiltered : text) : text :=
  let cleaned_lines := filter_map clean_line (splitlines full_text_unfiltered) in
  let final_text := join [nl] cleaned_lines in
  let final_text := strip (sub multi_newline_pattern [nl; nl] final_text) in
  sub spaces_pattern [sp] final_text.

(** [r' +'] with one space for each run: the flag says that the character
    before was a space of the run being replaced. *)
Fixpoint squeeze (in_run : bool) (s : text) : text :=
  match s with
  | [] => []
  | c :: t =>
      if is_sp c
      then if in_run then squeeze true t else sp :: squeeze true t
      else c :: squeeze false t
  end.

(** A line on which no step of the loop finds anything to remove. *)
Definition settled (l : text) : bool :=
  negb (fullmatch datetime_pattern l) && negb (in_headers l)
  && negb (search url_pattern l) && negb (search ref_pattern l).

(** What holds of every element of [cleaned_lines]. *)
Definition good_line (l : text) : Prop := l <> [] /\ trimmed l /\ nobreak l.

Definition example_input : text :=
  lit "Press Information Bureau" ++ [nl; nl; nl; nl]
  ++ lit "Hello   world [1] http://x.com".

(** *** [extract_between_markers] *)

Definition extract_between_markers (txt start_marker end_marker : text)
  : option text :=
  match find start_marker txt with
  | None => None
  | Some start_idx =>
      let start_idx := start_idx + length start_marker in
      match find_from end_marker txt start_idx with
      | None => None
      | Some end_idx => Some (strip (slice txt start_idx end_idx))
      end
  end.

(** The extractor as the specification words it. *)
Inductive marker_spec (txt sm em : text) : option text -> Prop :=
| spec_no_start :
    (forall i, ~ occurs_at sm txt i) -> marker_spec txt sm em None
| spec_no_end pre rest :
    txt = pre ++ sm ++ rest -> first_at sm txt (length pre) ->
    (forall j, ~ occurs_at em rest j) -> marker_spec txt sm em None
| spec_found pre mid post :
    txt = pre ++ sm ++ mid ++ em ++ post -> first_at sm txt (length pre) ->
    first_at em (mid ++ em ++ post) (length mid) ->
    marker_spec txt sm em (Some (strip mid)).

(** *** The collaborators of the tool

    The values [json.loads] returns; a number keeps its literal. *)
Inductive json : Type :=
| JNull
| JBool (b : bool)
| JNumber (literal : text)
| JString (s : text)
| JArray (items : list json)
| JObject (members : list (text * json)).

(** What [json.loads] does on a string: the value, [json.JSONDecodeError], or
    an exception of another class ([RecursionError] on arrays nested deeper
    than the interpreter allows, a plain [ValueError] on an integer literal
    longer than the interpreter converts). *)
Inductive loads_result : Type :=
| Loaded (v : json)
| JSONDecodeError
| LoadsRaised.

Inductive gemini_model : Type :=
| GenerativeModel (model_name : text).

(** What [model.generate_content(prompt)] and the checks on the response
    lead to: an exception of the client, a response without parts, a
    response without content, or the text of the response. *)
Inductive api_outcome : Type :=
| ApiException
| ApiEmptyParts
| ApiNoContent
| ApiResponse (response_text : text).

(** The dictionary written to the dataset. *)
Record data_record : Type := {
  pdf_filename : text;
  extracted_text : text;
  gemini_summary : option text;
  gemini_topics : option (list json)
}.

(** The text of the dataset file, in pieces: the line of a record, as
    [json.dump] and [write('\n')] produce it, or a part of such a line, which
    a call that raised got into the file object. *)
Inductive piece : Type :=
| Line (r : data_record)
| Torn (r : data_record).

Definition tear (p : piece) : piece :=
  match p with
  | Line r | Torn r => Torn r
  end.

(** What reaches the file of the pending pieces when the writing stops after
    [n] of them, the next one in part if [cut]. *)
Definition reached (n : nat) (cut : bool) (pending : list piece) : list piece :=
  firstn n pending
  ++ (if cut then map tear (firstn 1 (skipn n pending)) else []).

(** The environment of a run: the process environment, the user at the
    dialog, and the libraries the tool calls.

    A result [None] of [genai_model], [fitz_text] or [detect] stands for the
    exception the call raises.  [fitz_text] is what the [try] of
    [extract_and_clean_text] reads, and [doc_close] the exception that
    [doc.close()] raises in its [finally], if any.

    [json_dump] gives the exception that [json.dump], [write] or [flush]
    raises for a record, if any.  The file object buffers: when one of the
    three raises, [json_dump_leaves] says what the file object holds
    afterwards, of the text that was pending and of the record (the whole
    line when only [flush] failed, a part of it when [json.dump] stopped
    half-way, nothing when the buffer was dropped); it reaches the file with
    the next [flush] that returns or with [close].  [close_jsonl] is [None]
    when [close] returns, and otherwise says how much of the pending text
    still reached the file.

    [asksaveasfilename] is the answer of the dialog, empty when it is
    cancelled; [splitext], [open_log] and [open_jsonl] give the base of the
    path, the exception raised when the log file is made and opened, and the
    exception raised by [open(output_jsonl_path, 'w')].

    The prompt sent to the model is determined by the file name and the first
    40,000 characters of the text.  Calls into the GUI toolkit are taken not
    to fail, and durations are left out. *)
Record Env : Type := {
  getenv : text -> option text;
  genai_model : text -> option gemini_model;
  fitz_text : text -> option text;
  doc_close : text -> option text;
  detect : text -> option text;
  generate_content : text * text -> api_outcome;
  json_loads : text -> loads_result;
  json_dump : data_record -> option text;
  json_dump_leaves : list piece -> data_record -> list piece;
  asksaveasfilename : text;
  splitext : text -> option text;
  open_log : text -> option text;
  open_jsonl : text -> option text;
  close_jsonl : list piece -> option (nat * bool);
  normpath : text -> text;
  basename : text -> text
}.

Inductive status : Type := UNKNOWN | SUCCESS | SKIP | FAIL.

Record file_details : Type := {
  fd_filename : text;
  fd_status : status;
  fd_reason : text
}.

(** What the user sees and what is scheduled on the main loop. *)
Inductive ui_event : Type :=
| Title (s : text)
| Geometry (s : text)
| ShowError (title : text)
| ShowWarning (title : text)
| ShowInfo (title : text)
| AfterDestroy (ms : nat)
| CreateWidgets
| UpdateFileList (names : list text).

(** The attributes of [PDFProcessorApp] the claims read or write, and the
    dataset file: [jsonl] is the text in the file and [jsonl_buffer] the text
    pending in the file object while the file is open. *)
Record App : Type := {
  model : option gemini_model;
  widgets_created : bool;
  pdf_files : list text;
  processing_active : bool;
  processed_count : nat;
  per_file_details : list file_details;
  jsonl : list piece;
  jsonl_buffer : list piece;
  ui : list ui_event
}.

Definition set_model (a : App) (m : option gemini_model) : App :=
  {| model := m; widgets_created := widgets_created a;
     pdf_files := pdf_files a; processing_active := processing_active a;
     processed_count := processed_count a;
     per_file_details := per_file_details a; jsonl := jsonl a;
     jsonl_buffer := jsonl_buffer a; ui := ui a |}.

Definition set_pdf_files (a : App) (l : list text) : App :=
  {| model := model a; widgets_created := widgets_created a;
     pdf_files := l; processing_active := processing_active a;
     processed_count := processed_count a;
     per_file_details := per_file_details a; jsonl := jsonl a;
     jsonl_buffer := jsonl_buffer a; ui := ui a |}.

Definition set_processing_active (a : App) (b : bool) : App :=
  {| model := model a; widgets_created := widgets_created a;
     pdf_files := pdf_files a; processing_active := b;
     processed_count := processed_count a;
     per_file_details := per_file_details a; jsonl := jsonl a;
     jsonl_buffer := jsonl_buffer a; ui := ui a |}.

Definition emit (a : App) (e : ui_event) : App :=
  {| model := model a; widgets_created := widgets_created a;
     pdf_files := pdf_files a; processing_active := processing_active a;
     processed_count := processed_count a;
     per_file_details := per_file_details a; jsonl := jsonl a;
     jsonl_buffer := jsonl_buffer a; ui := ui a ++ [e] |}.

Definition set_widgets_created (a : App) : App :=
  {| model := model a; widgets_created := true;
     pdf_files := pdf_files a; processing_active := processing_active a;
     processed_count := processed_count a;
     per_file_details := per_file_details a; jsonl := jsonl a;
     jsonl_buffer := jsonl_buffer a; ui := ui a |}.

Definition reset_stats (a : App) : App :=
  {| model := model a; widgets_created := widgets_created a;
     pdf_files := pdf_files a; processing_active := processing_active a;
     processed_count := 0; per_file_details := []; jsonl := jsonl a;
     jsonl_buffer := jsonl_buffer a; ui := ui a |}.

Definition count_attempt (a : App) : App :=
  {| model := model a; widgets_created := widgets_created a;
     pdf_files := pdf_files a; processing_active := processing_active a;
     processed_count := S (processed_count a);
     per_file_details := per_file_details a; jsonl := jsonl a;
     jsonl_buffer := jsonl_buffer a; ui := ui a |}.

Definition add_details (a : App) (d : file_details) : App :=
  {| model := model a; widgets_created := widgets_created a;
     pdf_files := pdf_files a; processing_active := processing_active a;
     processed_count := processed_count a;
     per_file_details := per_file_details a ++ [d]; jsonl := jsonl a;
     jsonl_buffer := jsonl_buffer a; ui := ui a |}.

(** The file and the buffer of the file object. *)
Definition set_dataset (a : App) (file pending : list piece) : App :=
  {| model := model a; widgets_created := widgets_created a;
     pdf_files := pdf_files a; processing_active := processing_active a;
     processed_count := processed_count a;
     per_file_details := per_file_details a; jsonl := file;
     jsonl_buffer := pending; ui := ui a |}.

(** [json.dump], [write('\n')] and [flush()] when the three return: the
    pending text and the line of the record are in the file. *)
Definition write_line (a : App) (r : data_record) : App :=
  set_dataset a (jsonl a ++ jsonl_buffer a ++ [Line r]) [].

(** [open(output_jsonl_path, 'w')]: the dataset starts empty. *)
Definition open_dataset (a : App) : App := set_dataset a [] [].

(** The object before [__init__] runs. *)
Definition blank_app : App :=
  {| model := None; widgets_created := false; pdf_files := [];
     processing_active := false; processed_count := 0;
     per_file_details := []; jsonl := []; jsonl_buffer := []; ui := [] |}.

Section WithEnv.
Variable E : Env.

(** *** [configure_gemini] and [__init__] *)

Definition configure_gemini (a : App) : bool * App :=
  match getenv E (lit "GEMINI_API_KEY") with
  | None | Some [] => (false, emit a (ShowError (lit "Config Error")))
  | Some (c :: k) =>
      match genai_model E (c :: k) with
      | Some m => (true, set_model a (Some m))
      | None => (false, emit a (ShowError (lit "Config Error")))
      end
  end.

Definition init (a : App) : App :=
  let a := emit a (Title (lit "PDF Data Generator (v3 - Logging Fixed)")) in
  let a := emit a (Geometry (lit "850x700")) in
  let a := reset_stats a in
  let a := set_model a None in
  let (ok, a) := configure_gemini a in
  if negb ok then emit a (AfterDestroy 100)
  else
    let a := set_widgets_created (emit a CreateWidgets) in
    let a := set_pdf_files a [] in
    set_processing_active a false.

(** *** The list of files *)

Definition contains (l : list text) (x : text) : bool := existsb (text_eqb x) l.

(** The loop of [add_pdf_files]: the list and [new_files_count]. *)
Definition add_one (acc : list text * nat) (f : text) : list text * nat :=
  let norm_f := normpath E f in
  if negb (contains (fst acc) norm_f)
  then (fst acc ++ [norm_f], S (snd acc))
  else acc.

Definition add_pdf_files (a : App) (files_to_add : list text) : App :=
  let (l, new_files_count) := fold_left add_one files_to_add (pdf_files a, 0) in
  let a := set_pdf_files a l in
  if new_files_count =? 0 then emit a (ShowInfo (lit "Info"))
  else emit a (UpdateFileList (map (basename E) (pdf_files a))).

Definition clear_files (a : App) : App :=
  if processing_active a then emit a (ShowWarning (lit "Busy"))
  else emit (set_pdf_files a []) (UpdateFileList []).

(** *** [extract_and_clean_text] and [generate_summary_and_topics] *)

Definition extract_and_clean_text (pdf_path : text) : option text :=
  option_map clean_text (fitz_text E pdf_path).

Definition is_comment_line (line : text) : bool :=
  startswith (lit "//") (strip line).

Definition json_string_cleaned (topics_json_str : text) : text :=
  join [nl]
    (filter (fun line => negb (is_comment_line line))
       (splitlines topics_json_str)).

(** The inner [try] of [generate_summary_and_topics] with its handler: the
    topics, [None] for them after [json.JSONDecodeError] or after the
    [TypeError] raised for a value that is no list, and no result at all when
    [json.loads] raises an exception of another class, which the handler
    does not catch. *)
Definition parse_topics (topics_json_str : text)
  : option (option (list json)) :=
  match json_loads E (json_string_cleaned topics_json_str) with
  | Loaded (JArray topics) => Some (Some topics)
  | Loaded _ => Some None
  | JSONDecodeError => Some None
  | LoadsRaised => None
  end.

Definition SUMMARY_START : text := lit "--- SUMMARY START ---".
Definition SUMMARY_END : text := lit "--- SUMMARY END ---".
Definition TOPICS_START : text := lit "--- TOPICS JSON START ---".
Definition TOPICS_END : text := lit "--- TOPICS JSON END ---".

(** The summary and the topics; every exception of the outer [try] ends in
    [(None, None)]. *)
Definition generate_summary_and_topics (a : App) (pdf_text pdf_filename : text)
  : option text * option (list json) :=
  match model a with
  | None => (None, None)
  | Some _ =>
      if length pdf_text <? 50 then (None, None)
      else
        match generate_content E (pdf_filename, firstn 40000 pdf_text) with
        | ApiResponse response_text =>
            let summary :=
              extract_between_markers response_text SUMMARY_START SUMMARY_END in
            let topics_json_str :=
              extract_between_markers response_text TOPICS_START TOPICS_END in
            match summary, topics_json_str with
            | Some s, Some t =>
                match parse_topics t with
                | Some topics => (Some s, topics)
                | None => (None, None)
                end
            | _, _ => (None, None)
            end
        | _ => (None, None)
        end
  end.

(** *** The loop of [process_files] *)

Inductive language : Type :=
| LangIs (code : text)
| LangFailed.

(** Step 2 of the loop: the language of the first 1,500 characters. *)
Definition detect_language (extracted : text) : language :=
  let sample_text := firstn 1500 extracted in
  if length (strip sample_text) <? 20 then LangIs (lit "unknown")
  else match detect E sample_text with
       | Some l => LangIs l
       | None => LangFailed
       end.

(** The test [lang != 'en' and lang != 'unknown']. *)
Definition other_language (l : language) : bool :=
  match l with
  | LangIs c => negb (text_eqb c (lit "en")) && negb (text_eqb c (lit "unknown"))
  | LangFailed => false
  end.

Definition details (f : text) (s : status) (r : text) : file_details :=
  {| fd_filename := f; fd_status := s; fd_reason := r |}.

(** A turn of the loop, from the counting of the file to its entry in the
    details, for a file whose document is closed without an exception.  When
    the write of step 4 raises, the file and the buffer of the file object
    are left as the failed calls left them. *)
Definition process_one (a : App) (pdf_path : text) : App :=
  let a := count_attempt a in
  let filename := basename E pdf_path in
  match extract_and_clean_text pdf_path with
  | None =>
      add_details a
        (details filename FAIL (lit "Text extraction/cleaning failed"))
  | Some extracted =>
      let lang := detect_language extracted in
      if other_language lang then
        add_details a
          (details filename SKIP
             (lit "Detected language: "
              ++ match lang with LangIs c => c | LangFailed => [] end))
      else
        let (summary, topics) :=
          generate_summary_and_topics a extracted filename in
        let rec :=
          {| pdf_filename := filename; extracted_text := extracted;
             gemini_summary := summary; gemini_topics := topics |} in
        match json_dump E rec with
        | None =>
            let a := write_line a rec in
            match summary with
            | Some _ =>
                add_details a
                  (details filename SUCCESS
                     (lit "Summary generated"
                      ++ match topics with
                         | None => lit " (Topics parsing failed)"
                         | Some _ => []
                         end))
            | None =>
                add_details a
                  (details filename FAIL (lit "Gemini generation failed"))
            end
        | Some write_e =>
            let a :=
              set_dataset a (jsonl a)
                (json_dump_leaves E (jsonl_buffer a) rec) in
            add_details a
              (details filename FAIL (lit "JSON writing error: " ++ write_e))
        end
  end.

(** The loop over the list.  [process_one] is a turn in which nothing leaves
    the turn; the exception of [doc.close()] leaves
    [extract_and_clean_text] and the loop, after the file is counted. *)
Fixpoint process_loop (files : list text) (a : App) : App * option text :=
  match files with
  | [] => (a, None)
  | pdf_path :: rest =>
      match doc_close E pdf_path with
      | Some e => (count_attempt a, Some e)
      | None => process_loop rest (process_one a pdf_path)
      end
  end.

(** The handler of the outer [try]. *)
Definition critical_error (a : App) (e : text) : App :=
  add_details (emit a (ShowError (lit "Processing Error")))
    (details (lit "Processing Loop") FAIL (lit "Critical Error: " ++ e)).

(** [jsonl_outfile.close()] in the [finally]: the pending text reaches the
    file, or as much of it as [close] wrote before raising. *)
Definition close_dataset (a : App) : App :=
  match close_jsonl E (jsonl_buffer a) with
  | None => set_dataset a (jsonl a ++ jsonl_buffer a) []
  | Some (n, cut) =>
      set_dataset a (jsonl a ++ reached n cut (jsonl_buffer a)) []
  end.

(** The outer [try] with its handler and the closing of the file. *)
Definition run_loop (a : App) (output_jsonl_path : text) : App :=
  match open_jsonl E output_jsonl_path with
  | Some e => critical_error a e
  | None =>
      let (a, raised) := process_loop (pdf_files a) (open_dataset a) in
      let a :=
        match raised with
        | Some e => critical_error a e
        | None => a
        end in
      close_dataset a
  end.

(** [process_files]: the two guards, the dialog, the reset of the
    statistics, the log file, the loop, and the final message, which is
    scheduled on the main loop. *)
Definition process_files (a : App) : App :=
  if processing_active a then emit a (ShowWarning (lit "Busy"))
  else
    match pdf_files a with
    | [] => emit a (ShowWarning (lit "No Files"))
    | _ :: _ =>
        match asksaveasfilename E with
        | [] => a
        | c :: p =>
            let output_jsonl_path := c :: p in
            let a := reset_stats (set_processing_active a true) in
            match splitext E output_jsonl_path with
            | None =>
                set_processing_active
                  (emit a (ShowError (lit "Path Error"))) false
            | Some base_path =>
                match open_log E (base_path ++ lit "_log.txt") with
                | Some _ =>
                    set_processing_active
                      (emit a (ShowError (lit "Log File Error"))) false
                | None =>
                    let a := run_loop a output_jsonl_path in
                    emit (set_processing_active a false)
                      (ShowInfo (lit "Complete"))
                end
            end
        end
    end.

(** The run reaches the loop and the loop reaches the end of the list: a
    path is chosen, the log file and the dataset file are opened, and no
    [doc.close()] raises. *)
Definition loop_runs (files : list text) : Prop :=
  asksaveasfilename E <> []
  /\ (exists base_path,
        splitext E (asksaveasfilename E) = Some base_path
        /\ open_log E (base_path ++ lit "_log.txt") = None)
  /\ open_jsonl E (asksaveasfilename E) = None
  /\ forall p, In p files -> doc_close E p = None.

(** The operations on the list a user can trigger, in any order. *)
Inductive list_op : Type :=
| AddPdfFiles (files_to_add : list text)
| ClearFiles
| ProcessFiles.

Definition apply_op (a : App) (o : list_op) : App :=
  match o with
  | AddPdfFiles fs => add_pdf_files a fs
  | ClearFiles => clear_files a
  | ProcessFiles => process_files a
  end.

(** The record of a file whose text is [extracted]. *)
Definition record_for (a : App) (pdf_path extracted : text) : data_record :=
  let filename := basename E pdf_path in
  {| pdf_filename := filename; extracted_text := extracted;
     gemini_summary :=
       fst (generate_summary_and_topics a extracted filename);
     gemini_topics :=
       snd (generate_summary_and_topics a extracted filename) |}.

(** The record step 4 of the loop writes for a file, if the file gets
    there. *)
Definition lines_written (a : App) (pdf_path : text) : list data_record :=
  match extract_and_clean_text pdf_path with
  | None => []
  | Some extracted =>
      if other_language (detect_language extracted) then []
      else [record_for a pdf_path extracted]
  end.

(** No [json.dump], [write] or [flush] of the run raises. *)
Definition writes_return (a : App) (files : list text) : Prop :=
  forall p, In p files ->
    forall r, In r (lines_written a p) -> json_dump E r = None.

End WithEnv.

End TrainSet.

(** ** scrape.py

    The browser is an oracle: a page records what each of its calls does when
    it is made, a value or the exception raised (Playwright's timeout or any
    other [Exception]).  The file system maps a path, a list of components
    below the working directory, to what is stored there.  Logging is left
    out.  A computation takes the world, the file system and the list of the
    calls made so far, to its result or exception and the new world. *)

Module Scrape.
Import PyStr.

Definition path := list text.

Definition OUTPUT_DIR : path := [lit "pib_archive_pdfs"].
Definition COLLECTIVE_OUTPUT_DIR : path := [lit "pib_archive_pdfs_collective"].
Definition BASE_PRINT_URL : text :=
  lit "https://archive.pib.gov.in/newsite/PrintRelease.aspx?relid=".

Inductive exn : Type := PlaywrightTimeoutError | OtherException.

Inductive outcome (A : Type) : Type :=
| Ok (a : A)
| Raise (e : exn).
Arguments Raise {A} e.

Inductive node : Type :=
| Dir
| File (data : text).

Definition filesystem := path -> option node.

Definition path_eq_dec : forall p q : path, {p = q} + {p <> q} :=
  list_eq_dec text_eq_dec.

Definition fs_set (f : filesystem) (p : path) (n : node) : filesystem :=
  fun q => if path_eq_dec q p then Some n else f q.

Inductive event : Type :=
| EvMakedirs (p : path)
| EvCopy (src dst : path)
| EvNewPage
| EvGoto (url : text)
| EvWaitForLoadState
| EvWaitForTimeout
| EvAddStyleTag
| EvPdf (p : path)
| EvClose.

Record world : Type := { fs : filesystem; events : list event }.

Definition M (A : Type) : Type := world -> outcome A * world.

Definition ret {A} (a : A) : M A := fun w => (Ok a, w).
Definition raise {A} (e : exn) : M A := fun w => (Raise e, w).
Definition bind {A B} (m : M A) (k : A -> M B) : M B :=
  fun w => match m w with
           | (Ok a, w') => k a w'
           | (Raise e, w') => (Raise e, w')
           end.

(** [try: m except Exception as e: h e] *)
Definition try_except {A} (m : M A) (h : exn -> M A) : M A :=
  fun w => match m w with
           | (Ok a, w') => (Ok a, w')
           | (Raise e, w') => h e w'
           end.

Declare Scope scrape_scope.
Delimit Scope scrape_scope with scrape.
Notation "x <- m ;; k" := (bind m (fun x => k))
  (at level 61, m at next level, right associativity) : scrape_scope.
Notation "m ;; k" := (bind m (fun _ => k))
  (at level 61, right associativity) : scrape_scope.
Local Open Scope scrape_scope.

Definition emit (e : event) : M unit :=
  fun w => (Ok tt, {| fs := fs w; events := events w ++ [e] |}).

Definition lookup (p : path) : M (option node) := fun w => (Ok (fs w p), w).

Definition store (p : path) (n : node) : M unit :=
  fun w => (Ok tt, {| fs := fs_set (fs w) p n; events := events w |}).

(** The result of an oracle call. *)
Definition call {A} (r : outcome A) : M A := fun w => (r, w).

(** [os.path.exists] *)
Definition exists_ (p : path) : M bool :=
  n <- lookup p ;;
  ret (match n with Some _ => true | None => false end).

(** [os.makedirs(pre/rest, exist_ok=True)], [pre] being there: the missing
    directories are made from the top; a file on the way is an [OSError]. *)
Fixpoint makedirs_from (pre rest : path) : M unit :=
  match rest with
  | [] => ret tt
  | c :: rest' =>
      let p := pre ++ [c] in
      n <- lookup p ;;
      match n with
      | Some (File _) => raise OtherException
      | Some Dir => makedirs_from p rest'
      | None => store p Dir ;; makedirs_from p rest'
      end
  end.

Definition makedirs (p : path) : M unit :=
  emit (EvMakedirs p) ;; makedirs_from [] p.

(** Writing a file needs its directory and no directory of its name. *)
Definition write_file (p : path) (data : text) : M unit :=
  target <- lookup p ;;
  parent <- lookup (removelast p) ;;
  match target with
  | Some Dir => raise OtherException
  | _ =>
      match removelast p, parent with
      | [], _ => store p (File data)
      | _ :: _, Some Dir => store p (File data)
      | _ :: _, _ => raise OtherException
      end
  end.

(** [shutil.copy2(src, dst)] *)
Definition copy2 (src dst : path) : M unit :=
  emit (EvCopy src dst) ;;
  s <- lookup src ;;
  match s with
  | Some (File data) =>
      d <- lookup dst ;;
      match d with
      | Some Dir => write_file (dst ++ [last src []]) data
      | _ => write_file dst data
      end
  | _ => raise OtherException
  end.

Record page : Type := {
  url : text;
  goto : outcome unit;
  wait_for_load_state : outcome unit;
  wait_for_timeout : outcome unit;
  add_style_tag : outcome unit;
  pdf : outcome text;
  is_closed : bool;
  close : outcome unit
}.

(** [page.pdf(path=p, ...)] *)
Definition page_pdf (pg : page) (p : path) : M unit :=
  emit (EvPdf p) ;;
  data <- call (pdf pg) ;;
  write_file p data.

(** [f"PIB_{relid}{year}{month_str}_{day_str}.pdf"] *)
Definition pdf_filename (relid : text) (year month day : Z) : text :=
  let month_str := zfill 2 (str_of_Z month) in
  let day_str := zfill 2 (str_of_Z day) in
  lit "PIB_" ++ relid ++ str_of_Z year ++ month_str ++ lit "_" ++ day_str
  ++ lit ".pdf".

(** [str(n).zfill(2)] on the numbers of a month or a day. *)
Definition two_digits (n : Z) : text := zfill 2 (str_of_Z n).

(** A four-digit year with a month and a day in range. *)
Definition valid_date (year month day : Z) : Prop :=
  (1000 <= year <= 9999 /\ 1 <= month <= 12 /\ 1 <= day <= 31)%Z.

Definition pdf_dir (year month : Z) : path :=
  OUTPUT_DIR ++ [str_of_Z year; zfill 2 (str_of_Z month)].

Definition collective_pdf_path (relid : text) (year month day : Z) : path :=
  COLLECTIVE_OUTPUT_DIR ++ [pdf_filename relid year month day].

(** Both handlers of the outer [try] log and fall to the last line,
    [return False]. *)
Definition save_page_as_pdf (pg : page) (relid : text) (year month day : Z)
  : M bool :=
  try_except
    (let pdf_dir := pdf_dir year month in
     makedirs pdf_dir ;;
     let pdf_filename := pdf_filename relid year month day in
     let pdf_path := pdf_dir ++ [pdf_filename] in
     let collective_pdf_path := COLLECTIVE_OUTPUT_DIR ++ [pdf_filename] in
     in_collective <- exists_ collective_pdf_path ;;
     if in_collective then ret false
     else
       in_date_folder <- exists_ pdf_path ;;
       if in_date_folder then
         try_except (copy2 pdf_path collective_pdf_path) (fun _ => ret tt) ;;
         ret false
       else
         emit EvWaitForLoadState ;;
         call (wait_for_load_state pg) ;;
         emit EvWaitForTimeout ;;
         call (wait_for_timeout pg) ;;
         try_except (emit EvAddStyleTag ;; call (add_style_tag pg))
           (fun _ => ret tt) ;;
         page_pdf pg pdf_path ;;
         let saved_to_date_folder := true in
         (if saved_to_date_folder
          then try_except (copy2 pdf_path collective_pdf_path) (fun _ => ret tt)
          else ret tt) ;;
         ret saved_to_date_folder)
    (fun _ => ret false).

Record release_info : Type := {
  relid : text;
  year : Z;
  month : Z;
  day : Z
}.

(** [context.new_page()] for a release: the tab, or the exception. *)
Record context : Type := { new_page : release_info -> outcome page }.

(** After the [try] with its two handlers, [finally] closes the tab that
    was opened and is not closed, outside any handler. *)
Definition process_single_release (ctx : context) (ri : release_info)
  : M bool :=
  let print_view_url := BASE_PRINT_URL ++ relid ri in
  emit EvNewPage ;;
  opened <- try_except (pg <- call (new_page ctx ri) ;; ret (Some pg))
              (fun _ => ret None) ;;
  match opened with
  | None => ret false
  | Some print_page =>
      saved <- try_except
                 (emit (EvGoto print_view_url) ;;
                  call (goto print_page) ;;
                  save_page_as_pdf print_page (relid ri) (year ri) (month ri)
                    (day ri))
                 (fun _ => ret false) ;;
      (* finally *)
      (if negb (is_closed print_page)
       then emit EvClose ;; call (close print_page)
       else ret tt) ;;
      ret saved
  end.

(** [asyncio.gather( *tasks, return_exceptions=True)], the tasks taken one
    after the other: a result per task, its value or its exception. *)
Fixpoint gather (tasks : list (M bool)) (w : world)
  : list (outcome bool) * world :=
  match tasks with
  | [] => ([], w)
  | t :: ts =>
      let (r, w1) := t w in
      let (rs, w2) := gather ts w1 in
      (r :: rs, w2)
  end.

(** The counters of phase 2: new saves, skipped or existing, failures. *)
Fixpoint tally (results : list (outcome bool)) : nat * nat * nat :=
  match results with
  | [] => (0, 0, 0)
  | r :: rs =>
      let '(success_count, skipped_count, fail_count) := tally rs in
      match r with
      | Raise _ => (success_count, skipped_count, S fail_count)
      | Ok true => (S success_count, skipped_count, fail_count)
      | Ok false => (success_count, S skipped_count, fail_count)
      end
  end.

(** Phase 2 of a year of [main]. *)
Definition phase2 (ctx : context) (releases_for_year : list release_info)
  (w : world) : list (outcome bool) * world :=
  gather (map (process_single_release ctx) releases_for_year) w.

End Scrape.

(** ** Sample runs *)

Module Demo.
Import PyStr TrainSet.

(** A response with both blocks and a comment line among the topics. *)
Definition response : text :=
  lit "--- SUMMARY START ---" ++ [nl] ++ lit "A summary." ++ [nl]
  ++ lit "--- SUMMARY END ---" ++ [nl]
  ++ lit "--- TOPICS JSON START ---" ++ [nl]
  ++ lit "// topics" ++ [nl] ++ lit "[]" ++ [nl]
  ++ lit "--- TOPICS JSON END ---".

Definition topics_block : text := lit "// topics" ++ [nl] ++ lit "[]".

Definition page_text : text :=
  lit "The Union Cabinet approved the proposal for a new railway line today.".

(** A topics block of arrays nested a thousand deep, on which [json.loads]
    raises [RecursionError], and a response with it. *)
Definition deep_block : text :=
  repeat "["%char 1000 ++ repeat "]"%char 1000.


(** An environment in which only "broken.pdf" cannot be read, the model
    answers [reply], and the parser knows the empty array and gives up on
    [deep_block]; [key] is the API key.  [write_error] is what [flush] raises
    for every record, and [close] at the end, as on a full disk: the lines
    stay in the buffer of the file object and are lost with it.  The user
    chooses "dataset.jsonl", and the files of the run can be opened. *)
Definition env_with (key write_error : option text) (reply : text) : Env :=
  {| getenv := fun _ => key;
     genai_model := fun _ => Some (GenerativeModel (lit "gemini-1.5-flash-latest"));
     fitz_text := fun p =>
       if text_eqb p (lit "broken.pdf") then None else Some page_text;
     doc_close := fun _ => None;
     detect := fun _ => Some (lit "en");
     generate_content := fun _ => ApiResponse reply;
     json_loads := fun s =>
       if text_eqb s (lit "[]") then Loaded (JArray [])
       else if text_eqb s deep_block then LoadsRaised
       else JSONDecodeError;
     json_dump := fun _ => write_error;
     json_dump_leaves := fun pending r => pending ++ [Line r];
     asksaveasfilename := lit "dataset.jsonl";
     splitext := fun _ => Some (lit "dataset");
     open_log := fun _ => None;
     open_jsonl := fun _ => None;
     close_jsonl := fun _ =>
       match write_error with
       | None => None
       | Some _ => Some (0, false)
       end;
     normpath := fun p => p;
     basename := fun p => p |}.

Definition env (key write_error : option text) : Env :=
  env_with key write_error response.

Definition env_ok : Env := env (Some (lit "key")) None.
Definition env_no_key : Env := env None None.
Definition env_disk_full : Env :=
  env (Some (lit "key")) (Some (lit "No space left on device")).

(** The tool started, with two files added. *)
Definition app (E : Env) : App :=
  add_pdf_files E (init E blank_app) [lit "a.pdf"; lit "broken.pdf"].

Import Scrape.

(** A tab on which every call works; [close_result] is what [close] does. *)
Definition tab (close_result : outcome unit) : page :=
  {| url := lit "https://archive.pib.gov.in/newsite/PrintRelease.aspx?relid=12345";
     goto := Ok tt; wait_for_load_state := Ok tt; wait_for_timeout := Ok tt;
     add_style_tag := Ok tt; pdf := Ok (lit "%PDF-1.4");
     is_closed := false; close := close_result |}.


(** The two output folders as [main] makes them, the collective one with the
    PDF of [release]; the dated folders are not there. *)
Definition world_with_collective : world :=
  {| fs := fun p =>
       if path_eq_dec p (collective_pdf_path (lit "12345") 2004 1 5)
       then Some (File (lit "%PDF-1.4"))
       else if path_eq_dec p COLLECTIVE_OUTPUT_DIR then Some Dir
       else if path_eq_dec p OUTPUT_DIR then Some Dir
       else None;
     events := [] |}.

End Demo.

(** ** More of Python's strings *)

Module PyLib.
Import PyStr.

(** Two neighbouring characters that both satisfy [p]. *)
Fixpoint adjacent (p : ascii -> bool) (s : text) : bool :=
  match s with
  | [] => false
  | a :: t =>
      match t with
      | [] => false
      | b :: _ => (p a && p b) || adjacent p t
      end
  end.

(** [str.lower] on one character: the capital letters of ASCII and of
    Latin-1 (all of U+00C0..U+00DE but the multiplication sign). *)
Definition lower_char (c : ascii) : ascii :=
  let n := code c in
  if ((65 <=? n) && (n <=? 90)
      || (192 <=? n) && (n <=? 222) && negb (n =? 215))%N
  then ascii_of_N (n + 32) else c.

(** [s.lower()] *)
Definition lower (s : text) : text := map lower_char s.

(** [s.endswith(w)] *)
Definition endswith (w s : text) : bool := startswith (rev w) (rev s).

(** [str.isdigit] on one character: the decimal digits and the superscripts
    two, three and one. *)
Definition isdigit_char (c : ascii) : bool :=
  let n := code c in
  ((48 <=? n) && (n <=? 57) || (n =? 178) || (n =? 179) || (n =? 185))%N.

(** [s.isdigit()]: every character is a digit and there is at least one. *)
Definition str_isdigit (s : text) : bool :=
  match s with
  | [] => false
  | _ :: _ => forallb isdigit_char s
  end.

(** The characters of the lines, with one more for each line. *)
Definition weight (ls : list text) : nat :=
  list_sum (map (fun l => S (length l)) ls).

(** [format(s, '<width')]: spaces are added on the right up to [width]. *)
Definition ljust (width : nat) (s : text) : text :=
  s ++ repeat sp (width - length s).

End PyLib.

(** ** Train_set.py: the rest of the tool *)

Module TrainSetRest.
Import PyStr Re TrainSet PyLib.

Definition MIN_CHARS_BETWEEN_MULTI_SPACE : nat := 5.
Definition MIN_LARGE_GAPS_TO_FILTER : nat := 2.

(** [pattern.finditer(s)], the spans of the matches, for a pattern that
    matches no empty string: [pos] is the index of the head of the text and
    [skip] counts the characters of the current match still to pass over. *)
Fixpoint finditer_from (r : regex) (pos skip : nat) (s : text)
  : list (nat * nat) :=
  match s with
  | [] => []
  | c :: t =>
      match skip with
      | S k => finditer_from r (S pos) k t
      | O =>
          match re_match r s with
          | Some (S k) => (pos, pos + S k) :: finditer_from r (S pos) k t
          | _ => finditer_from r (S pos) 0 t
          end
      end
  end.

Definition finditer (r : regex) (s : text) : list (nat * nat) :=
  finditer_from r 0 0 s.

(** The test [0 < len(segment) < MIN_CHARS_BETWEEN_MULTI_SPACE]. *)
Definition is_short (segment : text) : bool :=
  (0 <? length segment) && (length segment <? MIN_CHARS_BETWEEN_MULTI_SPACE).

(** The loop over the gaps: [last_pos] and [short_segment_count]. *)
Fixpoint gaps_loop (line : text) (gaps : list (nat * nat))
    (last_pos short_segment_count : nat) : nat * nat :=
  match gaps with
  | [] => (last_pos, short_segment_count)
  | (start, stop) :: rest =>
      let segment := strip (slice line last_pos start) in
      gaps_loop line rest stop
        (if is_short segment then S short_segment_count
         else short_segment_count)
  end.

Definition is_likely_table_line (line : text) : bool :=
  let line := strip line in
  let gaps := finditer multi_space_pattern line in
  if MIN_LARGE_GAPS_TO_FILTER <=? length gaps then
    let (last_pos, short_segment_count) := gaps_loop line gaps 0 0 in
    let segment := strip (skipn last_pos line) in
    let short_segment_count :=
      if is_short segment then S short_segment_count
      else short_segment_count in
    0 <? short_segment_count
  else false.

Section WithEnv.
Variable E : Env.

(** [on_drop], [files] being what [splitlist] makes of the event. *)
Definition on_drop (a : App) (files : list text) : App :=
  let pdf_files_dropped :=
    filter (fun f => endswith (lit ".pdf") (lower f)) files in
  match pdf_files_dropped with
  | [] => emit a (ShowWarning (lit "No PDFs"))
  | _ :: _ => add_pdf_files E a pdf_files_dropped
  end.

(** [add_files], [files] being what the dialog returns. *)
Definition add_files (a : App) (files : list text) : App :=
  match files with
  | [] => a
  | _ :: _ => add_pdf_files E a files
  end.

End WithEnv.

(** *** The summary of a run *)

Definition status_eqb (s t : status) : bool :=
  match s, t with
  | UNKNOWN, UNKNOWN | SUCCESS, SUCCESS | SKIP, SKIP | FAIL, FAIL => true
  | _, _ => false
  end.

(** [sum(1 for d in per_file_details if d['status'] == s)] *)
Definition count_status (s : status) (ds : list file_details) : nat :=
  length (filter (fun d => status_eqb (fd_status d) s) ds).

Definition success_count (a : App) : nat := count_status SUCCESS (per_file_details a).
Definition skipped_count (a : App) : nat := count_status SKIP (per_file_details a).
Definition failed_count (a : App) : nat := count_status FAIL (per_file_details a).

(** The records of the dataset that have a summary. *)
Definition records_with_summary (ls : list data_record) : nat :=
  length (filter (fun r => match gemini_summary r with
                           | Some _ => true
                           | None => false
                           end) ls).

Definition status_name (s : status) : text :=
  match s with
  | UNKNOWN => lit "UNKNOWN"
  | SUCCESS => lit "SUCCESS"
  | SKIP => lit "SKIP"
  | FAIL => lit "FAIL"
  end.

(** [(filename[:42] + '...') if len(filename) > 45 else filename] *)
Definition display_filename (filename : text) : text :=
  if 45 <? length filename then firstn 42 filename ++ lit "..."
  else filename.

(** A row of the detailed log up to its second bar,
    [f"{display_filename:<45} | {status:<8} | "]; the two times that follow
    are floating-point numbers and are left out. *)
Definition row_start (d : file_details) : text :=
  ljust 45 (display_filename (fd_filename d)) ++ lit " | "
  ++ ljust 8 (status_name (fd_status d)) ++ lit " | ".

(** The header of the detailed log up to its second bar. *)
Definition header_start : text :=
  ljust 45 (lit "Filename") ++ lit " | " ++ ljust 8 (lit "Status")
  ++ lit " | ".

End TrainSetRest.

(** ** scrape.py: the dates and the collection of release ids *)

Module ScrapeMain.
Import PyStr PyLib Scrape.

Definition START_YEAR : Z := 2004.

(** A [datetime.date]. *)
Record date : Type := { dyear : Z; dmonth : Z; dday : Z }.

(** [calendar.isleap] *)
Definition isleap (y : Z) : bool :=
  ((y mod 4 =? 0) && (negb (y mod 100 =? 0) || (y mod 400 =? 0)))%Z.

Definition mdays : list Z :=
  [0; 31; 28; 31; 30; 31; 30; 31; 31; 30; 31; 30; 31]%Z.

(** [calendar.monthrange(year, month)[1]] for a month from 1 to 12. *)
Definition days_in_month (y m : Z) : Z :=
  (nth (Z.to_nat m) mdays 0 + (if (m =? 2) && isleap y then 1 else 0))%Z.

(** [a > b] on dates. *)
Definition date_gt (a b : date) : bool :=
  ((dyear b <? dyear a)
   || (dyear a =? dyear b)
      && ((dmonth b <? dmonth a)
          || (dmonth a =? dmonth b) && (dday b <? dday a)))%Z.

(** [range(a, b)] *)
Definition py_range (a b : Z) : list Z := zrange a (b - 1).

(** The dates of the two loops over the months and the days of a year. *)
Definition dates_of_year (y : Z) : list date :=
  flat_map
    (fun m =>
       map (fun d => {| dyear := y; dmonth := m; dday := d |})
         (py_range 1 (days_in_month y m + 1)))
    (py_range 1 13).

(** The months and days of the two loops in a leap year or a common year. *)
Definition calendar_days (leap : bool) : list (Z * Z) :=
  flat_map
    (fun m =>
       map (fun d => (m, d))
         (py_range 1
            (nth (Z.to_nat m) mdays 0
             + (if (m =? 2) && leap then 1 else 0) + 1)))%Z
    (py_range 1 13).

Definition month_day_dec : forall a b : Z * Z, {a = b} + {a <> b}.
Proof. decide equality; apply Z.eq_dec. Defined.

(** The test of the day loop, [current_processing_date > today], passed. *)
Definition visited (today : date) (d : date) : bool := negb (date_gt d today).

(** What the archive page gives for a date: the [id] attributes of the
    release items read before an exception, if any, ended the [try]. *)
Definition listing := date -> list (option text) * option exn.

(** The test [item_id and item_id.isdigit()] and the dictionary appended. *)
Definition collect_item (d : date) (item_id : option text)
  : list release_info :=
  match item_id with
  | Some s =>
      if str_isdigit s
      then [{| relid := s; year := dyear d; month := dmonth d;
               day := dday d |}]
      else []
  | None => []
  end.

(** The body of the loop over the days: [releases_for_year] and
    [collection_errors]. *)
Definition visit (today : date) (site : listing)
    (acc : list release_info * nat) (d : date) : list release_info * nat :=
  if date_gt d today then acc
  else
    let (ids, err) := site d in
    (fst acc ++ flat_map (collect_item d) ids,
     match err with
     | Some _ => S (snd acc)
     | None => snd acc
     end).

(** Phase 1 of a year. *)
Definition phase1 (today : date) (site : listing) (y : Z)
  : list release_info * nat :=
  fold_left (visit today site) (dates_of_year y) ([], 0).

(** A year of [main]: the counters of phase 2, if it runs. *)
Definition process_year (today : date) (site : listing) (ctx : context)
    (w : world) (y : Z) : option (nat * nat * nat) * world :=
  match fst (phase1 today site y) with
  | [] => (None, w)
  | _ :: _ =>
      let (results, w') := phase2 ctx (fst (phase1 today site y)) w in
      (Some (tally results), w')
  end.

(** The loop over the years of [main], from [START_YEAR] to the year of
    today. *)
Definition process_years (today : date) (site : listing) (ctx : context)
    (w : world) : world :=
  fold_left (fun w y => snd (process_year today site ctx w y))
    (py_range START_YEAR (dyear today + 1)) w.

End ScrapeMain.

(** ** More sample runs *)

Module DemoRest.
Import PyStr PyLib TrainSet Scrape ScrapeMain Demo.

Definition today : date := {| dyear := 2024; dmonth := 2; dday := 10 |}.

(** The archive has two items on 5 January 2024, one without a numeric id,
    and times out on 6 January after one item. *)
Definition site : listing :=
  fun d =>
    if ((dmonth d =? 1) && (dday d =? 5))%Z
    then ([Some (lit "12345"); Some (lit "abc")], None)
    else if ((dmonth d =? 1) && (dday d =? 6))%Z
    then ([Some (lit "777")], Some PlaywrightTimeoutError)
    else ([], None).

(** An environment in which every PDF is a scan with a page number for
    text. *)
Definition env_scan : Env :=
  {| getenv := fun _ => Some (lit "key");
     genai_model := fun _ => Some (GenerativeModel (lit "gemini-1.5-flash-latest"));
     fitz_text := fun _ => Some (lit "  Page 1  ");
     detect := fun _ => Some (lit "fr");
     doc_close := fun _ => None;
     generate_content := fun _ => ApiResponse response;
     json_loads := fun _ => JSONDecodeError;
     json_dump := fun _ => None;
     json_dump_leaves := fun pending _ => pending;
     asksaveasfilename := lit "scans.jsonl";
     splitext := fun _ => Some (lit "scans");
     open_log := fun _ => None;
     open_jsonl := fun _ => None;
     close_jsonl := fun _ => None;
     normpath := fun p => p;
     basename := fun p => p |}.

(** [env_ok] with a dataset file that cannot be opened. *)
Definition env_locked : Env :=
  {| getenv := getenv env_ok; genai_model := genai_model env_ok;
     fitz_text := fitz_text env_ok; doc_close := doc_close env_ok;
     detect := detect env_ok; generate_content := generate_content env_ok;
     json_loads := json_loads env_ok; json_dump := json_dump env_ok;
     json_dump_leaves := json_dump_leaves env_ok;
     asksaveasfilename := asksaveasfilename env_ok;
     splitext := splitext env_ok; open_log := open_log env_ok;
     open_jsonl := fun _ => Some (lit "Permission denied");
     close_jsonl := close_jsonl env_ok;
     normpath := normpath env_ok; basename := basename env_ok |}.

(** [env_ok] with a [flush] that raises for the record of "a.pdf" only: the
    line stays in the buffer of the file object. *)
Definition env_flaky : Env :=
  {| getenv := getenv env_ok; genai_model := genai_model env_ok;
     fitz_text := fitz_text env_ok; doc_close := doc_close env_ok;
     detect := detect env_ok; generate_content := generate_content env_ok;
     json_loads := json_loads env_ok;
     json_dump := fun r =>
       if text_eqb (TrainSet.pdf_filename r) (lit "a.pdf")
       then Some (lit "Input/output error") else None;
     json_dump_leaves := fun pending r => pending ++ [Line r];
     asksaveasfilename := asksaveasfilename env_ok;
     splitext := splitext env_ok; open_log := open_log env_ok;
     open_jsonl := open_jsonl env_ok; close_jsonl := close_jsonl env_ok;
     normpath := normpath env_ok; basename := basename env_ok |}.

(** [env_ok] with a [doc.close()] that raises for "b.pdf". *)
Definition env_close : Env :=
  {| getenv := getenv env_ok; genai_model := genai_model env_ok;
     fitz_text := fitz_text env_ok;
     doc_close := fun p =>
       if text_eqb p (lit "b.pdf") then Some (lit "document closed")
       else None;
     detect := detect env_ok; generate_content := generate_content env_ok;
     json_loads := json_loads env_ok; json_dump := json_dump env_ok;
     json_dump_leaves := json_dump_leaves env_ok;
     asksaveasfilename := asksaveasfilename env_ok;
     splitext := splitext env_ok; open_log := open_log env_ok;
     open_jsonl := open_jsonl env_ok; close_jsonl := close_jsonl env_ok;
     normpath := normpath env_ok; basename := basename env_ok |}.

(** The tool started, with three files added. *)
Definition app3 (E : Env) : App :=
  add_pdf_files E (init E blank_app) [lit "a.pdf"; lit "b.pdf"; lit "c.pdf"].

(** A context in which every tab opens and works. *)
Definition ctx_ok : context :=
  {| new_page := fun _ => Ok (tab (Ok tt)) |}.

(** The release of 5 January 2024 the archive of [site] lists. *)
Definition collected : release_info :=
  {| relid := lit "12345"; year := 2024; month := 1; day := 5 |}.

(** The dated PDF of [release] is there, the collective folder is empty. *)
Definition world_with_dated : world :=
  {| fs := fun p =>
       if path_eq_dec p (pdf_dir 2004 1 ++ [pdf_filename (lit "12345") 2004 1 5])
       then Some (File (lit "%PDF-1.4"))
       else if path_eq_dec p (pdf_dir 2004 1) then Some Dir
       else if path_eq_dec p (OUTPUT_DIR ++ [lit "2004"]) then Some Dir
       else if path_eq_dec p COLLECTIVE_OUTPUT_DIR then Some Dir
       else if path_eq_dec p OUTPUT_DIR then Some Dir
       else None;
     events := [] |}.

(** The two output folders as [main] makes them, both empty. *)
Definition world_fresh : world :=
  {| fs := fun p =>
       if path_eq_dec p COLLECTIVE_OUTPUT_DIR then Some Dir
       else if path_eq_dec p OUTPUT_DIR then Some Dir
       else None;
     events := [] |}.

End DemoRest.

(** * Properties *)

Import PyStr Re TrainSet.

(** ** Strings *)

Section StringFacts.

Lemma text_eqb_eq (a b : text) : text_eqb a b = true <-> a = b.
Proof.
  unfold text_eqb. destruct (text_eq_dec a b); split; congruence.
Qed.

Lemma drop_while_lclean (s : text) : lclean (drop_while isspace s).
Proof.
  induction s as [|c r IH]; simpl; [exact I|].
  destruct (isspace c) eqn:Hc; [exact IH | exact Hc].
Qed.

Lemma drop_while_id (s : text) : lclean s -> drop_while isspace s = s.
Proof.
  destruct s as [|c r]; simpl; [reflexivity|]. intros ->. reflexivity.
Qed.

Lemma drop_while_suffix (p : ascii -> bool) (s : text) :
  exists w, s = w ++ drop_while p s.
Proof.
  induction s as [|c r [w IH]]; simpl.
  - exists []. reflexivity.
  - destruct (p c).
    + exists (c :: w). simpl. f_equal. exact IH.
    + exists []. reflexivity.
Qed.

Lemma rstrip_prefix (s : text) : exists w, s = rstrip s ++ w.
Proof.
  unfold rstrip. destruct (drop_while_suffix isspace (rev s)) as [w Hw].
  exists (rev w). rewrite <- rev_app_distr, <- Hw, rev_involutive. reflexivity.
Qed.

Lemma lclean_prefix (a w : text) : lclean (a ++ w) -> a <> [] -> lclean a.
Proof.
  destruct a as [|c a']; [congruence|]. simpl. auto.
Qed.

Lemma lclean_app (a w : text) : lclean a -> a <> [] -> lclean (a ++ w).
Proof.
  destruct a as [|c a']; [congruence|]. simpl. auto.
Qed.

Lemma strip_trimmed (s : text) : trimmed (strip s).
Proof.
  unfold trimmed, strip. split.
  - destruct (rstrip_prefix (lstrip s)) as [w Hw].
    destruct (rstrip (lstrip s)) as [|c r] eqn:E; [exact I|].
    apply lclean_prefix with (w := w); [|discriminate].
    rewrite <- Hw. apply drop_while_lclean.
  - unfold rstrip. rewrite rev_involutive. apply drop_while_lclean.
Qed.

Lemma strip_id (s : text) : trimmed s -> strip s = s.
Proof.
  intros [Hl Hr]. unfold strip, rstrip, lstrip.
  rewrite (drop_while_id _ Hl), (drop_while_id _ Hr). apply rev_involutive.
Qed.

Lemma Forall_drop_while (P : ascii -> Prop) (p : ascii -> bool) (s : text) :
  Forall P s -> Forall P (drop_while p s).
Proof.
  induction 1 as [|c r Hc Hr IH]; simpl; [constructor|].
  destruct (p c); [exact IH | constructor; assumption].
Qed.

Lemma Forall_strip (P : ascii -> Prop) (s : text) :
  Forall P s -> Forall P (strip s).
Proof.
  intros H. unfold strip, rstrip, lstrip.
  apply Forall_rev, Forall_drop_while, Forall_rev, Forall_drop_while, H.
Qed.

Lemma join_cons (sep l : text) (ls : list text) :
  ls <> [] -> join sep (l :: ls) = l ++ sep ++ join sep ls.
Proof.
  destruct ls; [congruence | reflexivity].
Qed.

Lemma join_nonempty (sep : text) (ls : list text) :
  ls <> [] -> Forall (fun l => l <> []) ls -> join sep ls <> [].
Proof.
  destruct ls as [|l ls']; [congruence|]. intros _ H.
  inversion H as [|? ? Hl Hls]; subst.
  destruct ls' as [|l2 ls'']; simpl; [exact Hl|].
  destruct l; [congruence | discriminate].
Qed.

Lemma splitlines_from_line (l cur rest : text) :
  nobreak l -> splitlines_from cur (l ++ rest) = splitlines_from (cur ++ l) rest.
Proof.
  intros H. revert cur. induction H as [|c r Hc Hr IH]; intros cur; simpl.
  - rewrite app_nil_r. reflexivity.
  - rewrite Hc, IH, <- app_assoc. reflexivity.
Qed.

Lemma splitlines_join (ls : list text) :
  Forall (fun l => l <> [] /\ nobreak l) ls ->
  splitlines (join [nl] ls) = ls.
Proof.
  induction 1 as [|l ls' [Hne Hnb] Hls IH]; [reflexivity|].
  unfold splitlines in *. destruct ls' as [|l2 ls''].
  - simpl. rewrite <- (app_nil_r l) at 1.
    rewrite splitlines_from_line by assumption. simpl.
    destruct l; [congruence | reflexivity].
  - rewrite join_cons by discriminate.
    rewrite splitlines_from_line by assumption.
    change ([] ++ l) with l. change ([nl] ++ ?x) with (nl :: x).
    assert (Hj : join [nl] (l2 :: ls'') <> []).
    { apply join_nonempty; [discriminate|].
      eapply Forall_impl; [|exact Hls]. simpl. tauto. }
    cbn [splitlines_from].
    change (is_linebreak nl) with true. cbv iota.
    destruct (join [nl] (l2 :: ls'')) as [|c' r'] eqn:Ej; [congruence|].
    change (Ascii.eqb nl cr) with false. cbv beta iota. simpl andb. cbv iota.
    rewrite IH. reflexivity.
Qed.

Lemma splitlines_from_nobreak (n : nat) :
  forall s cur, length s <= n -> nobreak cur ->
  Forall nobreak (splitlines_from cur s).
Proof.
  induction n as [|n IH]; intros s cur Hlen Hcur.
  - destruct s; [|simpl in Hlen; lia]. simpl.
    destruct cur; repeat constructor; inversion Hcur; assumption.
  - destruct s as [|c r]; simpl.
    + destruct cur; repeat constructor; inversion Hcur; assumption.
    + simpl in Hlen. destruct (is_linebreak c) eqn:Hc.
      * constructor; [exact Hcur|].
        destruct r as [|c' r']; [constructor|].
        destruct (Ascii.eqb c cr && Ascii.eqb c' nl).
        -- apply IH; [simpl in Hlen; lia | constructor].
        -- apply IH; [lia | constructor].
      * apply IH; [lia|]. apply Forall_app. split; [exact Hcur|].
        repeat constructor. exact Hc.
Qed.

Lemma splitlines_nobreak (s : text) : Forall nobreak (splitlines s).
Proof.
  apply splitlines_from_nobreak with (n := length s); [lia | constructor].
Qed.

End StringFacts.

(** ** Substitution *)

Section RegexFacts.

Lemma hd_countdown (k lo : nat) :
  hd_error (countdown k lo) = if lo <=? k then Some k else None.
Proof.
  unfold countdown. destruct (lo <=? k) eqn:E.
  - apply Nat.leb_le in E. replace (S k - lo) with (S (k - lo)) by lia.
    rewrite seq_S, rev_app_distr. simpl. f_equal. lia.
  - apply Nat.leb_gt in E. replace (S k - lo) with 0 by lia. reflexivity.
Qed.

Lemma re_match_rep (p : ascii -> bool) (lo : nat) (s : text) :
  re_match (re_rep p lo None) s =
  if lo <=? count_while p s then Some (count_while p s) else None.
Proof.
  unfold re_match, re_rep. apply hd_countdown.
Qed.

(** Deleting matches keeps what holds of every character. *)
Lemma sub_from_Forall (P : ascii -> Prop) (r : regex) (s : text) :
  Forall P s -> forall k, Forall P (sub_from r [] k s).
Proof.
  induction 1 as [|c t Hc Ht IH]; intros k; simpl; [constructor|].
  destruct k as [|k]; [|apply IH].
  destruct (re_match r (c :: t)) as [[|j]|]; simpl;
    try (constructor; [exact Hc | apply IH]); apply IH.
Qed.

(** Where the pattern is not found the substitution changes nothing. *)
Lemma sub_not_found (r : regex) (repl s : text) :
  search r s = false -> sub r repl s = s.
Proof.
  unfold sub. induction s as [|c t IH]; [reflexivity|].
  cbn [search sub_from].
  destruct (re_match r (c :: t)) as [[|j]|]; intros H;
    try discriminate; f_equal; apply IH; exact H.
Qed.

Lemma is_sp_eq (c : ascii) : is_sp c = true -> c = sp.
Proof. unfold is_sp. apply Ascii.eqb_eq. Qed.

Lemma re_match_spaces (c : ascii) (t : text) :
  re_match spaces_pattern (c :: t) =
  if is_sp c then Some (S (count_while is_sp t)) else None.
Proof.
  unfold spaces_pattern, re_plus. rewrite re_match_rep.
  cbn [count_while]. destruct (is_sp c); reflexivity.
Qed.

Lemma sub_spaces_squeeze (s : text) :
  sub_from spaces_pattern [sp] 0 s = squeeze false s /\
  sub_from spaces_pattern [sp] (count_while is_sp s) s
  = squeeze true s.
Proof.
  induction s as [|c t [IH0 IH1]]; [split; reflexivity|].
  assert (H0 : sub_from spaces_pattern [sp] 0 (c :: t)
               = squeeze false (c :: t)).
  { cbn [sub_from squeeze]. rewrite re_match_spaces.
    destruct (is_sp c) eqn:Hc.
    - rewrite IH1. reflexivity.
    - rewrite IH0. reflexivity. }
  split; [exact H0|].
  cbn [count_while]. destruct (is_sp c) eqn:Hc.
  - cbn [sub_from squeeze]. rewrite Hc. exact IH1.
  - rewrite H0. cbn [squeeze]. rewrite Hc. reflexivity.
Qed.

Lemma sub_spaces (s : text) :
  sub spaces_pattern [sp] s = squeeze false s.
Proof. apply sub_spaces_squeeze. Qed.

Lemma squeeze_line (l rest : text) (b : bool) :
  squeeze b (l ++ nl :: rest) = squeeze b l ++ nl :: squeeze false rest.
Proof.
  revert b. induction l as [|c t IH]; intros b; [reflexivity|].
  simpl. destruct (is_sp c); [destruct b|]; rewrite IH; reflexivity.
Qed.

Lemma squeeze_join (ls : list text) :
  squeeze false (join [nl] ls) = join [nl] (map (squeeze false) ls).
Proof.
  induction ls as [|l ls' IH]; [reflexivity|].
  destruct ls' as [|l2 ls'']; [reflexivity|].
  rewrite join_cons by discriminate.
  change ([nl] ++ ?x) with (nl :: x). rewrite squeeze_line, IH.
  reflexivity.
Qed.

Lemma squeeze_last (l : text) (c : ascii) (b : bool) :
  is_sp c = false -> squeeze b (l ++ [c]) = squeeze b l ++ [c].
Proof.
  intros Hc. revert b. induction l as [|d t IH]; intros b; simpl.
  - rewrite Hc. reflexivity.
  - destruct (is_sp d); [destruct b|]; rewrite IH; reflexivity.
Qed.

Lemma squeeze_Forall (P : ascii -> Prop) (s : text) :
  Forall P s -> forall b, Forall P (squeeze b s).
Proof.
  induction 1 as [|c t Hc Ht IH]; intros b; simpl; [constructor|].
  destruct (is_sp c) eqn:E.
  - destruct b; [apply IH|]. constructor; [|apply IH].
    apply is_sp_eq in E. subst c. exact Hc.
  - constructor; [exact Hc | apply IH].
Qed.

Lemma squeeze_idem (s : text) (b : bool) :
  squeeze b (squeeze b s) = squeeze b s.
Proof.
  revert b. induction s as [|c t IH]; intros b; [reflexivity|].
  cbn [squeeze]. destruct (is_sp c) eqn:Hc.
  - destruct b; [apply IH|].
    cbn [squeeze]. change (is_sp sp) with true. cbv iota.
    rewrite IH. reflexivity.
  - cbn [squeeze]. rewrite Hc, IH. reflexivity.
Qed.

Lemma squeeze_nonempty (s : text) :
  s <> [] -> squeeze false s <> [].
Proof.
  destruct s as [|c t]; [congruence|]. intros _. simpl.
  destruct (is_sp c); discriminate.
Qed.

Lemma isspace_sp (c : ascii) : is_sp c = true -> isspace c = true.
Proof. intros H. apply is_sp_eq in H. subst c. reflexivity. Qed.

Lemma squeeze_trimmed (s : text) :
  trimmed s -> trimmed (squeeze false s).
Proof.
  intros [Hl Hr]. split.
  - destruct s as [|c t]; [exact I|]. simpl in Hl. simpl.
    destruct (is_sp c) eqn:Hc; [|exact Hl].
    apply isspace_sp in Hc. congruence.
  - destruct (rev s) as [|c t] eqn:Er.
    + apply (f_equal (@rev ascii)) in Er. rewrite rev_involutive in Er.
      subst s. exact I.
    + apply (f_equal (@rev ascii)) in Er. rewrite rev_involutive in Er.
      subst s. simpl in Hr. simpl rev.
      assert (Hc : is_sp c = false).
      { destruct (is_sp c) eqn:Hc; [|reflexivity].
        apply isspace_sp in Hc. congruence. }
      rewrite squeeze_last by exact Hc. rewrite rev_app_distr. exact Hr.
Qed.

(** A run of newlines inside joined lines is a single newline. *)
Lemma sub_newlines_joined (ls : list text) :
  Forall (fun l => l <> [] /\ nobreak l) ls ->
  sub multi_newline_pattern [nl; nl] (join [nl] ls) = join [nl] ls.
Proof.
  intros H. apply sub_not_found.
  assert (Hline : forall l rest, nobreak l ->
            search multi_newline_pattern rest = false ->
            (l = [] -> count_while is_nl rest <= 1) ->
            search multi_newline_pattern (l ++ rest) = false).
  { intros l rest Hl Hrest. induction Hl as [|c t Hc Ht IH]; intros Hcnt.
    - exact Hrest.
    - cbn [app search]. unfold multi_newline_pattern at 1.
      rewrite re_match_rep. cbn [count_while].
      assert (Hn : is_nl c = false).
      { destruct (is_nl c) eqn:En; [|reflexivity].
        apply Ascii.eqb_eq in En. subst c. discriminate. }
      rewrite Hn. cbn [Nat.leb]. destruct t as [|d t'].
      + exact Hrest.
      + apply IH. discriminate. }
  induction H as [|l ls' [Hne Hnb] Hls IH]; [reflexivity|].
  destruct ls' as [|l2 ls''].
  - simpl. rewrite <- (app_nil_r l). apply Hline; [exact Hnb | reflexivity|].
    simpl. lia.
  - rewrite join_cons by discriminate. apply Hline; [exact Hnb | | congruence].
    change ([nl] ++ ?x) with (nl :: x).
    cbn [search]. unfold multi_newline_pattern at 1.
    rewrite re_match_rep. cbn [count_while].
    change (is_nl nl) with true. cbv iota.
    inversion Hls as [|? ? [Hne2 Hnb2] Hls2]; subst.
    assert (Hz : count_while is_nl (join [nl] (l2 :: ls'')) = 0).
    { destruct l2 as [|c t]; [congruence|].
      assert (Hn : is_nl c = false).
      { inversion Hnb2; subst. destruct (is_nl c) eqn:En; [|reflexivity].
        apply Ascii.eqb_eq in En. subst c. discriminate. }
      destruct ls''; simpl; rewrite Hn; reflexivity. }
    rewrite Hz. cbn [Nat.leb]. exact IH.
Qed.

End RegexFacts.

(** ** The text cleanup *)

Section Cleanup.
Import TrainSet.

Lemma clean_line_good (l l' : text) :
  nobreak l -> clean_line l = Some l' -> good_line l'.
Proof.
  intros Hnb. unfold clean_line.
  destruct (strip l) as [|c r] eqn:Es; [discriminate|].
  destruct (fullmatch datetime_pattern (c :: r)); [discriminate|].
  destruct (in_headers (c :: r)); [discriminate|].
  destruct (strip (sub ref_pattern [] (sub url_pattern [] (c :: r))))
    as [|c' r'] eqn:E2; [discriminate|].
  intros [= <-]. rewrite <- E2. split; [rewrite E2; discriminate|].
  split; [apply strip_trimmed|].
  apply Forall_strip. apply sub_from_Forall. apply sub_from_Forall.
  rewrite <- Es. apply Forall_strip. exact Hnb.
Qed.

Lemma cleaned_lines_good (ls : list text) :
  Forall nobreak ls -> Forall good_line (filter_map clean_line ls).
Proof.
  induction 1 as [|l ls' Hl Hls IH]; simpl; [constructor|].
  destruct (clean_line l) as [l'|] eqn:E; [|exact IH].
  constructor; [|exact IH]. eapply clean_line_good; eassumption.
Qed.

Lemma clean_line_settled (l : text) :
  good_line l -> settled l = true -> clean_line l = Some l.
Proof.
  intros (Hne & Htr & _) Hs. unfold settled in Hs.
  apply andb_prop in Hs. destruct Hs as [Hs Href].
  apply andb_prop in Hs. destruct Hs as [Hs Hurl].
  apply andb_prop in Hs. destruct Hs as [Hdate Hhead].
  apply negb_true_iff in Href, Hurl, Hdate, Hhead.
  unfold clean_line. rewrite (strip_id Htr).
  destruct l as [|c r]; [congruence|].
  rewrite Hdate, Hhead.
  rewrite (sub_not_found _ _ _ Hurl), (sub_not_found _ _ _ Href).
  rewrite (strip_id Htr). reflexivity.
Qed.

Lemma filter_map_fixed (ls : list text) :
  Forall (fun l => clean_line l = Some l) ls -> filter_map clean_line ls = ls.
Proof.
  induction 1 as [|l ls' Hl Hls IH]; simpl; [reflexivity|].
  rewrite Hl, IH. reflexivity.
Qed.

Lemma good_break (ls : list text) :
  Forall good_line ls -> Forall (fun l => l <> [] /\ nobreak l) ls.
Proof.
  intros H. eapply Forall_impl; [|exact H]. unfold good_line. tauto.
Qed.

Lemma trimmed_join (ls : list text) :
  Forall good_line ls -> trimmed (join [nl] ls).
Proof.
  induction 1 as [|l ls' (Hne & [Hl Hr] & Hnb) Hls IH]; [split; exact I|].
  destruct ls' as [|l2 ls'']; [split; assumption|].
  rewrite join_cons by discriminate. split.
  - apply lclean_app; assumption.
  - rewrite !rev_app_distr, <- app_assoc. apply lclean_app; [apply IH|].
    intros E. apply (f_equal (@rev ascii)) in E.
    rewrite rev_involutive in E. revert E. apply join_nonempty; [discriminate|].
    eapply Forall_impl; [|exact Hls]. unfold good_line. tauto.
Qed.

Lemma good_squeeze (l : text) : good_line l -> good_line (squeeze false l).
Proof.
  intros (Hne & Htr & Hnb). split; [apply squeeze_nonempty; exact Hne|].
  split; [apply squeeze_trimmed; exact Htr|].
  apply squeeze_Forall. exact Hnb.
Qed.

(** The text after the loop: the cleaned lines, each with its runs of spaces
    made one space, a newline between two of them. *)
Lemma clean_text_lines (s : text) :
  exists ls, Forall good_line ls /\ clean_text s = join [nl] ls
             /\ map (squeeze false) ls = ls.
Proof.
  exists (map (squeeze false) (filter_map clean_line (splitlines s))).
  pose proof (cleaned_lines_good (splitlines_nobreak s)) as Hg.
  split; [|split].
  - apply Forall_map. eapply Forall_impl; [|exact Hg]. apply good_squeeze.
  - unfold clean_text. rewrite sub_newlines_joined by (apply good_break, Hg).
    rewrite strip_id by (apply trimmed_join, Hg).
    rewrite sub_spaces. apply squeeze_join.
  - rewrite map_map. apply map_ext. intros l. apply squeeze_idem.
Qed.

Lemma clean_text_joined (ls : list text) :
  Forall good_line ls -> map (squeeze false) ls = ls ->
  forallb settled ls = true ->
  clean_text (join [nl] ls) = join [nl] ls.
Proof.
  intros Hg Hsq Hs. unfold clean_text.
  rewrite splitlines_join by (apply good_break, Hg).
  rewrite filter_map_fixed.
  - rewrite sub_newlines_joined by (apply good_break, Hg).
    rewrite strip_id by (apply trimmed_join, Hg).
    rewrite sub_spaces, squeeze_join, Hsq. reflexivity.
  - rewrite forallb_forall in Hs. rewrite Forall_forall in *.
    intros l Hl. apply clean_line_settled; auto.
Qed.

(** C7: the example of the specification cleans to "Hello world". *)
Theorem clean_text_example :
  clean_text example_input = lit "Hello world".
Proof. vm_compute. reflexivity. Qed.

(** C1, as stated, fails: cleaning "a [[1]2]" gives "a [2]", and cleaning
    that gives "a"; removing a reference can put a new one together. *)
Lemma clean_text_not_idempotent :
  clean_text (lit "a [[1]2]") = lit "a [2]" /\
  clean_text (clean_text (lit "a [[1]2]")) = lit "a" /\
  ~ (forall s, clean_text (clean_text s) = clean_text s).
Proof.
  split; [vm_compute; reflexivity|]. split; [vm_compute; reflexivity|].
  intros H. specialize (H (lit "a [[1]2]")). vm_compute in H. discriminate H.
Qed.

(** C1, amended: cleaning cleaned text changes nothing whenever no line of
    the cleaned text is a date line or a header and none contains a URL or a
    reference [[n]]. *)
Theorem clean_text_idempotent_settled (s : text) :
  forallb settled (splitlines (clean_text s)) = true ->
  clean_text (clean_text s) = clean_text s.
Proof.
  destruct (clean_text_lines s) as (ls & Hg & -> & Hsq).
  rewrite splitlines_join by (apply good_break, Hg).
  apply clean_text_joined; assumption.
Qed.

Lemma clean_text_idempotent_settled_witness :
  forallb settled (splitlines (clean_text example_input)) = true /\
  clean_text (clean_text example_input) = clean_text example_input.
Proof.
  split; [vm_compute; reflexivity|].
  apply (clean_text_idempotent_settled example_input).
  vm_compute. reflexivity.
Defined.

End Cleanup.

(** ** [extract_between_markers] *)

Section Markers.
Import TrainSet.

Lemma startswith_iff (w s : text) :
  startswith w s = true <-> exists post, s = w ++ post.
Proof.
  revert s. induction w as [|a w' IH]; intros s; simpl.
  - split; [intros _; exists s; reflexivity | reflexivity].
  - destruct s as [|b s'].
    + split; [discriminate | intros [post H]; discriminate].
    + rewrite andb_true_iff, Ascii.eqb_eq, IH. split.
      * intros [-> [post ->]]. exists post. reflexivity.
      * intros [post [= -> ->]]. split; [reflexivity | exists post; reflexivity].
Qed.

Lemma occurs_at_0 (w s : text) : occurs_at w s 0 <-> startswith w s = true.
Proof.
  rewrite startswith_iff. split.
  - intros (pre & post & -> & Hl). destruct pre; [|discriminate].
    exists post. reflexivity.
  - intros [post ->]. exists [], post. split; reflexivity.
Qed.

Lemma occurs_at_S (w : text) (c : ascii) (r : text) (i : nat) :
  occurs_at w (c :: r) (S i) <-> occurs_at w r i.
Proof.
  split.
  - intros (pre & post & E & Hl). destruct pre as [|d pre']; [discriminate|].
    injection E as -> ->. injection Hl as Hl. exists pre', post. auto.
  - intros (pre & post & -> & Hl). exists (c :: pre), post. simpl. auto.
Qed.

Lemma occurs_at_nil (w : text) (i : nat) : ~ occurs_at w [] (S i).
Proof.
  intros (pre & post & E & Hl). destruct pre; discriminate.
Qed.

Lemma find_eq (w s : text) :
  find w s = if startswith w s then Some 0
             else match s with
                  | [] => None
                  | _ :: r => option_map S (find w r)
                  end.
Proof. destruct s; reflexivity. Qed.

Lemma find_Some (w s : text) (i : nat) : find w s = Some i -> first_at w s i.
Proof.
  revert i. induction s as [|c r IH]; intros i; rewrite find_eq;
    destruct (startswith w _) eqn:Esw.
  - intros [= <-]. split; [apply occurs_at_0; exact Esw | lia].
  - discriminate.
  - intros [= <-]. split; [apply occurs_at_0; exact Esw | lia].
  - destruct (find w r) as [k|]; [|discriminate]. intros [= <-].
    destruct (IH k eq_refl) as [Ho Hf]. split.
    + apply occurs_at_S. exact Ho.
    + intros [|j] Hj.
      * rewrite occurs_at_0. congruence.
      * rewrite occurs_at_S. apply Hf. lia.
Qed.

Lemma find_None (w s : text) : find w s = None -> forall i, ~ occurs_at w s i.
Proof.
  induction s as [|c r IH]; rewrite find_eq;
    destruct (startswith w _) eqn:Esw; try discriminate.
  - intros _ [|i]; [rewrite occurs_at_0; congruence | apply occurs_at_nil].
  - destruct (find w r) as [k|]; [discriminate|]. intros _ [|i].
    + rewrite occurs_at_0. congruence.
    + rewrite occurs_at_S. apply IH. reflexivity.
Qed.

Lemma first_at_unique (w s : text) (i j : nat) :
  first_at w s i -> first_at w s j -> i = j.
Proof.
  intros [Hi Hfi] [Hj Hfj].
  destruct (Nat.lt_trichotomy i j) as [H|[H|H]]; [|exact H|].
  - destruct (Hfj i H Hi).
  - destruct (Hfi j H Hj).
Qed.

Lemma find_first (w s : text) (i : nat) : first_at w s i -> find w s = Some i.
Proof.
  intros H. destruct (find w s) as [k|] eqn:E.
  - f_equal. apply find_Some in E. eapply first_at_unique; eassumption.
  - destruct H as [H _]. exfalso. eapply find_None; eassumption.
Qed.

Lemma find_absent (w s : text) : (forall i, ~ occurs_at w s i) -> find w s = None.
Proof.
  intros H. destruct (find w s) as [k|] eqn:E; [|reflexivity].
  apply find_Some in E. destruct E as [E _]. destruct (H k E).
Qed.

Lemma skipn_pre (pre rest : text) : skipn (length pre) (pre ++ rest) = rest.
Proof.
  rewrite skipn_app, skipn_all, Nat.sub_diag. reflexivity.
Qed.

(** The second [find] and the slice, once the start marker is located. *)
Lemma after_start (pre sm rest em : text) :
  let start_idx := length pre + length sm in
  find_from em (pre ++ sm ++ rest) start_idx
  = option_map (Nat.add start_idx) (find em rest)
  /\ forall k, slice (pre ++ sm ++ rest) start_idx (start_idx + k)
               = firstn k rest.
Proof.
  intros start_idx.
  assert (Hskip : skipn start_idx (pre ++ sm ++ rest) = rest).
  { unfold start_idx. rewrite <- length_app, app_assoc. apply skipn_pre. }
  split.
  - unfold find_from. rewrite Hskip.
    destruct (length (pre ++ sm ++ rest) <? start_idx) eqn:E; [|reflexivity].
    apply Nat.ltb_lt in E. rewrite !length_app in E. unfold start_idx in E. lia.
  - intros k. unfold slice. rewrite Hskip. f_equal. lia.
Qed.

Lemma extract_meets_spec (txt sm em : text) :
  marker_spec txt sm em (extract_between_markers txt sm em).
Proof.
  unfold extract_between_markers.
  destruct (find sm txt) as [i|] eqn:Es.
  - pose proof Es as Hfirst. apply find_Some in Hfirst.
    destruct Hfirst as [(pre & rest & -> & Hl) Hf]. subst i.
    destruct (after_start pre sm rest em) as [Hfind Hslice]. cbv zeta in *.
    rewrite Hfind. destruct (find em rest) as [k|] eqn:Ee; simpl.
    + pose proof Ee as Hfe. apply find_Some in Hfe.
      destruct Hfe as [(mid & post & -> & Hm) Hfe]. subst k.
      rewrite Hslice, firstn_app, firstn_all, Nat.sub_diag. simpl.
      rewrite app_nil_r. eapply spec_found; [reflexivity| |].
      * split; [exists pre, (mid ++ em ++ post); auto | exact Hf].
      * split; [exists mid, post; auto | exact Hfe].
    + eapply spec_no_end; [reflexivity| |].
      * split; [exists pre, rest; auto | exact Hf].
      * apply find_None. exact Ee.
  - apply spec_no_start. apply find_None. exact Es.
Qed.

(** C3: [extract_between_markers] returns [None] when the start marker does
    not occur or the end marker does not occur after the first start marker,
    and otherwise the stripped text between the end of the first start
    marker and the next end marker; it returns nothing else. *)
Theorem extract_between_markers_spec (txt sm em : text) (r : option text) :
  extract_between_markers txt sm em = r <-> marker_spec txt sm em r.
Proof.
  split; [intros <-; apply extract_meets_spec|].
  unfold extract_between_markers. intros H. destruct H as [Hn|pre rest E Hf Hn|pre mid post E Hf He].
  - apply find_absent in Hn. rewrite Hn. reflexivity.
  - apply find_first in Hf. rewrite Hf. subst txt.
    destruct (after_start pre sm rest em) as [Hfind _]. cbv zeta in *.
    apply find_absent in Hn. rewrite Hfind, Hn. reflexivity.
  - apply find_first in Hf. rewrite Hf. subst txt.
    destruct (after_start pre sm (mid ++ em ++ post) em) as [Hfind Hslice].
    cbv zeta in *. apply find_first in He. rewrite Hfind, He. simpl.
    rewrite Hslice, firstn_app, firstn_all, Nat.sub_diag. simpl.
    rewrite app_nil_r. reflexivity.
Qed.

End Markers.

(** ** The PDF file name *)

Section FileName.
Import Scrape.

Lemma app_eq_length_head (A : Type) (a b x y : list A) :
  length a = length b -> a ++ x = b ++ y -> a = b /\ x = y.
Proof.
  revert b. induction a as [|c a' IH]; intros [|d b'] Hl E;
    try discriminate; [split; [reflexivity | exact E]|].
  injection Hl as Hl. injection E as -> E.
  destruct (IH b' Hl E) as [-> ->]. split; reflexivity.
Qed.

Lemma app_eq_length_tail (A : Type) (a b x y : list A) :
  length x = length y -> a ++ x = b ++ y -> a = b /\ x = y.
Proof.
  intros Hl E. apply app_eq_length_head; [|exact E].
  apply (f_equal (@length A)) in E. rewrite !length_app in E. lia.
Qed.

Lemma lit_inj (s t : string) : lit s = lit t -> s = t.
Proof.
  unfold lit. intros H. apply (f_equal string_of_list_ascii) in H.
  rewrite !string_of_list_ascii_of_string in H. exact H.
Qed.

Lemma str_of_Z_inj (a b : Z) : str_of_Z a = str_of_Z b -> a = b.
Proof.
  unfold str_of_Z. intros H. apply lit_inj in H.
  apply (f_equal NilEmpty.int_of_string) in H. rewrite !NilEmpty.isi in H.
  injection H as H. apply DecimalZ.to_int_inj. exact H.
Qed.

Lemma in_zrange (lo hi z : Z) : (lo <= z <= hi)%Z -> In z (zrange lo hi).
Proof.
  intros H. unfold zrange. apply in_map_iff.
  exists (Z.to_nat (z - lo)). split; [cbv beta; lia|]. apply in_seq. lia.
Qed.

Lemma year_length (y : Z) :
  (1000 <= y <= 9999)%Z -> length (str_of_Z y) = 4.
Proof.
  intros H.
  assert (Hall : forallb (fun z => length (str_of_Z z) =? 4)
                   (zrange 1000 9999) = true) by (vm_compute; reflexivity).
  rewrite forallb_forall in Hall. apply Nat.eqb_eq, Hall, in_zrange. lia.
Qed.

Lemma two_digits_length (n : Z) :
  (1 <= n <= 31)%Z -> length (two_digits n) = 2.
Proof.
  intros H.
  assert (Hall : forallb (fun z => length (two_digits z) =? 2)
                   (zrange 1 31) = true) by (vm_compute; reflexivity).
  rewrite forallb_forall in Hall. apply Nat.eqb_eq, Hall, in_zrange. lia.
Qed.

Lemma two_digits_inj (a b : Z) :
  (1 <= a <= 31)%Z -> (1 <= b <= 31)%Z -> two_digits a = two_digits b -> a = b.
Proof.
  intros Ha Hb E.
  assert (Hall : forallb (fun x => forallb (fun y =>
                    implb (text_eqb (two_digits x) (two_digits y)) (x =? y)%Z)
                    (zrange 1 31)) (zrange 1 31) = true)
    by (vm_compute; reflexivity).
  rewrite forallb_forall in Hall.
  specialize (Hall a (in_zrange Ha)).
  rewrite forallb_forall in Hall.
  specialize (Hall b (in_zrange Hb)).
  apply text_eqb_eq in E. rewrite E in Hall. apply Z.eqb_eq. exact Hall.
Qed.

(** C2: the file name is a function of the tuple, and distinct tuples of a
    release id, a four-digit year, a month and a day have distinct names. *)
Theorem pdf_filename_injective (r1 r2 : text) (y1 m1 d1 y2 m2 d2 : Z) :
  valid_date y1 m1 d1 -> valid_date y2 m2 d2 ->
  (pdf_filename r1 y1 m1 d1 = pdf_filename r2 y2 m2 d2
   <-> (r1, y1, m1, d1) = (r2, y2, m2, d2)).
Proof.
  intros (Hy1 & Hm1 & Hd1) (Hy2 & Hm2 & Hd2).
  split; [|intros [= -> -> -> ->]; reflexivity].
  unfold pdf_filename. fold (two_digits m1) (two_digits m2)
    (two_digits d1) (two_digits d2).
  intros E. apply app_inv_head in E.
  apply app_eq_length_tail in E.
  - destruct E as [-> E]. apply app_eq_length_head in E.
    + destruct E as [Ey E]. apply str_of_Z_inj in Ey. subst y2.
      apply app_eq_length_head in E.
      * destruct E as [Em E]. apply two_digits_inj in Em; [|lia|lia].
        subst m2. apply app_inv_head in E. apply app_inv_tail in E.
        apply two_digits_inj in E; [|lia|lia]. subst d2. reflexivity.
      * rewrite !two_digits_length by lia. reflexivity.
    + rewrite !year_length by lia. reflexivity.
  - rewrite !length_app, !year_length, !two_digits_length by lia. reflexivity.
Qed.

End FileName.

(** ** The training-set maker *)

Section Tool.
Import TrainSet.
Variable E : Env.

(** *** Start-up *)

(** C8: without [GEMINI_API_KEY], or with an empty one, [configure_gemini]
    returns [False] and leaves the model as it was, and [__init__] only
    reports the error and schedules the destruction of the window: no widget
    is created and nothing else is set up. *)
Theorem missing_api_key_is_fatal (a : App) :
  getenv E (lit "GEMINI_API_KEY") = None
  \/ getenv E (lit "GEMINI_API_KEY") = Some [] ->
  fst (configure_gemini E a) = false
  /\ model (snd (configure_gemini E a)) = model a
  /\ model (init E a) = None
  /\ widgets_created (init E a) = widgets_created a
  /\ pdf_files (init E a) = pdf_files a
  /\ ui (init E a)
     = ui a ++ [Title (lit "PDF Data Generator (v3 - Logging Fixed)");
                Geometry (lit "850x700"); ShowError (lit "Config Error");
                AfterDestroy 100].
Proof.
  intros H. unfold init, configure_gemini.
  destruct H as [-> | ->]; simpl; rewrite <- !app_assoc; simpl; auto 10.
Qed.

(** *** The list of files *)

Lemma contains_In (l : list text) (x : text) : contains l x = true <-> In x l.
Proof.
  unfold contains. rewrite existsb_exists. split.
  - intros (y & Hy & Heq). apply text_eqb_eq in Heq. subst y. exact Hy.
  - intros H. exists x. split; [exact H | apply text_eqb_eq; reflexivity].
Qed.

Lemma add_one_NoDup (acc : list text * nat) (f : text) :
  NoDup (fst acc) -> NoDup (fst (add_one E acc f)).
Proof.
  intros H. unfold add_one.
  destruct (contains (fst acc) (normpath E f)) eqn:Ec; simpl; [exact H|].
  apply NoDup_rev in H. rewrite <- (rev_involutive (fst acc ++ _)).
  apply NoDup_rev. rewrite rev_app_distr. simpl. constructor; [|exact H].
  rewrite <- in_rev, <- contains_In, Ec. discriminate.
Qed.

Lemma add_loop_NoDup (fs : list text) (acc : list text * nat) :
  NoDup (fst acc) -> NoDup (fst (fold_left (add_one E) fs acc)).
Proof.
  revert acc. induction fs as [|f fs' IH]; intros acc H; [exact H|].
  simpl. apply IH, add_one_NoDup, H.
Qed.

Lemma add_pdf_files_NoDup (a : App) (fs : list text) :
  NoDup (pdf_files a) -> NoDup (pdf_files (add_pdf_files E a fs)).
Proof.
  intros H. unfold add_pdf_files.
  pose proof (add_loop_NoDup fs (pdf_files a, 0) H) as H'.
  destruct (fold_left (add_one E) fs (pdf_files a, 0)) as [l n].
  destruct (n =? 0); exact H'.
Qed.

Lemma clear_files_NoDup (a : App) :
  NoDup (pdf_files a) -> NoDup (pdf_files (clear_files a)).
Proof.
  intros H. unfold clear_files.
  destruct (processing_active a); simpl; [exact H | constructor].
Qed.

Lemma process_one_frame (a : App) (p : text) :
  pdf_files (process_one E a p) = pdf_files a
  /\ model (process_one E a p) = model a.
Proof.
  unfold process_one. destruct (extract_and_clean_text E p) as [t|]; [|auto].
  destruct (other_language _); [auto|].
  destruct (generate_summary_and_topics E (count_attempt a) t (basename E p))
    as [s tp].
  destruct (json_dump E _); [auto|]. destruct s; auto.
Qed.

Lemma process_fold_frame (fs : list text) (a : App) :
  pdf_files (fold_left (process_one E) fs a) = pdf_files a
  /\ model (fold_left (process_one E) fs a) = model a.
Proof.
  revert a. induction fs as [|f fs' IH]; intros a; [auto|].
  simpl. destruct (IH (process_one E a f)) as [-> ->].
  apply process_one_frame.
Qed.

Lemma process_loop_frame (fs : list text) (a : App) :
  pdf_files (fst (process_loop E fs a)) = pdf_files a
  /\ model (fst (process_loop E fs a)) = model a.
Proof.
  revert a. induction fs as [|f fs' IH]; intros a; [auto|].
  simpl. destruct (doc_close E f); [auto|].
  destruct (IH (process_one E a f)) as [-> ->].
  apply process_one_frame.
Qed.

(** When no [doc.close()] raises, the loop is a fold over the list. *)
Lemma process_loop_fold (fs : list text) (a : App) :
  (forall p, In p fs -> doc_close E p = None) ->
  process_loop E fs a = (fold_left (process_one E) fs a, None).
Proof.
  revert a. induction fs as [|f fs' IH]; intros a H; [reflexivity|].
  simpl. rewrite (H f (or_introl eq_refl)). apply IH.
  intros p Hp. apply H. right. exact Hp.
Qed.

Lemma close_dataset_frame (a : App) :
  pdf_files (close_dataset E a) = pdf_files a
  /\ model (close_dataset E a) = model a
  /\ processed_count (close_dataset E a) = processed_count a
  /\ per_file_details (close_dataset E a) = per_file_details a.
Proof.
  unfold close_dataset. destruct (close_jsonl E _) as [[n cut]|]; auto.
Qed.

Lemma run_loop_frame (a : App) (path : text) :
  pdf_files (run_loop E a path) = pdf_files a
  /\ model (run_loop E a path) = model a.
Proof.
  unfold run_loop. destruct (open_jsonl E path); [auto|].
  pose proof (process_loop_frame (pdf_files a) (open_dataset a)) as [H1 H2].
  destruct (process_loop E (pdf_files a) (open_dataset a)) as [a1 raised].
  cbn [fst] in H1, H2.
  destruct (close_dataset_frame
              match raised with
              | Some e => critical_error a1 e
              | None => a1
              end) as (-> & -> & _).
  destruct raised; cbn; auto.
Qed.

Lemma process_files_frame (a : App) :
  pdf_files (process_files E a) = pdf_files a
  /\ model (process_files E a) = model a
  /\ (processing_active a = false ->
      processing_active (process_files E a) = false).
Proof.
  unfold process_files.
  destruct (processing_active a) eqn:Eb;
    [cbn; repeat split; congruence|].
  destruct (pdf_files a) as [|f fs] eqn:Ef; [cbn; auto|].
  destruct (asksaveasfilename E) as [|c path]; [auto|].
  destruct (splitext E _) as [base_path|]; [|cbn; auto].
  destruct (open_log E _); [cbn; auto|].
  cbn [emit set_processing_active pdf_files model processing_active].
  destruct (run_loop_frame (reset_stats (set_processing_active a true))
              (c :: path)) as [-> ->].
  cbn. auto.
Qed.

Lemma process_files_pdf_files (a : App) :
  pdf_files (process_files E a) = pdf_files a.
Proof. apply process_files_frame. Qed.

Lemma apply_op_NoDup (a : App) (o : list_op) :
  NoDup (pdf_files a) -> NoDup (pdf_files (apply_op E a o)).
Proof.
  destruct o; simpl.
  - apply add_pdf_files_NoDup.
  - apply clear_files_NoDup.
  - rewrite process_files_pdf_files. auto.
Qed.

Lemma run_ops_NoDup (ops : list list_op) (a : App) :
  NoDup (pdf_files a) -> NoDup (pdf_files (fold_left (apply_op E) ops a)).
Proof.
  revert a. induction ops as [|o ops' IH]; intros a H; [exact H|].
  simpl. apply IH, apply_op_NoDup, H.
Qed.

(** C10: whatever the user adds, clears or processes after start-up, in
    whatever order and with whatever value of the busy flag, the entries of
    [pdf_files] are pairwise distinct. *)
Theorem pdf_files_never_duplicated (ops : list list_op) (busy : bool) :
  NoDup (pdf_files
           (fold_left (apply_op E) ops
              (set_processing_active (init E blank_app) busy))).
Proof.
  apply run_ops_NoDup. cbn [set_processing_active pdf_files].
  unfold init. destruct (configure_gemini E _) as [ok a'] eqn:Ec.
  assert (Ha : pdf_files a' = []).
  { unfold configure_gemini in Ec.
    destruct (getenv E _) as [[|c k]|]; try (injection Ec as _ <-; reflexivity).
    destruct (genai_model E _); injection Ec as _ <-; reflexivity. }
  destruct ok; simpl; [constructor | rewrite Ha; constructor].
Qed.

End Tool.

(** ** Summaries, topics and the dataset *)

Section Dataset.
Import TrainSet.
Variable E : Env.




Lemma generate_model (a b : App) (t f : text) :
  model a = model b ->
  generate_summary_and_topics E a t f = generate_summary_and_topics E b t f.
Proof.
  intros H. unfold generate_summary_and_topics. rewrite H. reflexivity.
Qed.

Lemma lines_written_model (a b : App) (p : text) :
  model a = model b -> lines_written E a p = lines_written E b p.
Proof.
  intros H. unfold lines_written, record_for.
  destruct (extract_and_clean_text E p) as [t|]; [|reflexivity].
  rewrite (generate_model a b t (basename E p) H). reflexivity.
Qed.

Lemma writes_return_model (a b : App) (fs : list text) :
  model a = model b -> writes_return E a fs -> writes_return E b fs.
Proof.
  intros Hm H p Hp r Hr. apply (H p Hp).
  rewrite (lines_written_model a b p Hm). exact Hr.
Qed.

(** A turn of the loop whose write returns, the buffer being empty: the line
    of the file, if it has one, is added to the dataset. *)
Lemma process_one_jsonl (a : App) (p : text) :
  (forall r, In r (lines_written E a p) -> json_dump E r = None) ->
  jsonl_buffer a = [] ->
  jsonl (process_one E a p) = jsonl a ++ map Line (lines_written E a p)
  /\ jsonl_buffer (process_one E a p) = [].
Proof.
  intros Hw Hb. revert Hw. unfold process_one, lines_written, record_for.
  destruct (extract_and_clean_text E p) as [t|];
    [|intros _; simpl; rewrite app_nil_r; auto].
  destruct (other_language _); [intros _; simpl; rewrite app_nil_r; auto|].
  rewrite (generate_model (count_attempt a) a t (basename E p) eq_refl).
  destruct (generate_summary_and_topics E a t (basename E p)) as [s tp].
  cbn [fst snd]. intros Hw. rewrite (Hw _ (or_introl eq_refl)).
  destruct s; cbn; rewrite Hb; auto.
Qed.

Lemma process_fold_jsonl (fs : list text) (a : App) :
  writes_return E a fs -> jsonl_buffer a = [] ->
  jsonl (fold_left (process_one E) fs a)
  = jsonl a ++ map Line (flat_map (lines_written E a) fs)
  /\ jsonl_buffer (fold_left (process_one E) fs a) = [].
Proof.
  revert a. induction fs as [|f fs' IH]; intros a Hw Hb; simpl.
  - rewrite app_nil_r. auto.
  - destruct (@process_one_jsonl a f (Hw f (or_introl eq_refl)) Hb)
      as [Hj Hb'].
    assert (Hm : model a = model (process_one E a f))
      by (symmetry; apply process_one_frame).
    destruct (IH (process_one E a f)) as [-> ->]; [|exact Hb'|].
    + eapply writes_return_model; [exact Hm|]. intros p Hp. apply Hw.
      right. exact Hp.
    + split; [|reflexivity].
      rewrite Hj, map_app, <- app_assoc. f_equal. f_equal. f_equal.
      apply flat_map_ext. intros p. symmetry. apply lines_written_model.
      exact Hm.
Qed.

Lemma reached_nil (n : nat) (cut : bool) : reached n cut [] = [].
Proof.
  unfold reached. rewrite skipn_nil, firstn_nil. destruct cut; reflexivity.
Qed.

Lemma close_dataset_empty (a : App) :
  jsonl_buffer a = [] -> jsonl (close_dataset E a) = jsonl a.
Proof.
  intros Hb. unfold close_dataset. rewrite Hb.
  destruct (close_jsonl E []) as [[n cut]|]; cbn.
  - rewrite reached_nil. apply app_nil_r.
  - apply app_nil_r.
Qed.

(** A run that reaches the loop and the end of the list. *)
Lemma process_files_run (a : App) :
  processing_active a = false -> pdf_files a <> [] ->
  loop_runs E (pdf_files a) ->
  process_files E a
  = emit (set_processing_active
            (close_dataset E
               (fold_left (process_one E) (pdf_files a)
                  (open_dataset (reset_stats (set_processing_active a true)))))
            false)
      (ShowInfo (lit "Complete")).
Proof.
  intros Hbusy Hfiles (Hpath & (base_path & Hsplit & Hlog) & Hopen & Hclose).
  unfold process_files. rewrite Hbusy.
  destruct (pdf_files a) as [|f fs] eqn:Ef; [congruence|].
  destruct (asksaveasfilename E) as [|c path]; [congruence|].
  rewrite Hsplit, Hlog. unfold run_loop. rewrite Hopen.
  cbn [reset_stats set_processing_active pdf_files]. rewrite Ef.
  rewrite (process_loop_fold E (f :: fs) _ Hclose). reflexivity.
Qed.

Lemma no_summary_no_topics (a : App) (t f : text) :
  fst (generate_summary_and_topics E a t f) = None ->
  snd (generate_summary_and_topics E a t f) = None.
Proof.
  unfold generate_summary_and_topics. destruct (model a); [|reflexivity].
  destruct (length t <? 50); [reflexivity|].
  destruct (generate_content E _); try reflexivity.
  destruct (extract_between_markers _ SUMMARY_START _); [|reflexivity].
  destruct (extract_between_markers _ TOPICS_START _); [|reflexivity].
  destruct (parse_topics E _); [discriminate | reflexivity].
Qed.

(** C9, amended: when the loop of [process_files] runs through the list and
    no [json.dump], [write] or [flush] raises, the dataset holds, in the order
    of the list, one line for every file whose text is extracted and whose
    language is not detected as another one than English, a record without
    summary having no topics either; every other file adds no line. *)
Theorem process_files_dataset (a : App) :
  processing_active a = false -> pdf_files a <> [] ->
  loop_runs E (pdf_files a) ->
  writes_return E a (pdf_files a) ->
  jsonl (process_files E a)
  = map Line (flat_map (lines_written E a) (pdf_files a))
  /\ forall pdf_path,
       (forall extracted,
          extract_and_clean_text E pdf_path = Some extracted ->
          other_language (detect_language E extracted) = false ->
          lines_written E a pdf_path = [record_for E a pdf_path extracted]
          /\ (gemini_summary (record_for E a pdf_path extracted) = None ->
              gemini_topics (record_for E a pdf_path extracted) = None))
       /\ (extract_and_clean_text E pdf_path = None ->
           lines_written E a pdf_path = [])
       /\ (forall extracted,
             extract_and_clean_text E pdf_path = Some extracted ->
             other_language (detect_language E extracted) = true ->
             lines_written E a pdf_path = []).
Proof.
  intros Hbusy Hfiles Hrun Hw. split.
  - rewrite (process_files_run a Hbusy Hfiles Hrun).
    cbn [emit set_processing_active jsonl].
    set (a0 := open_dataset (reset_stats (set_processing_active a true))).
    assert (Hm : model a = model a0) by reflexivity.
    assert (Hw0 : writes_return E a0 (pdf_files a))
      by (eapply writes_return_model; [exact Hm | exact Hw]).
    destruct (process_fold_jsonl Hw0 eq_refl) as [Hj Hb].
    rewrite (close_dataset_empty _ Hb), Hj. reflexivity.
  - intros p. unfold lines_written. split; [|split].
    + intros t Ht Hl. rewrite Ht, Hl.
      split; [reflexivity | apply no_summary_no_topics].
    + intros ->. reflexivity.
    + intros t -> ->. reflexivity.
Qed.

End Dataset.

(** ** The scraper *)

Section Scraper.
Import Scrape.
Local Open Scope scrape_scope.

Lemma bind_lookup (A : Type) (p : path) (k : option node -> M A) (w : world) :
  (n <- lookup p ;; k n) w = k (fs w p) w.
Proof. reflexivity. Qed.

Lemma bind_store (A : Type) (p : path) (n : node) (k : M A) (w : world) :
  (store p n ;; k) w = k {| fs := fs_set (fs w) p n; events := events w |}.
Proof. reflexivity. Qed.

Lemma bind_emit (A : Type) (e : event) (k : M A) (w : world) :
  (emit e ;; k) w = k {| fs := fs w; events := events w ++ [e] |}.
Proof. reflexivity. Qed.

Lemma bind_exists (A : Type) (p : path) (k : bool -> M A) (w : world) :
  (b <- exists_ p ;; k b) w
  = k (match fs w p with Some _ => true | None => false end) w.
Proof. reflexivity. Qed.

Lemma bind_run (A B : Type) (m : M A) (k : A -> M B) (w : world) :
  (x <- m ;; k x) w
  = match m w with
    | (Ok a, w') => k a w'
    | (Raise e, w') => (Raise e, w')
    end.
Proof. reflexivity. Qed.

(** Making directories adds directories on the way to the target where
    nothing was, and nothing else. *)
Lemma makedirs_from_frame (rest pre : path) (w : world) :
  events (snd (makedirs_from pre rest w)) = events w
  /\ forall p,
       fs (snd (makedirs_from pre rest w)) p = fs w p
       \/ (fs w p = None
           /\ fs (snd (makedirs_from pre rest w)) p = Some Dir
           /\ exists k, p = pre ++ firstn k rest).
Proof.
  revert pre w. induction rest as [|c rest' IH]; intros pre w.
  - simpl. auto.
  - cbn [makedirs_from]. rewrite bind_lookup.
    destruct (fs w (pre ++ [c])) as [[|data]|] eqn:En.
    + destruct (IH (pre ++ [c]) w) as [He Hf]. split; [exact He|].
      intros p. destruct (Hf p) as [H|(H1 & H2 & k & H3)]; [left; exact H|].
      right. split; [exact H1|]. split; [exact H2|].
      exists (S k). rewrite H3, <- app_assoc. reflexivity.
    + simpl. auto.
    + rewrite bind_store.
      set (w1 := {| fs := fs_set (fs w) (pre ++ [c]) Dir; events := events w |}).
      destruct (IH (pre ++ [c]) w1) as [He Hf]. split; [exact He|].
      intros p. destruct (Hf p) as [H|(H1 & H2 & k & H3)].
      * unfold w1 in H at 2. cbn [fs] in H. unfold fs_set in H.
        destruct (path_eq_dec p (pre ++ [c])) as [->|Hp]; [|left; exact H].
        right. split; [exact En|]. split; [exact H|].
        exists 1. reflexivity.
      * unfold w1 in H1. cbn [fs] in H1. unfold fs_set in H1.
        destruct (path_eq_dec p (pre ++ [c])); [discriminate|].
        right. split; [exact H1|]. split; [exact H2|].
        exists (S k). rewrite H3, <- app_assoc. reflexivity.
Qed.

Lemma makedirs_frame (target : path) (w : world) :
  events (snd (makedirs target w)) = events w ++ [EvMakedirs target]
  /\ forall p,
       fs (snd (makedirs target w)) p = fs w p
       \/ (fs w p = None
           /\ fs (snd (makedirs target w)) p = Some Dir
           /\ exists k, p = firstn k target).
Proof.
  unfold makedirs. rewrite bind_emit.
  set (w1 := {| fs := fs w; events := events w ++ [EvMakedirs target] |}).
  destruct (makedirs_from_frame target [] w1) as [He Hf].
  split; [exact He | exact Hf].
Qed.

(** With the file in the collective folder, [save_page_as_pdf] is over after
    [os.makedirs] and the test. *)
Lemma save_existing (pg : page) (relid : text) (year month day : Z) (w : world) :
  fs w (collective_pdf_path relid year month day) <> None ->
  save_page_as_pdf pg relid year month day w
  = (Ok false, snd (makedirs (pdf_dir year month) w)).
Proof.
  intros Hc. unfold save_page_as_pdf, try_except. rewrite bind_run.
  destruct (makedirs_frame (pdf_dir year month) w) as [_ Hf].
  specialize (Hf (collective_pdf_path relid year month day)).
  destruct (makedirs (pdf_dir year month) w) as [[[]|e] w1]; [|reflexivity].
  cbn [snd] in *. rewrite bind_exists.
  fold (collective_pdf_path relid year month day).
  destruct Hf as [Hf|(Hf & _)]; [|congruence].
  destruct (fs w1 (collective_pdf_path relid year month day)); [reflexivity|].
  congruence.
Qed.

(** C5, amended: with the file already in the collective folder,
    [save_page_as_pdf] returns [False] with no call to the page and no copy;
    every file is left as it was, and the only change possible is that
    [os.makedirs], called before the test, has made missing directories on
    the way to the dated folder. *)
Theorem save_skips_existing (pg : page) (relid : text) (year month day : Z)
    (w : world) :
  fs w (collective_pdf_path relid year month day) <> None ->
  exists w',
    save_page_as_pdf pg relid year month day w = (Ok false, w')
    /\ events w' = events w ++ [EvMakedirs (pdf_dir year month)]
    /\ (forall p data, fs w' p = Some (File data) <-> fs w p = Some (File data))
    /\ (forall p, fs w' p <> fs w p ->
          fs w p = None /\ fs w' p = Some Dir
          /\ exists k, p = firstn k (pdf_dir year month)).
Proof.
  intros Hc. exists (snd (makedirs (pdf_dir year month) w)).
  destruct (makedirs_frame (pdf_dir year month) w) as [He Hf].
  split; [apply save_existing; exact Hc|]. split; [exact He|]. split.
  - intros p data. destruct (Hf p) as [->|(H1 & H2 & _)]; [reflexivity|].
    rewrite H1, H2. split; discriminate.
  - intros p Hp. destruct (Hf p) as [H|H]; [congruence | exact H].
Qed.

Lemma bind_call (A B : Type) (r : outcome A) (k : A -> M B) (w : world) :
  (x <- call r ;; k x) w
  = match r with
    | Ok a => k a w
    | Raise e => (Raise e, w)
    end.
Proof. destruct r; reflexivity. Qed.

Lemma try_run (A : Type) (m : M A) (h : exn -> M A) (w : world) :
  try_except m h w
  = match m w with
    | (Ok a, w') => (Ok a, w')
    | (Raise e, w') => h e w'
    end.
Proof. reflexivity. Qed.

Lemma save_never_raises (pg : page) (relid : text) (year month day : Z)
    (w : world) :
  exists b, fst (save_page_as_pdf pg relid year month day w) = Ok b.
Proof.
  unfold save_page_as_pdf, try_except.
  match goal with |- context [match ?m w with _ => _ end] =>
    destruct (m w) as [[b|e] w'] end.
  - exists b. reflexivity.
  - exists false. reflexivity.
Qed.




(** What [process_single_release] comes to once the tab is open: the value
    of [saved], then the [finally] clause. *)
Lemma release_opened (ctx : context) (ri : release_info) (pg : page)
    (w : world) :
  new_page ctx ri = Ok pg ->
  exists saved w1,
    (saved = true -> goto pg = Ok tt)
    /\ process_single_release ctx ri w
       = if is_closed pg then (Ok saved, w1)
         else match close pg with
              | Ok _ =>
                  (Ok saved,
                   {| fs := fs w1; events := events w1 ++ [EvClose] |})
              | Raise e =>
                  (Raise e,
                   {| fs := fs w1; events := events w1 ++ [EvClose] |})
              end.
Proof.
  intros H. unfold process_single_release.
  rewrite bind_emit, bind_run, try_run, bind_call, H. unfold ret at 1.
  rewrite bind_run, try_run, bind_emit, bind_call.
  destruct (goto pg) as [[]|e].
  - match goal with |- context [save_page_as_pdf ?a ?b ?c ?d ?f ?w0] =>
      destruct (save_never_raises a b c d f w0) as [b0 Hs];
      destruct (save_page_as_pdf a b c d f w0) as [r w1] end.
    simpl in Hs. subst r. exists b0, w1. split; [reflexivity|].
    rewrite bind_run. destruct (is_closed pg); cbn [negb]; [reflexivity|].
    rewrite bind_emit. unfold call. destruct (close pg) as [[]|e]; reflexivity.
  - eexists false, _. split; [discriminate|]. unfold ret at 1.
    rewrite bind_run. destruct (is_closed pg); cbn [negb]; [reflexivity|].
    rewrite bind_emit. unfold call. destruct (close pg) as [[]|e']; reflexivity.
Qed.







End Scraper.

(** ** The properties on the sample runs *)

Section Samples.
Import Demo.

Example extract_between_markers_found :
  extract_between_markers response TOPICS_START TOPICS_END = Some topics_block.
Proof. vm_compute. reflexivity. Qed.

Example extract_between_markers_no_end :
  extract_between_markers (lit "--- SUMMARY END --- x --- SUMMARY START ---")
    SUMMARY_START SUMMARY_END = None.
Proof. vm_compute. reflexivity. Qed.

Lemma pdf_filename_injective_witness :
  Scrape.valid_date 2004 1 15 /\ Scrape.valid_date 2200 4 11
  /\ (Scrape.pdf_filename (lit "12") 2004 1 15
      = Scrape.pdf_filename (lit "1") 2200 4 11
      <-> (lit "12", 2004, 1, 15)%Z = (lit "1", 2200, 4, 11)%Z).
Proof.
  assert (H1 : Scrape.valid_date 2004 1 15) by (unfold Scrape.valid_date; lia).
  assert (H2 : Scrape.valid_date 2200 4 11) by (unfold Scrape.valid_date; lia).
  split; [exact H1|]. split; [exact H2|].
  exact (pdf_filename_injective (lit "12") (lit "1") H1 H2).
Defined.


Lemma missing_api_key_is_fatal_witness :
  fst (configure_gemini env_no_key blank_app) = false
  /\ model (init env_no_key blank_app) = None
  /\ widgets_created (init env_no_key blank_app) = false
  /\ ui (init env_no_key blank_app)
     = [Title (lit "PDF Data Generator (v3 - Logging Fixed)");
        Geometry (lit "850x700"); ShowError (lit "Config Error");
        AfterDestroy 100].
Proof.
  destruct (missing_api_key_is_fatal env_no_key blank_app)
    as (H1 & _ & H3 & H4 & _ & H6); [left; reflexivity|].
  split; [exact H1|]. split; [exact H3|]. split; [exact H4|]. exact H6.
Defined.


(** C9, as stated, fails: the text of "a.pdf" is extracted and its language
    is detected as English, but [flush] raises for its record and [close]
    raises at the end; the dataset has no line for it. *)
Lemma write_failure_leaves_no_line :
  pdf_files (app env_disk_full) = [lit "a.pdf"; lit "broken.pdf"]
  /\ extract_and_clean_text env_disk_full (lit "a.pdf") = Some page_text
  /\ detect_language env_disk_full page_text = LangIs (lit "en")
  /\ jsonl (process_files env_disk_full (app env_disk_full)) = [].
Proof. repeat split; vm_compute; reflexivity. Qed.

Lemma env_ok_loop_runs (fs : list text) : loop_runs env_ok fs.
Proof.
  split; [discriminate|]. split; [|split; [reflexivity|]].
  - exists (lit "dataset"). split; reflexivity.
  - intros p _. reflexivity.
Qed.

Lemma process_files_dataset_witness :
  length (jsonl (process_files env_ok (app env_ok))) = 1.
Proof.
  destruct (@process_files_dataset env_ok (app env_ok)) as [H _].
  - reflexivity.
  - vm_compute. discriminate.
  - apply env_ok_loop_runs.
  - intros p _ r _. reflexivity.
  - rewrite H. vm_compute. reflexivity.
Defined.

(** C5, as stated, fails: the call returns [False], and the dated folder,
    which was not there, is there after it. *)
Lemma save_existing_makes_directories :
  Scrape.fs world_with_collective
    (Scrape.collective_pdf_path (lit "12345") 2004 1 5) <> None
  /\ fst (Scrape.save_page_as_pdf (tab (Scrape.Ok tt)) (lit "12345") 2004 1 5
            world_with_collective) = Scrape.Ok false
  /\ Scrape.fs world_with_collective (Scrape.pdf_dir 2004 1) = None
  /\ Scrape.fs
       (snd (Scrape.save_page_as_pdf (tab (Scrape.Ok tt)) (lit "12345") 2004 1 5
               world_with_collective))
       (Scrape.pdf_dir 2004 1) = Some Scrape.Dir.
Proof.
  split; [vm_compute; discriminate|]. repeat split; vm_compute; reflexivity.
Qed.

Lemma save_skips_existing_witness :
  exists w',
    Scrape.save_page_as_pdf (tab (Scrape.Ok tt)) (lit "12345") 2004 1 5
      world_with_collective = (Scrape.Ok false, w')
    /\ Scrape.events w' = [Scrape.EvMakedirs (Scrape.pdf_dir 2004 1)].
Proof.
  destruct (save_skips_existing (tab (Scrape.Ok tt)) (lit "12345") 2004 1 5
              world_with_collective) as (w' & H1 & H2 & _).
  - vm_compute. discriminate.
  - exists w'. split; [exact H1 | exact H2].
Defined.


End Samples.

(** * Further properties *)

(** ** What cleaned text looks like *)

Section CleanedText.
Import PyLib.

Lemma adjacent_occurs (c : ascii) (s : text) (i : nat) :
  occurs_at [c; c] s i -> adjacent (Ascii.eqb c) s = true.
Proof.
  revert i. induction s as [|a t IH]; intros i H.
  - destruct H as (pre & post & E & _). destruct pre; discriminate.
  - destruct i as [|i].
    + apply occurs_at_0 in H. cbn [startswith] in H.
      destruct t as [|b t']; [rewrite andb_false_r in H; discriminate|].
      cbn [adjacent]. apply andb_prop in H. destruct H as [Ha H].
      apply andb_prop in H. destruct H as [Hb _].
      rewrite Ha, Hb. reflexivity.
    + apply occurs_at_S in H. specialize (IH i H).
      cbn [adjacent]. destruct t as [|b t']; [discriminate IH|].
      rewrite IH. apply orb_true_r.
Qed.

Lemma squeeze_no_adjacent (s : text) (b : bool) :
  adjacent is_sp (squeeze b s) = false
  /\ (b = true -> count_while is_sp (squeeze b s) = 0).
Proof.
  revert b. induction s as [|c t IH]; intros b; [split; reflexivity|].
  cbn [squeeze]. destruct (is_sp c) eqn:Hc.
  - destruct b; [apply IH|]. destruct (IH true) as [Ha Hz].
    split; [|discriminate]. specialize (Hz eq_refl).
    cbn [adjacent]. destruct (squeeze true t) as [|d t'] eqn:Et;
      [reflexivity|].
    rewrite Ha, orb_false_r. cbn [count_while] in Hz.
    destruct (is_sp d); [discriminate | apply andb_false_r].
  - destruct (IH false) as [Ha _]. split.
    + cbn [adjacent]. destruct (squeeze false t) as [|d t'] eqn:Et;
        [reflexivity|]. rewrite Hc, Ha. reflexivity.
    + intros _. cbn [count_while]. rewrite Hc. reflexivity.
Qed.

Lemma join_no_blank (ls : list text) :
  Forall good_line ls -> adjacent is_nl (join [nl] ls) = false.
Proof.
  assert (Hline : forall l rest, nobreak l -> l <> [] ->
            adjacent is_nl rest = false ->
            count_while is_nl rest = 0 ->
            adjacent is_nl (l ++ nl :: rest) = false).
  { intros l rest Hl. induction Hl as [|c t Hc Ht IH]; intros Hne Ha Hz;
      [congruence|].
    assert (Hn : is_nl c = false).
    { destruct (is_nl c) eqn:En; [|reflexivity].
      apply Ascii.eqb_eq in En. subst c. discriminate. }
    destruct t as [|d t'].
    - simpl app. cbn [adjacent]. rewrite Hn. cbn [andb orb].
      destruct rest as [|e r]; [reflexivity|].
      rewrite Ha, orb_false_r. cbn [count_while] in Hz.
      destruct (is_nl e); [discriminate | apply andb_false_r].
    - change ((c :: d :: t') ++ nl :: rest)
        with (c :: (d :: t') ++ nl :: rest).
      cbn [adjacent app]. rewrite Hn. cbn [andb orb].
      apply IH; [discriminate | exact Ha | exact Hz]. }
  assert (Hplain : forall l, nobreak l -> adjacent is_nl l = false).
  { intros l Hl. induction Hl as [|c t Hc Ht IH]; [reflexivity|].
    cbn [adjacent]. destruct t as [|d t']; [reflexivity|].
    rewrite IH, orb_false_r.
    destruct (is_nl c) eqn:En; [|reflexivity].
    apply Ascii.eqb_eq in En. subst c. discriminate. }
  induction 1 as [|l ls' (Hne & Htr & Hnb) Hls IH]; [reflexivity|].
  destruct ls' as [|l2 ls'']; [apply Hplain; exact Hnb|].
  rewrite join_cons by discriminate. change ([nl] ++ ?x) with (nl :: x).
  apply Hline; [exact Hnb | exact Hne | exact IH |].
  inversion Hls as [|? ? (Hne2 & _ & Hnb2) _]; subst.
  destruct l2 as [|c t]; [congruence|].
  assert (Hn : is_nl c = false).
  { inversion Hnb2; subst. destruct (is_nl c) eqn:En; [|reflexivity].
    apply Ascii.eqb_eq in En. subst c. discriminate. }
  destruct ls''; simpl; rewrite Hn; reflexivity.
Qed.

(** The cleaned text is its lines joined by newlines; no line is empty and
    none begins or ends with white space. *)
Theorem clean_text_lines_joined (s : text) :
  join [nl] (splitlines (clean_text s)) = clean_text s
  /\ Forall (fun l => l <> [] /\ trimmed l) (splitlines (clean_text s)).
Proof.
  destruct (clean_text_lines s) as (ls & Hg & -> & _).
  rewrite splitlines_join by (apply good_break, Hg).
  split; [reflexivity|]. eapply Forall_impl; [|exact Hg].
  unfold good_line. tauto.
Qed.

(** The cleaned text has no white space at either end, no two spaces in a
    row and no two newlines in a row. *)
Theorem clean_text_no_runs (s : text) :
  trimmed (clean_text s)
  /\ (forall i, ~ occurs_at [sp; sp] (clean_text s) i)
  /\ (forall i, ~ occurs_at [nl; nl] (clean_text s) i).
Proof.
  destruct (clean_text_lines s) as (ls & Hg & E & Hsq).
  split; [rewrite E; apply trimmed_join, Hg|]. split.
  - intros i H. apply adjacent_occurs in H. rewrite E, <- Hsq in H.
    rewrite <- squeeze_join in H.
    change (Ascii.eqb sp) with (fun c => Ascii.eqb sp c) in H.
    assert (Hext : forall t, adjacent (fun c => Ascii.eqb sp c) t
                             = adjacent is_sp t).
    { induction t as [|a t' IH]; [reflexivity|]. cbn [adjacent].
      destruct t' as [|b t'']; [reflexivity|]. rewrite IH. unfold is_sp.
      rewrite (Ascii.eqb_sym sp a), (Ascii.eqb_sym sp b). reflexivity. }
    rewrite Hext in H.
    rewrite (proj1 (squeeze_no_adjacent _ false)) in H. discriminate.
  - intros i H. apply adjacent_occurs in H. rewrite E in H.
    assert (Hext : forall t, adjacent (Ascii.eqb nl) t = adjacent is_nl t).
    { induction t as [|a t' IH]; [reflexivity|]. cbn [adjacent].
      destruct t' as [|b t'']; [reflexivity|]. rewrite IH. unfold is_nl.
      rewrite (Ascii.eqb_sym nl a), (Ascii.eqb_sym nl b). reflexivity. }
    rewrite Hext, (join_no_blank Hg) in H. discriminate.
Qed.

Lemma splitlines_from_Forall (P : ascii -> Prop) (n : nat) :
  forall s cur, length s <= n -> Forall P cur -> Forall P s ->
  Forall (Forall P) (splitlines_from cur s).
Proof.
  induction n as [|n IH]; intros s cur Hlen Hcur Hs.
  - destruct s; [|simpl in Hlen; lia]. simpl.
    destruct cur; repeat constructor; inversion Hcur; assumption.
  - destruct s as [|c r]; simpl.
    + destruct cur; repeat constructor; inversion Hcur; assumption.
    + simpl in Hlen. inversion Hs as [|? ? Hc Hr]; subst.
      destruct (is_linebreak c).
      * constructor; [exact Hcur|].
        destruct r as [|c' r']; [constructor|].
        inversion Hr; subst.
        destruct (Ascii.eqb c cr && Ascii.eqb c' nl).
        -- apply IH; [simpl in Hlen; lia | constructor | assumption].
        -- apply IH; [lia | constructor | assumption].
      * apply IH; [lia | | exact Hr]. apply Forall_app. split; [exact Hcur|].
        repeat constructor. exact Hc.
Qed.

Lemma strip_blank (l : text) :
  Forall (fun c => isspace c = true) l -> strip l = [].
Proof.
  intros H. unfold strip, lstrip, rstrip.
  assert (Hd : drop_while isspace l = []).
  { induction H as [|c t Hc Ht IH]; [reflexivity|]. simpl. rewrite Hc.
    exact IH. }
  rewrite Hd. reflexivity.
Qed.

(** Text of white space only, the empty text included, cleans to the empty
    text. *)
Theorem clean_text_blank (s : text) :
  Forall (fun c => isspace c = true) s -> clean_text s = [].
Proof.
  intros H. unfold clean_text.
  assert (Hl : Forall (Forall (fun c => isspace c = true)) (splitlines s)).
  { apply splitlines_from_Forall with (n := length s);
      [lia | constructor | exact H]. }
  assert (Hf : filter_map clean_line (splitlines s) = []).
  { induction Hl as [|l ls' Hl Hls IH]; [reflexivity|]. simpl.
    unfold clean_line at 1. rewrite (strip_blank Hl). exact IH. }
  rewrite Hf. reflexivity.
Qed.

Lemma clean_text_blank_witness :
  clean_text ([sp; nl; cr; nl] ++ lit "   ") = [].
Proof.
  apply clean_text_blank. repeat constructor.
Defined.

End CleanedText.

(** ** The size of cleaned text *)

Section CleanedSize.
Import PyLib.

Lemma length_drop_while (p : ascii -> bool) (s : text) :
  length (drop_while p s) <= length s.
Proof.
  induction s as [|c t IH]; simpl; [lia|]. destruct (p c); simpl; lia.
Qed.

Lemma length_strip (s : text) : length (strip s) <= length s.
Proof.
  unfold strip, rstrip, lstrip. rewrite length_rev.
  etransitivity; [apply length_drop_while|]. rewrite length_rev.
  apply length_drop_while.
Qed.

Lemma length_sub_delete (r : regex) (s : text) (k : nat) :
  length (sub_from r [] k s) <= length s.
Proof.
  revert k. induction s as [|c t IH]; intros k; simpl; [lia|].
  destruct k as [|k]; [|specialize (IH k); lia].
  destruct (re_match r (c :: t)) as [[|j]|]; simpl;
    try (specialize (IH 0); lia). specialize (IH j). lia.
Qed.

Lemma length_squeeze (s : text) (b : bool) :
  length (squeeze b s) <= length s.
Proof.
  revert b. induction s as [|c t IH]; intros b; simpl; [lia|].
  destruct (is_sp c); [destruct b|]; simpl;
    try (specialize (IH true); lia). specialize (IH false). lia.
Qed.

Lemma length_join (ls : list text) :
  length (join [nl] ls) = pred (weight ls).
Proof.
  induction ls as [|l ls' IH]; [reflexivity|].
  destruct ls' as [|l2 ls''].
  - unfold weight. simpl. lia.
  - rewrite join_cons by discriminate. rewrite !length_app, IH.
    unfold weight. simpl. lia.
Qed.

Lemma length_clean_line (l l' : text) :
  clean_line l = Some l' -> length l' <= length l.
Proof.
  unfold clean_line. destruct (strip l) as [|c r] eqn:Es; [discriminate|].
  destruct (fullmatch datetime_pattern (c :: r)); [discriminate|].
  destruct (in_headers (c :: r)); [discriminate|].
  destruct (strip (sub ref_pattern [] (sub url_pattern [] (c :: r))))
    as [|c' r'] eqn:E2; [discriminate|].
  intros [= <-]. rewrite <- E2.
  etransitivity; [apply length_strip|].
  etransitivity; [apply length_sub_delete|].
  etransitivity; [apply length_sub_delete|].
  rewrite <- Es. apply length_strip.
Qed.

Lemma weight_cleaned (ls : list text) :
  weight (filter_map clean_line ls) <= weight ls.
Proof.
  induction ls as [|l ls' IH]; [reflexivity|]. simpl.
  destruct (clean_line l) as [l'|] eqn:E.
  - apply length_clean_line in E. unfold weight in *. simpl. lia.
  - unfold weight in *. simpl. lia.
Qed.

Lemma weight_splitlines_from (n : nat) :
  forall s cur, length s <= n ->
  weight (splitlines_from cur s) <= length cur + length s + 1.
Proof.
  induction n as [|n IH]; intros s cur Hlen.
  - destruct s; [|simpl in Hlen; lia]. simpl.
    destruct cur; unfold weight; simpl; lia.
  - destruct s as [|c r]; simpl.
    + destruct cur; unfold weight; simpl; lia.
    + simpl in Hlen. destruct (is_linebreak c).
      * destruct r as [|c' r']; [unfold weight; simpl; lia|].
        destruct (Ascii.eqb c cr && Ascii.eqb c' nl).
        -- specialize (IH r' [] ltac:(simpl in Hlen; lia)).
           unfold weight in *. simpl in *. lia.
        -- specialize (IH (c' :: r') [] ltac:(lia)).
           unfold weight in *. simpl in *. lia.
      * specialize (IH r (cur ++ [c]) ltac:(lia)).
        rewrite length_app in IH. simpl in IH. lia.
Qed.

(** Cleaning never makes the text longer. *)
Theorem clean_text_no_longer (s : text) :
  length (clean_text s) <= length s.
Proof.
  pose proof (cleaned_lines_good (splitlines_nobreak s)) as Hg.
  unfold clean_text. rewrite sub_newlines_joined by (apply good_break, Hg).
  rewrite strip_id by (apply trimmed_join, Hg). rewrite sub_spaces.
  etransitivity; [apply length_squeeze|]. rewrite length_join.
  pose proof (weight_cleaned (splitlines s)) as H1.
  pose proof (weight_splitlines_from (n := length s) s [] (le_n _)) as H2.
  fold (splitlines s) in H2. simpl in H2. lia.
Qed.

End CleanedSize.

(** ** More on [extract_between_markers] *)

Section MarkersMore.

Lemma drop_while_split (p : ascii -> bool) (s : text) :
  exists w, s = w ++ drop_while p s /\ Forall (fun c => p c = true) w.
Proof.
  induction s as [|c r (w & IH & Hw)]; simpl.
  - exists []. split; [reflexivity | constructor].
  - destruct (p c) eqn:Hc.
    + exists (c :: w). split; [simpl; f_equal; exact IH|].
      constructor; assumption.
    + exists []. split; [reflexivity | constructor].
Qed.

(** Stripping removes white space at both ends and nothing else. *)
Lemma strip_split (s : text) :
  exists a b, s = a ++ strip s ++ b
              /\ Forall (fun c => isspace c = true) a
              /\ Forall (fun c => isspace c = true) b.
Proof.
  unfold strip, rstrip, lstrip.
  destruct (drop_while_split isspace s) as (a & Ha & Hwa).
  destruct (drop_while_split isspace (rev (drop_while isspace s)))
    as (b & Hb & Hwb).
  exists a, (rev b). split; [|split; [exact Hwa | apply Forall_rev, Hwb]].
  rewrite <- rev_app_distr, <- Hb, rev_involutive. exact Ha.
Qed.

(** What [extract_between_markers] returns lies in the text between the two
    markers, with nothing but white space before and after it there, and has
    no white space at its ends. *)
Theorem extracted_block_in_text (txt sm em r : text) :
  extract_between_markers txt sm em = Some r ->
  trimmed r
  /\ exists pre a b post,
       txt = pre ++ sm ++ a ++ r ++ b ++ em ++ post
       /\ Forall (fun c => isspace c = true) a
       /\ Forall (fun c => isspace c = true) b.
Proof.
  intros H. pose proof (extract_meets_spec txt sm em) as Hs.
  rewrite H in Hs. inversion Hs as [| |pre mid post E Hf He Hr]; subst.
  split; [apply strip_trimmed|].
  destruct (strip_split mid) as (a & b & Hm & Ha & Hb).
  exists pre, a, b, post. split; [|split; assumption].
  rewrite Hm at 1. rewrite <- !app_assoc. reflexivity.
Qed.

End MarkersMore.

(** ** The list of files, again *)

Section FileList.
Import PyLib TrainSetRest.
Variable E : Env.

Lemma add_loop_grows (fs : list text) (l : list text) (n : nat) :
  exists added,
    fold_left (add_one E) fs (l, n) = (l ++ added, n + length added)
    /\ (forall x, In x added -> In x (map (normpath E) fs))
    /\ (forall f, In f fs -> In (normpath E f) (l ++ added)).
Proof.
  revert l n. induction fs as [|f fs' IH]; intros l n.
  - exists []. rewrite app_nil_r. simpl. rewrite Nat.add_0_r.
    split; [reflexivity|]. split; intros ? [].
  - cbn [fold_left]. unfold add_one at 2. cbn [fst snd].
    destruct (contains l (normpath E f)) eqn:Ec; cbn [negb].
    + destruct (IH l n) as (added & Hf & Hin & Hall). exists added.
      split; [exact Hf|]. split.
      * intros x Hx. right. apply Hin, Hx.
      * intros g [<-|Hg]; [|apply Hall, Hg].
        apply in_or_app. left. apply contains_In. exact Ec.
    + destruct (IH (l ++ [normpath E f]) (S n)) as (added & Hf & Hin & Hall).
      exists (normpath E f :: added). rewrite Hf, <- app_assoc. simpl.
      split; [f_equal; lia|]. split.
      * intros x [<-|Hx]; [left; reflexivity | right; apply Hin, Hx].
      * intros g [<-|Hg].
        -- apply in_or_app. right. left. reflexivity.
        -- specialize (Hall g Hg). rewrite <- app_assoc in Hall. exact Hall.
Qed.

Lemma add_loop_known (fs : list text) (l : list text) (n : nat) :
  (forall f, In f fs -> In (normpath E f) l) ->
  fold_left (add_one E) fs (l, n) = (l, n).
Proof.
  induction fs as [|f fs' IH]; intros H; [reflexivity|].
  cbn [fold_left]. unfold add_one at 2. cbn [fst snd].
  assert (Hc : contains l (normpath E f) = true).
  { apply contains_In. apply H. left. reflexivity. }
  rewrite Hc. cbn [negb]. apply IH. intros g Hg. apply H. right. exact Hg.
Qed.

Lemma add_pdf_files_list (a : App) (fs : list text) :
  pdf_files (add_pdf_files E a fs)
  = fst (fold_left (add_one E) fs (pdf_files a, 0)).
Proof.
  unfold add_pdf_files.
  destruct (fold_left (add_one E) fs (pdf_files a, 0)) as [l n].
  destruct (n =? 0); reflexivity.
Qed.

(** [add_pdf_files] keeps the entries of the list where they are and puts
    new ones after them: the list then holds what it held and the
    normalized path of every file given, and nothing else. *)
Theorem add_pdf_files_extends (a : App) (fs : list text) :
  (exists added, pdf_files (add_pdf_files E a fs) = pdf_files a ++ added)
  /\ forall x, In x (pdf_files (add_pdf_files E a fs))
               <-> In x (pdf_files a) \/ In x (map (normpath E) fs).
Proof.
  rewrite add_pdf_files_list.
  destruct (add_loop_grows fs (pdf_files a) 0) as (added & -> & Hin & Hall).
  cbn [fst]. split; [exists added; reflexivity|].
  intros x. rewrite in_app_iff. split.
  - intros [H|H]; [left; exact H | right; apply Hin, H].
  - intros [H|H]; [left; exact H|]. apply in_map_iff in H.
    destruct H as (f & <- & Hf). apply in_app_iff. apply Hall, Hf.
Qed.

(** Adding the same files a second time leaves the list as it is and tells
    the user that they are already in the list. *)
Theorem add_pdf_files_again (a : App) (fs : list text) :
  pdf_files (add_pdf_files E (add_pdf_files E a fs) fs)
  = pdf_files (add_pdf_files E a fs)
  /\ ui (add_pdf_files E (add_pdf_files E a fs) fs)
     = ui (add_pdf_files E a fs) ++ [ShowInfo (lit "Info")].
Proof.
  set (a1 := add_pdf_files E a fs).
  assert (Hall : forall f, In f fs -> In (normpath E f) (pdf_files a1)).
  { unfold a1. rewrite add_pdf_files_list.
    destruct (add_loop_grows fs (pdf_files a) 0) as (added & -> & _ & Hall).
    exact Hall. }
  unfold add_pdf_files. rewrite (add_loop_known fs (pdf_files a1) 0 Hall).
  split; reflexivity.
Qed.

Lemma endswith_iff (w s : text) :
  endswith w s = true <-> exists stem, s = stem ++ w.
Proof.
  unfold endswith. rewrite startswith_iff. split.
  - intros [post H]. exists (rev post).
    apply (f_equal (@rev ascii)) in H.
    rewrite rev_involutive, rev_app_distr, rev_involutive in H. exact H.
  - intros [stem ->]. exists (rev stem). apply rev_app_distr.
Qed.

(** [on_drop] takes, of the files dropped, those whose name ends in ".pdf"
    whatever the case of its letters, and no other: the list then holds what
    it held and the normalized paths of these. *)
Theorem on_drop_takes_pdfs (a : App) (files : list text) :
  forall x, In x (pdf_files (on_drop E a files))
            <-> In x (pdf_files a)
                \/ exists f stem, In f files /\ lower f = stem ++ lit ".pdf"
                                  /\ x = normpath E f.
Proof.
  intros x. unfold on_drop.
  set (dropped := filter (fun f => endswith (lit ".pdf") (lower f)) files).
  assert (Hd : In x (map (normpath E) dropped)
               <-> exists f stem, In f files /\ lower f = stem ++ lit ".pdf"
                                  /\ x = normpath E f).
  { rewrite in_map_iff. split.
    - intros (f & <- & Hf). apply filter_In in Hf. destruct Hf as [Hf He].
      apply endswith_iff in He. destruct He as [stem He].
      exists f, stem. auto.
    - intros (f & stem & Hf & He & ->). exists f. split; [reflexivity|].
      apply filter_In. split; [exact Hf|]. apply endswith_iff.
      exists stem. exact He. }
  rewrite <- Hd. destruct dropped as [|f0 fs0] eqn:Ed.
  - simpl. tauto.
  - rewrite add_pdf_files_list.
    destruct (add_loop_grows (f0 :: fs0) (pdf_files a) 0)
      as (added & -> & Hin & Hall).
    cbn [fst]. rewrite in_app_iff. split.
    + intros [H|H]; [left; exact H | right; apply Hin, H].
    + intros [H|H]; [left; exact H|]. apply in_map_iff in H.
      destruct H as (f & <- & Hf). apply in_app_iff. apply Hall, Hf.
Qed.

End FileList.

(** ** The statistics of a run *)

Section RunStats.
Import PyLib TrainSetRest.
Variable E : Env.

(** What a summary comes from: a configured model, a text of 50 characters
    at least, and a response of the model in which both blocks are found,
    the summary being the first of them; and there are no topics without a
    summary. *)
Theorem summary_origin (a : App) (pdf_text filename : text) :
  (forall s,
     fst (generate_summary_and_topics E a pdf_text filename) = Some s ->
     model a <> None /\ 50 <= length pdf_text
     /\ exists response_text t,
          generate_content E (filename, firstn 40000 pdf_text)
          = ApiResponse response_text
          /\ extract_between_markers response_text SUMMARY_START SUMMARY_END
             = Some s
          /\ extract_between_markers response_text TOPICS_START TOPICS_END
             = Some t)
  /\ (forall topics,
        snd (generate_summary_and_topics E a pdf_text filename) = Some topics ->
        fst (generate_summary_and_topics E a pdf_text filename) <> None).
Proof.
  split.
  - intros s. unfold generate_summary_and_topics.
    destruct (model a) as [m|]; [|discriminate].
    destruct (length pdf_text <? 50) eqn:El; [discriminate|].
    apply Nat.ltb_ge in El.
    destruct (generate_content E _) as [| | |response_text] eqn:Ea;
      try discriminate.
    destruct (extract_between_markers response_text SUMMARY_START _)
      as [s0|] eqn:Es; [|discriminate].
    destruct (extract_between_markers response_text TOPICS_START _)
      as [t|] eqn:Et; [|discriminate].
    destruct (parse_topics E t); [|discriminate].
    intros [= <-]. split; [discriminate|]. split; [exact El|].
    exists response_text, t. auto.
  - intros topics Ht Hs. apply no_summary_no_topics in Hs. congruence.
Qed.

(** What one turn of the loop adds: one entry of the details, for the file,
    with a status that is not [UNKNOWN]. *)
Lemma process_one_step (a : App) (p : text) :
  exists d,
    per_file_details (process_one E a p) = per_file_details a ++ [d]
    /\ processed_count (process_one E a p) = S (processed_count a)
    /\ fd_filename d = basename E p
    /\ fd_status d <> UNKNOWN.
Proof.
  unfold process_one.
  destruct (extract_and_clean_text E p) as [t|].
  2:{ eexists. cbn. repeat split; try reflexivity; discriminate. }
  destruct (other_language _).
  { eexists. cbn. repeat split; try reflexivity; discriminate. }
  destruct (generate_summary_and_topics E (count_attempt a) t (basename E p))
    as [s tp].
  destruct (json_dump E _).
  { eexists. cbn. repeat split; try reflexivity; discriminate. }
  destruct s; eexists; cbn; repeat split; try reflexivity; discriminate.
Qed.

(** A turn whose write returns: the status is [SUCCESS] exactly when the
    record has a summary, and a skipped file has no record. *)
Lemma process_one_written (a : App) (p : text) :
  (forall r, In r (lines_written E a p) -> json_dump E r = None) ->
  exists d,
    per_file_details (process_one E a p) = per_file_details a ++ [d]
    /\ length (lines_written E a p) <= 1
    /\ records_with_summary (lines_written E a p)
       = (if status_eqb (fd_status d) SUCCESS then 1 else 0)
    /\ (fd_status d = SKIP -> lines_written E a p = []).
Proof.
  unfold process_one, lines_written, record_for.
  destruct (extract_and_clean_text E p) as [t|].
  2:{ intros _. eexists. cbn. repeat split; try reflexivity; auto. }
  destruct (other_language _).
  { intros _. eexists. cbn. repeat split; try reflexivity; auto. }
  rewrite (generate_model E (count_attempt a) a t (basename E p) eq_refl).
  destruct (generate_summary_and_topics E a t (basename E p)) as [s tp].
  cbn [fst snd]. intros Hw. rewrite (Hw _ (or_introl eq_refl)).
  destruct s; eexists; cbn; repeat split; try reflexivity; auto; discriminate.
Qed.

Lemma count_status_app (s : status) (l1 l2 : list file_details) :
  count_status s (l1 ++ l2) = count_status s l1 + count_status s l2.
Proof.
  unfold count_status. rewrite filter_app, length_app. reflexivity.
Qed.

Lemma count_status_one (s : status) (d : file_details) :
  count_status s [d] = if status_eqb (fd_status d) s then 1 else 0.
Proof.
  unfold count_status. simpl. destruct (status_eqb (fd_status d) s); reflexivity.
Qed.

Lemma records_with_summary_app (l1 l2 : list data_record) :
  records_with_summary (l1 ++ l2)
  = records_with_summary l1 + records_with_summary l2.
Proof.
  unfold records_with_summary. rewrite filter_app, length_app. reflexivity.
Qed.

(** Details without an [UNKNOWN] status: the three counters of the final
    message add up to their number. *)
Lemma counters_add_up (ds : list file_details) :
  count_status UNKNOWN ds = 0 ->
  count_status SUCCESS ds + count_status SKIP ds + count_status FAIL ds
  = length ds.
Proof.
  induction ds as [|d ds' IH]; [reflexivity|].
  change (d :: ds') with ([d] ++ ds'). rewrite !count_status_app, !count_status_one.
  simpl length. destruct (fd_status d); simpl; try discriminate;
    intros H; specialize (IH H); lia.
Qed.

Lemma process_fold_stats (fs : list text) (a : App) :
  let a' := fold_left (process_one E) fs a in
  processed_count a' = processed_count a + length fs
  /\ map fd_filename (per_file_details a')
     = map fd_filename (per_file_details a) ++ map (basename E) fs
  /\ count_status UNKNOWN (per_file_details a')
     = count_status UNKNOWN (per_file_details a).
Proof.
  revert a. induction fs as [|f fs' IH]; intros a; cbn zeta.
  - simpl. rewrite app_nil_r. repeat split; lia.
  - cbn [fold_left]. specialize (IH (process_one E a f)). cbn zeta in IH.
    destruct IH as (H1 & H2 & H3).
    destruct (process_one_step a f) as (d & Hd & Hc & Hn & Hu).
    rewrite Hd in H2, H3. rewrite Hc in H1.
    rewrite map_app in H2. rewrite count_status_app, count_status_one in H3.
    simpl map in H2. rewrite Hn in H2. rewrite <- app_assoc in H2.
    simpl length. split; [lia|]. split; [exact H2|].
    destruct (fd_status d); simpl in *; try congruence; lia.
Qed.

Lemma process_fold_written (fs : list text) (a : App) :
  writes_return E a fs ->
  let a' := fold_left (process_one E) fs a in
  count_status SUCCESS (per_file_details a')
  = count_status SUCCESS (per_file_details a)
    + records_with_summary (flat_map (lines_written E a) fs)
  /\ length (flat_map (lines_written E a) fs)
     + count_status SKIP (per_file_details a')
     <= count_status SKIP (per_file_details a) + length fs.
Proof.
  revert a. induction fs as [|f fs' IH]; intros a Hw; cbn zeta.
  - cbn [fold_left flat_map]. change (records_with_summary []) with 0.
    simpl length. split; lia.
  - cbn [fold_left flat_map].
    assert (Hm : model a = model (process_one E a f))
      by (symmetry; apply process_one_frame).
    assert (Hw' : writes_return E (process_one E a f) fs').
    { eapply writes_return_model; [exact Hm|]. intros p Hp. apply Hw. right.
      exact Hp. }
    specialize (IH (process_one E a f) Hw'). cbn zeta in IH.
    destruct IH as (H1 & H2).
    assert (Hf : flat_map (lines_written E (process_one E a f)) fs'
                 = flat_map (lines_written E a) fs').
    { apply flat_map_ext. intros p. symmetry. apply lines_written_model.
      exact Hm. }
    rewrite Hf in H1, H2.
    destruct (@process_one_written a f (Hw f (or_introl eq_refl)))
      as (d & Hd & Hl & Hs & Hk).
    rewrite Hd in H1, H2. rewrite count_status_app, count_status_one in H1, H2.
    rewrite records_with_summary_app, length_app, Hs. simpl length.
    split; [lia|].
    destruct (fd_status d) eqn:Est; simpl in *; try lia.
    rewrite (Hk eq_refl). simpl. lia.
Qed.

(** The loop in general: it counts no more files than the list has, and
    stores no [UNKNOWN] status. *)
Lemma process_loop_stats (fs : list text) (a : App) :
  let a' := fst (process_loop E fs a) in
  processed_count a' <= processed_count a + length fs
  /\ count_status UNKNOWN (per_file_details a')
     = count_status UNKNOWN (per_file_details a).
Proof.
  revert a. induction fs as [|f fs' IH]; intros a; cbn zeta.
  - simpl. split; [lia | reflexivity].
  - cbn [process_loop]. destruct (doc_close E f).
    + cbn. split; [lia | reflexivity].
    + specialize (IH (process_one E a f)). cbn zeta in IH.
      destruct IH as (H1 & H2).
      destruct (process_one_step a f) as (d & Hd & Hc & _ & Hu).
      rewrite Hd in H2. rewrite Hc in H1.
      rewrite count_status_app, count_status_one in H2. simpl length.
      split; [lia|].
      destruct (fd_status d); simpl in *; try congruence; lia.
Qed.

(** A run that is not cancelled at the dialog ends with the flag down, has
    attempted no more files than the list has, and its three counters add up
    to the number of entries of the details.  When it reaches the loop and
    the end of the list, every file has been attempted and has its entry in
    the details, in the order of the list, so that the three counters add up
    to the number of files. *)
Theorem process_files_accounts (a : App) :
  processing_active a = false -> pdf_files a <> [] ->
  asksaveasfilename E <> [] ->
  (processing_active (process_files E a) = false
   /\ processed_count (process_files E a) <= length (pdf_files a)
   /\ success_count (process_files E a) + skipped_count (process_files E a)
      + failed_count (process_files E a)
      = length (per_file_details (process_files E a)))
  /\ (loop_runs E (pdf_files a) ->
      processed_count (process_files E a) = length (pdf_files a)
      /\ map fd_filename (per_file_details (process_files E a))
         = map (basename E) (pdf_files a)
      /\ success_count (process_files E a) + skipped_count (process_files E a)
         + failed_count (process_files E a) = length (pdf_files a)).
Proof.
  intros Hbusy Hfiles Hpath.
  assert (Hgen : processing_active (process_files E a) = false
                 /\ processed_count (process_files E a) <= length (pdf_files a)
                 /\ count_status UNKNOWN (per_file_details (process_files E a))
                    = 0).
  { split; [apply process_files_frame; exact Hbusy|].
    unfold process_files. rewrite Hbusy.
    destruct (pdf_files a) as [|f fs] eqn:Ef; [congruence|].
    destruct (asksaveasfilename E) as [|c path]; [congruence|].
    destruct (splitext E _) as [base_path|]; [|cbn; split; [lia | reflexivity]].
    destruct (open_log E _); [cbn; split; [lia | reflexivity]|].
    cbn [emit set_processing_active processed_count per_file_details].
    unfold run_loop. destruct (open_jsonl E _); [cbn; split; [lia | reflexivity]|].
    set (a0 := open_dataset (reset_stats (set_processing_active a true))).
    assert (Hp : pdf_files (reset_stats (set_processing_active a true))
                 = f :: fs) by exact Ef.
    rewrite Hp.
    pose proof (process_loop_stats (f :: fs) a0) as H. cbn zeta in H.
    destruct (process_loop E (f :: fs) a0) as [a1 raised]. cbn [fst] in H.
    destruct H as [H1 H2].
    change (processed_count a0) with 0 in H1.
    change (per_file_details a0) with (@nil file_details) in H2.
    destruct (close_dataset_frame E
                match raised with
                | Some e => critical_error a1 e
                | None => a1
                end) as (_ & _ & -> & ->).
    destruct raised; cbn [critical_error add_details emit processed_count
                          per_file_details]; [|split; [lia | exact H2]].
    rewrite count_status_app, H2. split; [lia | reflexivity]. }
  destruct Hgen as (Hflag & Hcount & Hunknown).
  unfold success_count, skipped_count, failed_count.
  split; [split; [exact Hflag|]; split; [exact Hcount|];
          apply counters_add_up; exact Hunknown|].
  intros Hrun. clear Hflag Hcount. revert Hunknown.
  rewrite (@process_files_run E a Hbusy Hfiles Hrun).
  set (a0 := open_dataset (reset_stats (set_processing_active a true))).
  pose proof (process_fold_stats (pdf_files a) a0) as H. cbn zeta in H.
  destruct H as (H1 & H2 & _).
  cbn [emit set_processing_active processed_count per_file_details].
  destruct (close_dataset_frame E (fold_left (process_one E) (pdf_files a) a0))
    as (_ & _ & -> & ->).
  change (processed_count a0) with 0 in H1.
  change (per_file_details a0) with (@nil file_details) in H2.
  intros Hunknown. split; [exact H1|]. split; [exact H2|].
  rewrite (counters_add_up _ Hunknown).
  rewrite <- (length_map fd_filename), H2. simpl. apply length_map.
Qed.

(** After a run that reaches the loop and the end of the list, and in which
    no write raises, the dataset is made of whole lines; the files counted as
    successes are as many as the lines that have a summary, and the lines and
    the skipped files together are no more than the files. *)
Theorem process_files_successes (a : App) :
  processing_active a = false -> pdf_files a <> [] ->
  loop_runs E (pdf_files a) ->
  writes_return E a (pdf_files a) ->
  exists records,
    jsonl (process_files E a) = map Line records
    /\ success_count (process_files E a) = records_with_summary records
    /\ length records + skipped_count (process_files E a)
       <= length (pdf_files a).
Proof.
  intros Hbusy Hfiles Hrun Hw.
  exists (flat_map (lines_written E a) (pdf_files a)).
  set (a0 := open_dataset (reset_stats (set_processing_active a true))).
  assert (Hm : model a = model a0) by reflexivity.
  assert (Hw0 : writes_return E a0 (pdf_files a))
    by (eapply writes_return_model; [exact Hm | exact Hw]).
  destruct (@process_fold_jsonl E (pdf_files a) a0 Hw0 eq_refl) as [Hj Hb].
  pose proof (@process_fold_written (pdf_files a) a0 Hw0) as H. cbn zeta in H.
  destruct H as [H1 H2].
  rewrite (@process_files_run E a Hbusy Hfiles Hrun).
  unfold success_count, skipped_count.
  cbn [emit set_processing_active jsonl per_file_details].
  fold a0.
  destruct (close_dataset_frame E (fold_left (process_one E) (pdf_files a) a0))
    as (_ & _ & _ & ->).
  rewrite (@close_dataset_empty E _ Hb), Hj.
  change (count_status SUCCESS (per_file_details a0)) with 0 in H1.
  change (count_status SKIP (per_file_details a0)) with 0 in H2.
  split; [reflexivity|]. split; [exact H1 | exact H2].
Qed.

(** A file with fewer than twenty characters of text is not given to the
    language detector nor to the model: whatever these would answer, its
    record is written with neither summary nor topics, after the text that
    was pending in the file object. *)
Theorem short_text_record (a : App) (p extracted : text) :
  extract_and_clean_text E p = Some extracted ->
  length extracted < 20 ->
  json_dump E {| pdf_filename := basename E p; extracted_text := extracted;
                 gemini_summary := None; gemini_topics := None |} = None ->
  jsonl (process_one E a p)
  = jsonl a ++ jsonl_buffer a
    ++ [Line {| pdf_filename := basename E p; extracted_text := extracted;
                gemini_summary := None; gemini_topics := None |}]
  /\ jsonl_buffer (process_one E a p) = []
  /\ exists d, per_file_details (process_one E a p)
               = per_file_details a ++ [d]
               /\ fd_status d = FAIL
               /\ fd_reason d = lit "Gemini generation failed".
Proof.
  intros He Hl Hd. unfold process_one. rewrite He.
  assert (Hlang : detect_language E extracted = LangIs (lit "unknown")).
  { unfold detect_language.
    assert (Hs : length (strip (firstn 1500 extracted)) < 20).
    { eapply Nat.le_lt_trans; [apply length_strip|].
      rewrite length_firstn. lia. }
    apply Nat.ltb_lt in Hs. rewrite Hs. reflexivity. }
  rewrite Hlang. change (other_language (LangIs (lit "unknown"))) with false.
  cbv iota.
  assert (Hg : forall b, generate_summary_and_topics E b extracted (basename E p)
                         = (None, None)).
  { intros b. unfold generate_summary_and_topics.
    destruct (model b); [|reflexivity].
    assert (H50 : (length extracted <? 50) = true) by (apply Nat.ltb_lt; lia).
    rewrite H50. reflexivity. }
  rewrite Hg, Hd. split; [reflexivity|]. split; [reflexivity|].
  eexists. split; [reflexivity|]. split; reflexivity.
Qed.

End RunStats.

(** ** The log table and the table lines *)

Section LogTable.
Import PyLib TrainSetRest.

Lemma length_ljust (width : nat) (s : text) :
  length (ljust width s) = Nat.max width (length s).
Proof.
  unfold ljust. rewrite length_app, repeat_length. lia.
Qed.

Lemma length_display_filename (f : text) :
  length (display_filename f) <= 45.
Proof.
  unfold display_filename. destruct (45 <? length f) eqn:E.
  - apply Nat.ltb_lt in E. rewrite length_app, length_firstn.
    change (length (lit "...")) with 3. lia.
  - apply Nat.ltb_ge in E. exact E.
Qed.

(** Every row of the detailed log has its two first bars where the header
    has them, after 45 and after 56 characters, however long the name of the
    file is; a name of more than 45 characters is cut to 42 and marked with
    three dots. *)
Theorem log_rows_aligned (d : file_details) :
  length (ljust 45 (display_filename (fd_filename d))) = 45
  /\ length (row_start d) = length header_start
  /\ (45 < length (fd_filename d) ->
      display_filename (fd_filename d)
      = firstn 42 (fd_filename d) ++ lit "...")
  /\ (length (fd_filename d) <= 45 ->
      display_filename (fd_filename d) = fd_filename d).
Proof.
  pose proof (length_display_filename (fd_filename d)) as Hd.
  assert (Hs : length (status_name (fd_status d)) <= 8).
  { destruct (fd_status d); simpl; lia. }
  split; [rewrite length_ljust; lia|]. split.
  - unfold row_start, header_start. rewrite !length_app, !length_ljust.
    simpl length. lia.
  - unfold display_filename. split; intros H.
    + apply Nat.ltb_lt in H. rewrite H. reflexivity.
    + apply Nat.ltb_ge in H. rewrite H. reflexivity.
Qed.

Lemma finditer_not_found (r : regex) (s : text) (pos : nat) :
  search r s = false -> finditer_from r pos 0 s = [].
Proof.
  revert pos. induction s as [|c t IH]; intros pos; [reflexivity|].
  cbn [search finditer_from].
  destruct (re_match r (c :: t)) as [[|j]|]; intros H;
    try discriminate; apply IH; exact H.
Qed.

(** A line in which no three white-space characters follow one another,
    once stripped, is no table line. *)
Theorem prose_is_no_table_line (line : text) :
  search multi_space_pattern (strip line) = false ->
  is_likely_table_line line = false.
Proof.
  intros H. unfold is_likely_table_line, finditer.
  rewrite (finditer_not_found _ _ 0 H). reflexivity.
Qed.

Lemma prose_is_no_table_line_witness :
  is_likely_table_line (lit "  The Cabinet met on Monday. ") = false.
Proof.
  apply prose_is_no_table_line. vm_compute. reflexivity.
Defined.

End LogTable.

(** ** The scraper: what [save_page_as_pdf] does to the file system *)

Section SaveEffects.
Import Scrape.
Local Open Scope scrape_scope.

Lemma makedirs_from_present (rest pre : path) (w : world) :
  (forall k, k < length rest -> fs w (pre ++ firstn (S k) rest) = Some Dir) ->
  makedirs_from pre rest w = (Ok tt, w).
Proof.
  revert pre. induction rest as [|c rest' IH]; intros pre H; [reflexivity|].
  cbn [makedirs_from]. rewrite bind_lookup.
  pose proof (H 0 ltac:(simpl; lia)) as H0. simpl firstn in H0.
  rewrite H0. apply IH. intros k Hk.
  specialize (H (S k) ltac:(simpl; lia)).
  rewrite <- app_assoc. exact H.
Qed.

Lemma makedirs_from_made (rest pre : path) (w : world) :
  (forall k data, fs w (pre ++ firstn (S k) rest) <> Some (File data)) ->
  fst (makedirs_from pre rest w) = Ok tt
  /\ forall k, k < length rest ->
       fs (snd (makedirs_from pre rest w)) (pre ++ firstn (S k) rest)
       = Some Dir.
Proof.
  revert pre w. induction rest as [|c rest' IH]; intros pre w H.
  - split; [reflexivity|]. simpl. intros k Hk. lia.
  - cbn [makedirs_from]. rewrite bind_lookup.
    destruct (fs w (pre ++ [c])) as [[|data]|] eqn:En.
    + destruct (IH (pre ++ [c]) w) as [Hok Hd].
      { intros k data. rewrite <- app_assoc. apply (H (S k)). }
      split; [exact Hok|]. intros [|k] Hk.
      * simpl firstn.
        destruct (makedirs_from_frame rest' (pre ++ [c]) w) as [_ Hf].
        destruct (Hf (pre ++ [c])) as [->|(Hn & _)]; congruence.
      * specialize (Hd k ltac:(simpl in Hk; lia)).
        rewrite <- app_assoc in Hd. exact Hd.
    + destruct (H 0 data). exact En.
    + rewrite bind_store.
      set (w1 := {| fs := fs_set (fs w) (pre ++ [c]) Dir; events := events w |}).
      destruct (IH (pre ++ [c]) w1) as [Hok Hd].
      { intros k data. unfold w1. cbn [fs]. unfold fs_set.
        destruct (path_eq_dec _ _) as [E|_]; [discriminate|].
        rewrite <- app_assoc. apply (H (S k)). }
      split; [exact Hok|]. intros [|k] Hk.
      * simpl firstn.
        destruct (makedirs_from_frame rest' (pre ++ [c]) w1) as [_ Hf].
        assert (H1 : fs w1 (pre ++ [c]) = Some Dir).
        { unfold w1. cbn [fs]. unfold fs_set.
          destruct (path_eq_dec _ _); congruence. }
        destruct (Hf (pre ++ [c])) as [->|(Hn & _)]; congruence.
      * specialize (Hd k ltac:(simpl in Hk; lia)).
        rewrite <- app_assoc in Hd. exact Hd.
Qed.

Lemma fs_set_same (f : filesystem) (p : path) (n : node) :
  fs_set f p n p = Some n.
Proof. unfold fs_set. destruct (path_eq_dec p p); congruence. Qed.

Lemma fs_set_other (f : filesystem) (p q : path) (n : node) :
  q <> p -> fs_set f p n q = f q.
Proof. intros H. unfold fs_set. destruct (path_eq_dec q p); congruence. Qed.

Lemma write_file_run (p : path) (data : text) (w : world) :
  fs w p = None -> removelast p <> [] ->
  write_file p data w
  = match fs w (removelast p) with
    | Some Dir => (Ok tt, {| fs := fs_set (fs w) p (File data);
                             events := events w |})
    | _ => (Raise OtherException, w)
    end.
Proof.
  intros Hp Hr. unfold write_file. rewrite !bind_lookup, Hp.
  destruct (removelast p) as [|c q] eqn:E; [congruence|].
  destruct (fs w (c :: q)) as [[|dat]|]; reflexivity.
Qed.

Lemma copy2_run (src dst : path) (data : text) (w : world) :
  fs w src = Some (File data) -> fs w dst = None -> removelast dst <> [] ->
  copy2 src dst w
  = match fs w (removelast dst) with
    | Some Dir =>
        (Ok tt, {| fs := fs_set (fs w) dst (File data);
                   events := events w ++ [EvCopy src dst] |})
    | _ => (Raise OtherException,
            {| fs := fs w; events := events w ++ [EvCopy src dst] |})
    end.
Proof.
  intros Hs Hd Hr. unfold copy2. rewrite bind_emit, bind_lookup.
  cbn [fs]. rewrite Hs. rewrite bind_lookup. cbn [fs]. rewrite Hd.
  rewrite write_file_run by assumption.
  cbn [fs events]. destruct (fs w (removelast dst)) as [[|dat]|]; reflexivity.
Qed.

Lemma collective_parent (name : text) :
  removelast (COLLECTIVE_OUTPUT_DIR ++ [name]) = COLLECTIVE_OUTPUT_DIR
  /\ removelast (COLLECTIVE_OUTPUT_DIR ++ [name]) <> [].
Proof. split; [reflexivity | discriminate]. Qed.

Lemma dated_parent (year month : Z) (name : text) :
  removelast (pdf_dir year month ++ [name]) = pdf_dir year month
  /\ removelast (pdf_dir year month ++ [name]) <> [].
Proof. split; [reflexivity | discriminate]. Qed.

Lemma dated_not_collective (year month : Z) (name name' : text) :
  COLLECTIVE_OUTPUT_DIR ++ [name'] <> pdf_dir year month ++ [name].
Proof. discriminate. Qed.

(** The ways [save_page_as_pdf] can end, [w1] being the world after
    [os.makedirs]: nothing more done; the dated file copied; the PDF
    rendered, with or without the copy. *)
Lemma save_shape (pg : page) (relid : text) (year month day : Z) (w : world) :
  let w1 := snd (makedirs (pdf_dir year month) w) in
  let pdf_path := pdf_dir year month ++ [pdf_filename relid year month day] in
  let coll := COLLECTIVE_OUTPUT_DIR ++ [pdf_filename relid year month day] in
  exists b w',
    save_page_as_pdf pg relid year month day w = (Ok b, w')
    /\ ((b = false /\ fs w' = fs w1)
        \/ (b = false
            /\ exists dat, fs w1 pdf_path = Some (File dat)
                           /\ fs w1 coll = None
                           /\ fs w' = fs_set (fs w1) coll (File dat))
        \/ (b = true
            /\ exists dat, pdf pg = Ok dat
                           /\ fs w1 pdf_path = None /\ fs w1 coll = None
                           /\ (fs w' = fs_set (fs w1) pdf_path (File dat)
                               \/ fs w' = fs_set (fs_set (fs w1) pdf_path
                                                    (File dat))
                                            coll (File dat)))).
Proof.
  intros w1 pdf_path coll. unfold save_page_as_pdf.
  rewrite try_run, bind_run. subst w1.
  destruct (makedirs (pdf_dir year month) w) as [[[]|e] w1];
    [|exists false, w1; split; [reflexivity | left; auto]].
  cbn [snd]. rewrite bind_exists. fold coll.
  destruct (fs w1 coll) as [n|] eqn:Ec;
    [exists false, w1; split; [reflexivity | left; auto]|].
  rewrite bind_exists. fold pdf_path.
  destruct (fs w1 pdf_path) as [[|dat]|] eqn:Ep.
  - (* a directory of that name *)
    rewrite bind_run, try_run. unfold copy2 at 1.
    rewrite bind_emit, bind_lookup. cbn [fs]. rewrite Ep.
    eexists false, _. split; [reflexivity | left; auto].
  - (* the dated file is there *)
    rewrite bind_run, try_run.
    rewrite copy2_run with (data := dat); try assumption;
      [|apply collective_parent].
    destruct (fs w1 (removelast coll)) as [[|dat']|];
      eexists false, _; (split; [reflexivity|]); auto.
    right. left. split; [reflexivity|]. exists dat. auto.
  - (* nothing is there: download *)
    rewrite bind_emit, bind_call.
    destruct (wait_for_load_state pg) as [[]|e1];
      [|eexists false, _; split; [reflexivity | left; auto]].
    rewrite bind_emit, bind_call.
    destruct (wait_for_timeout pg) as [[]|e2];
      [|eexists false, _; split; [reflexivity | left; auto]].
    rewrite bind_run, try_run, bind_emit. unfold call at 1.
    set (w2 := {| fs := _; events := _ |}).
    assert (Hcss : match add_style_tag pg with
                   | Ok a => (Ok a, w2)
                   | Raise _ => ret tt w2
                   end = (Ok tt, w2))
      by (destruct (add_style_tag pg) as [[]|e3]; reflexivity).
    rewrite Hcss. clear Hcss.
    unfold page_pdf at 1. rewrite bind_run, bind_emit, bind_call.
    destruct (pdf pg) as [dat|e4];
      [|eexists false, _; split; [reflexivity | left; auto]].
    rewrite write_file_run; [|exact Ep | apply dated_parent].
    subst w2. cbn [fs events].
    destruct (fs w1 (removelast pdf_path)) as [[|dat']|];
      try (eexists false, _; split; [reflexivity | left; auto]).
    cbv beta iota. rewrite bind_run, try_run.
    rewrite copy2_run with (data := dat);
      [| cbn [fs]; apply fs_set_same
       | cbn [fs]; rewrite fs_set_other by apply dated_not_collective;
         exact Ec
       | apply collective_parent].
    cbn [fs events].
    destruct (fs_set (fs w1) pdf_path (File dat) (removelast coll))
      as [[|dat']|];
      eexists true, _; (split; [reflexivity|]); right; right;
      (split; [reflexivity|]); exists dat; auto 6.
Qed.

Lemma collective_off_the_way (year month : Z) (name : text) (k : nat) :
  COLLECTIVE_OUTPUT_DIR ++ [name] <> firstn k (pdf_dir year month).
Proof.
  intros H. destruct k as [|[|[|k]]]; simpl in H; try discriminate H;
    injection H as H _; vm_compute in H; discriminate H.
Qed.

Lemma collective_dir_off_the_way (year month : Z) (k : nat) :
  COLLECTIVE_OUTPUT_DIR <> firstn k (pdf_dir year month).
Proof.
  intros H. destruct k as [|[|[|k]]]; simpl in H; try discriminate H;
    injection H as H; vm_compute in H; discriminate H.
Qed.

Lemma dated_off_the_way (year month : Z) (name : text) (k : nat) :
  pdf_dir year month ++ [name] <> firstn k (pdf_dir year month).
Proof.
  intros H. apply (f_equal (@length text)) in H.
  rewrite length_firstn in H. simpl in H. lia.
Qed.

(** [save_page_as_pdf] changes nothing that is there: it only adds, and only
    the dated file, the collective file and directories on the way to the
    dated folder. *)
Theorem save_only_adds (pg : page) (relid : text) (year month day : Z)
    (w : world) (p : path) :
  (fs w p <> None ->
   fs (snd (save_page_as_pdf pg relid year month day w)) p = fs w p)
  /\ (fs (snd (save_page_as_pdf pg relid year month day w)) p <> fs w p ->
      p = pdf_dir year month ++ [pdf_filename relid year month day]
      \/ p = collective_pdf_path relid year month day
      \/ exists k, p = firstn k (pdf_dir year month)).
Proof.
  destruct (save_shape pg relid year month day w) as (b & w' & -> & H).
  cbv zeta in H. cbn [snd].
  destruct (makedirs_frame (pdf_dir year month) w) as [_ Hf].
  set (w1 := snd (makedirs (pdf_dir year month) w)) in *.
  set (pdf_path := pdf_dir year month ++ [pdf_filename relid year month day]) in *.
  unfold collective_pdf_path.
  set (coll := COLLECTIVE_OUTPUT_DIR ++ [pdf_filename relid year month day]) in *.
  assert (Hnone : forall q, fs w1 q = None -> fs w q = None).
  { intros q Hq. destruct (Hf q) as [E|(E & _)]; congruence. }
  assert (Hkeep : fs w p <> None -> fs w1 p = fs w p).
  { intros Hp. destruct (Hf p) as [E|(E & _)]; congruence. }
  assert (Hway : fs w1 p <> fs w p -> exists k, p = firstn k (pdf_dir year month)).
  { intros Hp. destruct (Hf p) as [E|(_ & _ & E)]; [congruence | exact E]. }
  destruct H as [[_ ->]|[(_ & dat & Hp & Hc & ->)|(_ & dat & _ & Hp & Hc & [->| ->])]].
  - split; [exact Hkeep | auto].
  - unfold fs_set. destruct (path_eq_dec p coll) as [->|Hn].
    + split; [intros Hx; apply Hnone in Hc; congruence | auto].
    + split; [exact Hkeep | auto].
  - unfold fs_set. destruct (path_eq_dec p pdf_path) as [->|Hn].
    + split; [intros Hx; apply Hnone in Hp; congruence | auto].
    + split; [exact Hkeep | auto].
  - unfold fs_set. destruct (path_eq_dec p coll) as [->|Hn].
    + split; [intros Hx; apply Hnone in Hc; congruence | auto].
    + destruct (path_eq_dec p pdf_path) as [->|Hn2].
      * split; [intros Hx; apply Hnone in Hp; congruence | auto].
      * split; [exact Hkeep | auto].
Qed.

(** [True] is returned only for a PDF that was in neither folder and is now
    in the dated folder as the page rendered it. *)
Theorem save_true_means_saved (pg : page) (relid : text) (year month day : Z)
    (w : world) :
  fst (save_page_as_pdf pg relid year month day w) = Ok true ->
  exists dat,
    pdf pg = Ok dat
    /\ fs (snd (save_page_as_pdf pg relid year month day w))
         (pdf_dir year month ++ [pdf_filename relid year month day])
       = Some (File dat)
    /\ fs w (pdf_dir year month ++ [pdf_filename relid year month day]) = None
    /\ fs w (collective_pdf_path relid year month day) = None.
Proof.
  destruct (save_shape pg relid year month day w) as (b & w' & -> & H).
  cbv zeta in H. cbn [fst snd]. intros [= ->].
  destruct (makedirs_frame (pdf_dir year month) w) as [_ Hf].
  assert (Hnone : forall q, fs (snd (makedirs (pdf_dir year month) w)) q = None
                            -> fs w q = None).
  { intros q Hq. destruct (Hf q) as [E|(E & _)]; congruence. }
  destruct H as [[H _]|[[H _]|(_ & dat & Hpdf & Hp & Hc & Hw)]];
    try discriminate H.
  exists dat. split; [exact Hpdf|]. split.
  - destruct Hw as [-> | ->].
    + apply fs_set_same.
    + rewrite fs_set_other by (apply not_eq_sym, dated_not_collective).
      apply fs_set_same.
  - split; apply Hnone; assumption.
Qed.

Lemma makedirs_made (target : path) (w : world) :
  (forall k dat, fs w (firstn (S k) target) <> Some (File dat)) ->
  fst (makedirs target w) = Ok tt
  /\ forall k, k < length target ->
       fs (snd (makedirs target w)) (firstn (S k) target) = Some Dir.
Proof.
  intros H. unfold makedirs. rewrite bind_emit.
  apply (makedirs_from_made target []). exact H.
Qed.

Lemma makedirs_present (target : path) (w : world) :
  (forall k, k < length target -> fs w (firstn (S k) target) = Some Dir) ->
  makedirs target w
  = (Ok tt, {| fs := fs w; events := events w ++ [EvMakedirs target] |}).
Proof.
  intros H. unfold makedirs. rewrite bind_emit.
  apply (makedirs_from_present target []). exact H.
Qed.

(** The run of [save_page_as_pdf] for a PDF that is in neither folder, when
    no file stands where a directory is to be made, the collective folder is
    there and the page loads and renders. *)
Lemma save_fresh_run (pg : page) (relid : text) (year month day : Z)
    (w : world) (dat : text) :
  let pdf_path := pdf_dir year month ++ [pdf_filename relid year month day] in
  let coll := COLLECTIVE_OUTPUT_DIR ++ [pdf_filename relid year month day] in
  (forall k d, fs w (firstn (S k) (pdf_dir year month)) <> Some (File d)) ->
  fs w pdf_path = None -> fs w coll = None ->
  fs w COLLECTIVE_OUTPUT_DIR = Some Dir ->
  wait_for_load_state pg = Ok tt -> wait_for_timeout pg = Ok tt ->
  pdf pg = Ok dat ->
  exists w',
    save_page_as_pdf pg relid year month day w = (Ok true, w')
    /\ fs w' = fs_set (fs_set (fs (snd (makedirs (pdf_dir year month) w)))
                         pdf_path (File dat)) coll (File dat)
    /\ forall k, k < 3 ->
         fs (snd (makedirs (pdf_dir year month) w))
           (firstn (S k) (pdf_dir year month)) = Some Dir.
Proof.
  intros pdf_path coll Hway Hp Hc Hcd Hl Ht Hpdf.
  destruct (makedirs_made (pdf_dir year month) w Hway) as [Hok Hdirs].
  destruct (makedirs_frame (pdf_dir year month) w) as [_ Hf].
  unfold save_page_as_pdf. rewrite try_run, bind_run.
  destruct (makedirs (pdf_dir year month) w) as [r w1]. cbn [fst snd] in *.
  subst r.
  assert (Hc1 : fs w1 coll = None).
  { destruct (Hf coll) as [E|(_ & _ & k & E)]; [congruence|].
    exfalso. eapply collective_off_the_way. exact E. }
  assert (Hp1 : fs w1 pdf_path = None).
  { destruct (Hf pdf_path) as [E|(_ & _ & k & E)]; [congruence|].
    exfalso. eapply dated_off_the_way. exact E. }
  assert (Hcd1 : fs w1 COLLECTIVE_OUTPUT_DIR = Some Dir).
  { destruct (Hf COLLECTIVE_OUTPUT_DIR) as [E|(E & _)]; congruence. }
  assert (Hd1 : fs w1 (pdf_dir year month) = Some Dir).
  { apply (Hdirs 2). simpl. lia. }
  rewrite bind_exists. fold coll. rewrite Hc1.
  rewrite bind_exists. fold pdf_path. rewrite Hp1.
  rewrite bind_emit, bind_call, Hl, bind_emit, bind_call, Ht.
  rewrite bind_run, try_run, bind_emit. unfold call at 1.
  match goal with |- context [match add_style_tag pg with _ => _ end] =>
    assert (Hcss : forall w2 : world,
              match add_style_tag pg with
              | Ok a => (Ok a, w2)
              | Raise _ => ret tt w2
              end = (Ok tt, w2))
      by (intros w2; destruct (add_style_tag pg) as [[]|e3]; reflexivity)
  end.
  rewrite Hcss. clear Hcss.
  unfold page_pdf at 1. rewrite bind_run, bind_emit, bind_call, Hpdf.
  rewrite write_file_run; [|exact Hp1 | apply dated_parent].
  cbn [fs events].
  replace (fs w1 (removelast pdf_path)) with (Some Dir)
    by (symmetry; exact Hd1).
  cbv beta iota. rewrite bind_run, try_run.
  rewrite copy2_run with (data := dat);
    [| cbn [fs]; apply fs_set_same
     | cbn [fs]; rewrite fs_set_other by apply dated_not_collective;
       exact Hc1
     | apply collective_parent].
  cbn [fs events].
  replace (fs_set (fs w1) pdf_path (File dat) (removelast coll))
    with (Some Dir)
    by (symmetry; rewrite fs_set_other; [exact Hcd1 | discriminate]).
  eexists. split; [reflexivity|]. split; [reflexivity|].
  intros k Hk. apply Hdirs. simpl. exact Hk.
Qed.

(** A PDF that is in neither folder is rendered into the dated folder and
    copied to the collective one, with the same content, and [True] is
    returned, when no file stands where a directory is to be made, the
    collective folder is there, and the page loads and renders. *)
Theorem save_fresh_release (pg : page) (relid : text) (year month day : Z)
    (w : world) (dat : text) :
  (forall k d, fs w (firstn (S k) (pdf_dir year month)) <> Some (File d)) ->
  fs w (pdf_dir year month ++ [pdf_filename relid year month day]) = None ->
  fs w (collective_pdf_path relid year month day) = None ->
  fs w COLLECTIVE_OUTPUT_DIR = Some Dir ->
  wait_for_load_state pg = Ok tt -> wait_for_timeout pg = Ok tt ->
  pdf pg = Ok dat ->
  fst (save_page_as_pdf pg relid year month day w) = Ok true
  /\ fs (snd (save_page_as_pdf pg relid year month day w))
       (pdf_dir year month ++ [pdf_filename relid year month day])
     = Some (File dat)
  /\ fs (snd (save_page_as_pdf pg relid year month day w))
       (collective_pdf_path relid year month day)
     = Some (File dat).
Proof.
  intros Hway Hp Hc Hcd Hl Ht Hpdf.
  destruct (save_fresh_run pg relid year month day w Hway Hp Hc Hcd Hl Ht Hpdf)
    as (w' & -> & Hfs & _).
  cbn [fst snd]. rewrite Hfs. split; [reflexivity|]. split.
  - rewrite fs_set_other by (apply not_eq_sym, dated_not_collective).
    apply fs_set_same.
  - apply fs_set_same.
Qed.

(** Saving the release again right after that returns [False], calls the
    page no more and leaves every file and directory as the first call left
    it. *)
Theorem save_twice (pg : page) (relid : text) (year month day : Z)
    (w : world) (dat : text) :
  (forall k d, fs w (firstn (S k) (pdf_dir year month)) <> Some (File d)) ->
  fs w (pdf_dir year month ++ [pdf_filename relid year month day]) = None ->
  fs w (collective_pdf_path relid year month day) = None ->
  fs w COLLECTIVE_OUTPUT_DIR = Some Dir ->
  wait_for_load_state pg = Ok tt -> wait_for_timeout pg = Ok tt ->
  pdf pg = Ok dat ->
  let w1 := snd (save_page_as_pdf pg relid year month day w) in
  let w2 := snd (save_page_as_pdf pg relid year month day w1) in
  fst (save_page_as_pdf pg relid year month day w1) = Ok false
  /\ fs w2 = fs w1
  /\ events w2 = events w1 ++ [EvMakedirs (pdf_dir year month)].
Proof.
  intros Hway Hp Hc Hcd Hl Ht Hpdf.
  destruct (save_fresh_run pg relid year month day w Hway Hp Hc Hcd Hl Ht Hpdf)
    as (w' & -> & Hfs & Hdirs).
  cbn [snd]. cbv zeta.
  assert (Hc' : fs w' (collective_pdf_path relid year month day) <> None).
  { rewrite Hfs. unfold collective_pdf_path. rewrite fs_set_same.
    discriminate. }
  rewrite (save_existing pg relid year month day w' Hc').
  rewrite makedirs_present; [cbn [fst snd fs events]; auto|].
  intros k Hk. rewrite Hfs.
  rewrite fs_set_other
    by (intros E; symmetry in E; revert E; apply collective_off_the_way).
  rewrite fs_set_other
    by (intros E; symmetry in E; revert E; apply dated_off_the_way).
  apply Hdirs. simpl in Hk. exact Hk.
Qed.

(** A PDF that is in the dated folder and not in the collective one, as
    after an interrupted run, is copied there: [False] is returned, the page
    is not called and nothing is rendered. *)
Theorem save_repairs_collective (pg : page) (relid : text)
    (year month day : Z) (w : world) (dat : text) :
  (forall k d, fs w (firstn (S k) (pdf_dir year month)) <> Some (File d)) ->
  fs w (pdf_dir year month ++ [pdf_filename relid year month day])
  = Some (File dat) ->
  fs w (collective_pdf_path relid year month day) = None ->
  fs w COLLECTIVE_OUTPUT_DIR = Some Dir ->
  fst (save_page_as_pdf pg relid year month day w) = Ok false
  /\ fs (snd (save_page_as_pdf pg relid year month day w))
       (collective_pdf_path relid year month day)
     = Some (File dat)
  /\ events (snd (save_page_as_pdf pg relid year month day w))
     = events w
       ++ [EvMakedirs (pdf_dir year month);
           EvCopy (pdf_dir year month ++ [pdf_filename relid year month day])
             (collective_pdf_path relid year month day)].
Proof.
  intros Hway Hp Hc Hcd. unfold collective_pdf_path in *.
  set (pdf_path := pdf_dir year month ++ [pdf_filename relid year month day]) in *.
  set (coll := COLLECTIVE_OUTPUT_DIR ++ [pdf_filename relid year month day]) in *.
  destruct (makedirs_made (pdf_dir year month) w Hway) as [Hok _].
  destruct (makedirs_frame (pdf_dir year month) w) as [He Hf].
  unfold save_page_as_pdf. rewrite try_run, bind_run.
  destruct (makedirs (pdf_dir year month) w) as [r w1]. cbn [fst snd] in *.
  subst r.
  assert (Hc1 : fs w1 coll = None).
  { destruct (Hf coll) as [E|(_ & _ & k & E)]; [congruence|].
    exfalso. eapply collective_off_the_way. exact E. }
  assert (Hp1 : fs w1 pdf_path = Some (File dat)).
  { destruct (Hf pdf_path) as [E|(E & _)]; congruence. }
  assert (Hcd1 : fs w1 COLLECTIVE_OUTPUT_DIR = Some Dir).
  { destruct (Hf COLLECTIVE_OUTPUT_DIR) as [E|(E & _)]; congruence. }
  rewrite bind_exists. fold coll. rewrite Hc1.
  rewrite bind_exists. fold pdf_path. rewrite Hp1.
  rewrite bind_run, try_run.
  rewrite copy2_run with (data := dat);
    [| exact Hp1 | exact Hc1 | apply collective_parent].
  replace (fs w1 (removelast coll)) with (Some Dir)
    by (symmetry; exact Hcd1).
  cbn [fst snd fs events]. split; [reflexivity|].
  split; [apply fs_set_same|]. rewrite He, <- app_assoc. reflexivity.
Qed.

(** A tab that was opened and is not closed is closed by
    [process_single_release] as the last thing it does, whatever failed
    before; when no tab could be opened nothing but the attempt is made. *)
Theorem release_closes_tab (ctx : context) (ri : release_info) (w : world) :
  (forall pg, new_page ctx ri = Ok pg -> is_closed pg = false ->
     exists evs, events (snd (process_single_release ctx ri w))
                 = evs ++ [EvClose])
  /\ (forall e, new_page ctx ri = Raise e ->
        process_single_release ctx ri w
        = (Ok false, {| fs := fs w; events := events w ++ [EvNewPage] |})).
Proof.
  split.
  - intros pg Hn Hc.
    destruct (release_opened ctx ri w Hn) as (saved & w1 & _ & ->).
    rewrite Hc. exists (events w1). destruct (close pg); reflexivity.
  - intros e Hn. unfold process_single_release.
    rewrite bind_emit, bind_run, try_run, bind_call, Hn. reflexivity.
Qed.

End SaveEffects.

(** ** The scraper: dates and release ids *)

Section Collection.
Import PyLib Scrape ScrapeMain.

Lemma in_zrange_iff (lo hi z : Z) :
  In z (zrange lo hi) <-> (lo <= z <= hi)%Z.
Proof.
  split; [|apply in_zrange]. unfold zrange. rewrite in_map_iff.
  intros (k & <- & Hk). apply in_seq in Hk. lia.
Qed.

Lemma in_py_range (a b z : Z) : In z (py_range a b) <-> (a <= z < b)%Z.
Proof. unfold py_range. rewrite in_zrange_iff. lia. Qed.

Lemma NoDup_map_inj (A B : Type) (f : A -> B) (l : list A) :
  (forall a b, f a = f b -> a = b) -> NoDup l -> NoDup (map f l).
Proof.
  intros Hf H. induction H as [|a l' Ha Hl IH]; simpl; constructor;
    [|exact IH].
  intros Hin. apply in_map_iff in Hin. destruct Hin as (b & Hb & Hin).
  apply Hf in Hb. subst b. contradiction.
Qed.

Lemma dates_shape (y : Z) :
  dates_of_year y
  = map (fun md => {| dyear := y; dmonth := fst md; dday := snd md |})
      (calendar_days (isleap y)).
Proof.
  unfold dates_of_year, calendar_days, days_in_month.
  destruct (isleap y); vm_compute; reflexivity.
Qed.

Lemma days_in_month_bound (y m : Z) :
  (1 <= m <= 12)%Z -> (28 <= days_in_month y m <= 31)%Z.
Proof.
  intros H. unfold days_in_month.
  assert (Hm : (m = 1 \/ m = 2 \/ m = 3 \/ m = 4 \/ m = 5 \/ m = 6 \/ m = 7
                \/ m = 8 \/ m = 9 \/ m = 10 \/ m = 11 \/ m = 12)%Z) by lia.
  destruct (isleap y);
    repeat (destruct Hm as [->|Hm]; [simpl; lia|]); subst m; simpl; lia.
Qed.

(** The two loops of phase 1 go through every day of the year once: 365
    days, or 366 in a leap year, each of them a day of a month of the
    calendar. *)
Theorem dates_of_year_complete (y : Z) :
  NoDup (dates_of_year y)
  /\ length (dates_of_year y) = (if isleap y then 366 else 365)
  /\ forall d, In d (dates_of_year y)
               <-> dyear d = y /\ (1 <= dmonth d <= 12)%Z
                   /\ (1 <= dday d <= days_in_month y (dmonth d))%Z.
Proof.
  split; [|split].
  - rewrite dates_shape. apply NoDup_map_inj.
    + intros [m1 d1] [m2 d2] [= -> ->]. reflexivity.
    + assert (H : forall leap,
                nodup month_day_dec (calendar_days leap) = calendar_days leap)
        by (intros [|]; vm_compute; reflexivity).
      rewrite <- H. apply NoDup_nodup.
  - rewrite dates_shape, length_map. destruct (isleap y); vm_compute;
      reflexivity.
  - intros d. unfold dates_of_year. rewrite in_flat_map. split.
    + intros (m & Hm & Hd). apply in_py_range in Hm.
      apply in_map_iff in Hd. destruct Hd as (dd & <- & Hdd).
      apply in_py_range in Hdd. simpl. repeat split; lia.
    + intros (Hy & Hm & Hd). exists (dmonth d). split.
      * apply in_py_range. lia.
      * apply in_map_iff. exists (dday d). split.
        -- destruct d as [dy dm ddd]. simpl in *. subst dy. reflexivity.
        -- apply in_py_range. lia.
Qed.

Lemma visit_loop (today : date) (site : listing) (ds : list date)
    (acc : list release_info) (n : nat) :
  fold_left (visit today site) ds (acc, n)
  = (acc ++ flat_map
              (fun d => if visited today d
                        then flat_map (collect_item d) (fst (site d))
                        else [])
              ds,
     n + length (filter (fun d => visited today d
                                  && match snd (site d) with
                                     | Some _ => true
                                     | None => false
                                     end) ds)).
Proof.
  revert acc n. induction ds as [|d ds' IH]; intros acc n.
  - simpl. rewrite app_nil_r, Nat.add_0_r. reflexivity.
  - cbn [fold_left flat_map filter]. unfold visit at 2, visited at 1 3.
    destruct (date_gt d today); cbn [negb andb fst snd].
    + rewrite IH. reflexivity.
    + destruct (site d) as [ids err]. cbn [fst snd]. rewrite IH.
      rewrite <- app_assoc. f_equal.
      destruct err; simpl; lia.
Qed.

Lemma in_collect_item (d : date) (item_id : option text) (r : release_info) :
  In r (collect_item d item_id)
  <-> item_id = Some (relid r) /\ str_isdigit (relid r) = true
      /\ year r = dyear d /\ month r = dmonth d /\ day r = dday d.
Proof.
  unfold collect_item. destruct item_id as [s|].
  - destruct (str_isdigit s) eqn:Es.
    + simpl. split.
      * intros [<-|[]]. simpl. auto.
      * intros ([= ->] & _ & Hy & Hm & Hd). left.
        destruct r as [ri ry rm rd]. simpl in *. congruence.
    + simpl. split; [intros [] |]. intros ([= ->] & Hs & _). congruence.
  - simpl. split; [intros [] | intros [H _]; discriminate].
Qed.

(** Phase 1 collects a release exactly when its id was read, before any
    failure on that day, on a day of the year that is not after today, and
    is a string of digits; a failure on a day is counted and loses nothing
    of the other days. *)
Theorem phase1_collects (today : date) (site : listing) (y : Z) :
  (forall r, In r (fst (phase1 today site y))
             <-> exists d, In d (dates_of_year y)
                           /\ date_gt d today = false
                           /\ In (Some (relid r)) (fst (site d))
                           /\ str_isdigit (relid r) = true
                           /\ year r = dyear d /\ month r = dmonth d
                           /\ day r = dday d)
  /\ snd (phase1 today site y)
     = length (filter (fun d => visited today d
                                && match snd (site d) with
                                   | Some _ => true
                                   | None => false
                                   end) (dates_of_year y)).
Proof.
  unfold phase1. rewrite visit_loop. cbn [fst snd app]. split; [|reflexivity].
  intros r. rewrite in_flat_map. split.
  - intros (d & Hd & Hr). exists d. unfold visited in Hr.
    destruct (date_gt d today); [destruct Hr|]. cbn [negb] in Hr.
    apply in_flat_map in Hr. destruct Hr as (i & Hi & Hr).
    apply in_collect_item in Hr. destruct Hr as (-> & Hr).
    split; [exact Hd|]. split; [reflexivity|]. split; [exact Hi | exact Hr].
  - intros (d & Hd & Hg & Hi & Hr). exists d. split; [exact Hd|].
    unfold visited. rewrite Hg. cbn [negb]. apply in_flat_map.
    exists (Some (relid r)). split; [exact Hi|]. apply in_collect_item.
    split; [reflexivity | exact Hr].
Qed.

Lemma pdf_filename_fields (r1 r2 : text) (y1 m1 d1 y2 m2 d2 : Z) :
  valid_date y1 m1 d1 -> valid_date y2 m2 d2 ->
  pdf_filename r1 y1 m1 d1 = pdf_filename r2 y2 m2 d2 ->
  r1 = r2 /\ y1 = y2 /\ m1 = m2 /\ d1 = d2.
Proof.
  intros (Hy1 & Hm1 & Hd1) (Hy2 & Hm2 & Hd2).
  unfold pdf_filename. fold (two_digits m1) (two_digits m2)
    (two_digits d1) (two_digits d2).
  intros E. apply app_inv_head in E.
  apply app_eq_length_tail in E;
    [|rewrite !length_app, !year_length, !two_digits_length by lia;
      reflexivity].
  destruct E as [-> E].
  apply app_eq_length_head in E; [|rewrite !year_length by lia; reflexivity].
  destruct E as [Ey E]. apply str_of_Z_inj in Ey.
  apply app_eq_length_head in E;
    [|rewrite !two_digits_length by lia; reflexivity].
  destruct E as [Em E]. apply two_digits_inj in Em; [|lia|lia].
  apply app_inv_head in E. apply app_inv_tail in E.
  apply two_digits_inj in E; [|lia|lia]. auto.
Qed.

(** In every year [main] goes through, up to the year 9999, two different
    releases collected in phase 1 are saved under different file names. *)
Theorem collected_names_differ (today : date) (site : listing) (y : Z)
    (r1 r2 : release_info) :
  (dyear today <= 9999)%Z ->
  In y (py_range START_YEAR (dyear today + 1)) ->
  In r1 (fst (phase1 today site y)) -> In r2 (fst (phase1 today site y)) ->
  pdf_filename (relid r1) (year r1) (month r1) (day r1)
  = pdf_filename (relid r2) (year r2) (month r2) (day r2) ->
  r1 = r2.
Proof.
  intros Hmax Hy H1 H2 E. apply in_py_range in Hy. unfold START_YEAR in Hy.
  assert (Hvalid : forall r, In r (fst (phase1 today site y)) ->
            valid_date (year r) (month r) (day r)).
  { intros r Hr. unfold phase1 in Hr. rewrite visit_loop in Hr.
    cbn [fst app] in Hr. apply in_flat_map in Hr.
    destruct Hr as (d & Hd & Hr). destruct (visited today d); [|destruct Hr].
    apply in_flat_map in Hr. destruct Hr as (i & _ & Hr).
    apply in_collect_item in Hr. destruct Hr as (_ & _ & -> & -> & ->).
    unfold dates_of_year in Hd. apply in_flat_map in Hd.
    destruct Hd as (m & Hm & Hd). apply in_py_range in Hm.
    apply in_map_iff in Hd. destruct Hd as (dd & <- & Hdd).
    apply in_py_range in Hdd. simpl.
    assert (Hm12 : (1 <= m <= 12)%Z) by lia.
    pose proof (days_in_month_bound y Hm12) as Hb.
    unfold valid_date. lia. }
  destruct (pdf_filename_fields (Hvalid r1 H1) (Hvalid r2 H2) E)
    as (Hr & Hyy & Hmm & Hdd).
  destruct r1 as [a1 b1 c1 e1], r2 as [a2 b2 c2 e2]. simpl in *.
  congruence.
Qed.

End Collection.

(** ** The further properties on the sample runs *)

Section MoreSamples.
Import PyLib TrainSetRest Demo DemoRest.

Lemma extracted_block_in_text_witness :
  trimmed topics_block
  /\ exists pre a b post,
       response = pre ++ TOPICS_START ++ a ++ topics_block ++ b
                  ++ TOPICS_END ++ post
       /\ Forall (fun c => isspace c = true) a
       /\ Forall (fun c => isspace c = true) b.
Proof.
  apply (@extracted_block_in_text response TOPICS_START TOPICS_END
           topics_block).
  vm_compute. reflexivity.
Defined.

Lemma summary_origin_witness :
  model (app env_ok) <> None /\ 50 <= length page_text.
Proof.
  destruct (summary_origin env_ok (app env_ok) page_text (lit "a.pdf"))
    as [H _].
  destruct (H (lit "A summary.")) as (Hm & Hl & _).
  - vm_compute. reflexivity.
  - split; [exact Hm | exact Hl].
Defined.

Lemma process_files_accounts_witness :
  processed_count (process_files env_ok (app env_ok)) = 2
  /\ success_count (process_files env_ok (app env_ok))
     + skipped_count (process_files env_ok (app env_ok))
     + failed_count (process_files env_ok (app env_ok)) = 2.
Proof.
  destruct (@process_files_accounts env_ok (app env_ok)) as (_ & H).
  - reflexivity.
  - vm_compute. discriminate.
  - discriminate.
  - destruct (H (env_ok_loop_runs _)) as (H1 & _ & H3).
    split; [exact H1 | exact H3].
Defined.

Lemma process_files_successes_witness :
  exists records,
    jsonl (process_files env_ok (app env_ok)) = map Line records
    /\ success_count (process_files env_ok (app env_ok))
       = records_with_summary records.
Proof.
  destruct (@process_files_successes env_ok (app env_ok))
    as (records & H1 & H2 & _).
  - reflexivity.
  - vm_compute. discriminate.
  - apply env_ok_loop_runs.
  - intros p _ r _. reflexivity.
  - exists records. split; [exact H1 | exact H2].
Defined.

(** The dataset file cannot be opened: no file is attempted, the details
    have the entry of the loop only, and the flag is down. *)
Example dataset_not_opened :
  processed_count (process_files env_locked (app3 env_locked)) = 0
  /\ per_file_details (process_files env_locked (app3 env_locked))
     = [details (lit "Processing Loop") FAIL
          (lit "Critical Error: Permission denied")]
  /\ jsonl (process_files env_locked (app3 env_locked)) = []
  /\ processing_active (process_files env_locked (app3 env_locked)) = false.
Proof. repeat split; vm_compute; reflexivity. Qed.

(** [doc.close()] raises for the second file: the first file has its entry
    and its line, the second is counted and has neither, the third is not
    attempted, and the loop has its entry. *)
Example loop_left_early :
  processed_count (process_files env_close (app3 env_close)) = 2
  /\ map fd_filename
       (per_file_details (process_files env_close (app3 env_close)))
     = [lit "a.pdf"; lit "Processing Loop"]
  /\ length (jsonl (process_files env_close (app3 env_close))) = 1.
Proof. repeat split; vm_compute; reflexivity. Qed.

(** [flush] raises for the record of the first file: the file is marked as
    failed, and its line reaches the dataset with the line of the second
    file. *)
Example failed_write_flushed_later :
  map fd_status (per_file_details (process_files env_flaky (app3 env_flaky)))
  = [FAIL; SUCCESS; SUCCESS]
  /\ map (fun l => match l with
                   | Line r => Some (TrainSet.pdf_filename r)
                   | Torn _ => None
                   end)
       (jsonl (process_files env_flaky (app3 env_flaky)))
     = [Some (lit "a.pdf"); Some (lit "b.pdf"); Some (lit "c.pdf")].
Proof. split; vm_compute; reflexivity. Qed.

Lemma short_text_record_witness :
  jsonl (process_one env_scan (app env_scan) (lit "scan.pdf"))
  = [Line {| pdf_filename := lit "scan.pdf"; extracted_text := lit "Page 1";
             gemini_summary := None; gemini_topics := None |}].
Proof.
  destruct (@short_text_record env_scan (app env_scan) (lit "scan.pdf")
              (lit "Page 1")) as (H & _).
  - vm_compute. reflexivity.
  - vm_compute. repeat constructor.
  - reflexivity.
  - exact H.
Defined.

Lemma world_fresh_no_file (p : Scrape.path) (d : text) :
  Scrape.fs world_fresh p <> Some (Scrape.File d).
Proof.
  unfold world_fresh. cbn [Scrape.fs].
  repeat (destruct (Scrape.path_eq_dec _ _); [discriminate|]). discriminate.
Qed.

Lemma save_true_means_saved_witness :
  exists dat,
    Scrape.pdf (tab (Scrape.Ok tt)) = Scrape.Ok dat
    /\ Scrape.fs
         (snd (Scrape.save_page_as_pdf (tab (Scrape.Ok tt)) (lit "12345")
                 2004 1 5 world_fresh))
         (Scrape.pdf_dir 2004 1 ++ [Scrape.pdf_filename (lit "12345") 2004 1 5])
       = Some (Scrape.File dat)
    /\ Scrape.fs world_fresh
         (Scrape.pdf_dir 2004 1 ++ [Scrape.pdf_filename (lit "12345") 2004 1 5])
       = None
    /\ Scrape.fs world_fresh
         (Scrape.collective_pdf_path (lit "12345") 2004 1 5) = None.
Proof.
  apply (@save_true_means_saved (tab (Scrape.Ok tt)) (lit "12345") 2004 1 5
           world_fresh).
  vm_compute. reflexivity.
Defined.

Lemma save_fresh_release_witness :
  fst (Scrape.save_page_as_pdf (tab (Scrape.Ok tt)) (lit "12345") 2004 1 5
         world_fresh) = Scrape.Ok true
  /\ Scrape.fs
       (snd (Scrape.save_page_as_pdf (tab (Scrape.Ok tt)) (lit "12345")
               2004 1 5 world_fresh))
       (Scrape.pdf_dir 2004 1 ++ [Scrape.pdf_filename (lit "12345") 2004 1 5])
     = Some (Scrape.File (lit "%PDF-1.4"))
  /\ Scrape.fs
       (snd (Scrape.save_page_as_pdf (tab (Scrape.Ok tt)) (lit "12345")
               2004 1 5 world_fresh))
       (Scrape.collective_pdf_path (lit "12345") 2004 1 5)
     = Some (Scrape.File (lit "%PDF-1.4")).
Proof.
  apply (@save_fresh_release (tab (Scrape.Ok tt)) (lit "12345") 2004 1 5
           world_fresh (lit "%PDF-1.4")).
  - intros k d. apply world_fresh_no_file.
  - vm_compute. reflexivity.
  - vm_compute. reflexivity.
  - vm_compute. reflexivity.
  - reflexivity.
  - reflexivity.
  - reflexivity.
Defined.

Lemma save_twice_witness :
  fst (Scrape.save_page_as_pdf (tab (Scrape.Ok tt)) (lit "12345") 2004 1 5
         (snd (Scrape.save_page_as_pdf (tab (Scrape.Ok tt)) (lit "12345")
                 2004 1 5 world_fresh)))
  = Scrape.Ok false.
Proof.
  destruct (@save_twice (tab (Scrape.Ok tt)) (lit "12345") 2004 1 5
              world_fresh (lit "%PDF-1.4")) as (H & _).
  - intros k d. apply world_fresh_no_file.
  - vm_compute. reflexivity.
  - vm_compute. reflexivity.
  - vm_compute. reflexivity.
  - reflexivity.
  - reflexivity.
  - reflexivity.
  - exact H.
Defined.

Lemma world_with_dated_way (k : nat) (d : text) :
  Scrape.fs world_with_dated (firstn (S k) (Scrape.pdf_dir 2004 1))
  <> Some (Scrape.File d).
Proof.
  unfold world_with_dated. cbn [Scrape.fs].
  destruct (Scrape.path_eq_dec _ _) as [E|_].
  - exfalso. symmetry in E. revert E. apply dated_off_the_way.
  - repeat (destruct (Scrape.path_eq_dec _ _); [discriminate|]).
    discriminate.
Qed.

Lemma save_repairs_collective_witness :
  fst (Scrape.save_page_as_pdf (tab (Scrape.Ok tt)) (lit "12345") 2004 1 5
         world_with_dated) = Scrape.Ok false
  /\ Scrape.fs
       (snd (Scrape.save_page_as_pdf (tab (Scrape.Ok tt)) (lit "12345")
               2004 1 5 world_with_dated))
       (Scrape.collective_pdf_path (lit "12345") 2004 1 5)
     = Some (Scrape.File (lit "%PDF-1.4")).
Proof.
  destruct (@save_repairs_collective (tab (Scrape.Ok tt)) (lit "12345")
              2004 1 5 world_with_dated (lit "%PDF-1.4")) as (H1 & H2 & _).
  - apply world_with_dated_way.
  - vm_compute. reflexivity.
  - vm_compute. reflexivity.
  - vm_compute. reflexivity.
  - split; [exact H1 | exact H2].
Defined.

Lemma collected_names_differ_witness :
  In collected (fst (ScrapeMain.phase1 today site 2024))
  /\ collected = collected.
Proof.
  assert (H : In collected (fst (ScrapeMain.phase1 today site 2024)))
    by (vm_compute; left; reflexivity).
  split; [exact H|].
  apply (@collected_names_differ today site 2024 collected collected).
  - simpl. lia.
  - apply in_py_range. unfold ScrapeMain.START_YEAR. simpl. lia.
  - exact H.
  - exact H.
  - reflexivity.
Defined.

End MoreSamples.

(** ** Lines that are dropped *)

Section DroppedLines.
Import PyLib.

Lemma splitlines_line_nl (l cur t : text) :
  nobreak l -> splitlines_from cur (l ++ nl :: t) = (cur ++ l) :: splitlines t.
Proof.
  intros H. rewrite splitlines_from_line by exact H.
  cbn [splitlines_from]. change (is_linebreak nl) with true. cbv iota.
  destruct t as [|c' r']; [reflexivity|].
  change (Ascii.eqb nl cr) with false. reflexivity.
Qed.

Lemma splitlines_nl (cur t : text) :
  splitlines_from cur (nl :: t) = cur :: splitlines t.
Proof.
  pose proof (splitlines_line_nl (l := []) cur t (Forall_nil _)) as H.
  rewrite app_nil_r in H. exact H.
Qed.

Lemma splitlines_from_app_nl (n : nat) :
  forall pre cur t, length pre <= n ->
  splitlines_from cur (pre ++ nl :: t)
  = splitlines_from cur (pre ++ [nl]) ++ splitlines t.
Proof.
  induction n as [|n IH]; intros pre cur t Hlen.
  - destruct pre; [|simpl in Hlen; lia].
    cbn [app]. rewrite !splitlines_nl. reflexivity.
  - destruct pre as [|c r].
    + cbn [app]. rewrite !splitlines_nl. reflexivity.
    + simpl in Hlen. cbn [app splitlines_from].
      destruct (is_linebreak c).
      * destruct r as [|c' r'].
        -- cbn [app]. change (Ascii.eqb nl nl) with true.
           rewrite andb_true_r. destruct (Ascii.eqb c cr).
           ++ reflexivity.
           ++ rewrite !splitlines_nl. reflexivity.
        -- cbn [app]. destruct (Ascii.eqb c cr && Ascii.eqb c' nl).
           ++ cbn [app]. f_equal. apply IH. simpl in Hlen. lia.
           ++ cbn [app]. f_equal.
              change (c' :: r' ++ nl :: t) with ((c' :: r') ++ nl :: t).
              change (c' :: r' ++ [nl]) with ((c' :: r') ++ [nl]).
              apply IH. lia.
      * apply IH. lia.
Qed.

Lemma filter_map_app (A B : Type) (f : A -> option B) (l1 l2 : list A) :
  filter_map f (l1 ++ l2) = filter_map f l1 ++ filter_map f l2.
Proof.
  induction l1 as [|a l IH]; [reflexivity|]. simpl.
  destruct (f a); simpl; rewrite IH; reflexivity.
Qed.

Lemma clean_text_by_lines (s t : text) :
  filter_map clean_line (splitlines s) = filter_map clean_line (splitlines t) ->
  clean_text s = clean_text t.
Proof. intros H. unfold clean_text. rewrite H. reflexivity. Qed.

Lemma drop_while_all (p : ascii -> bool) (a x : text) :
  Forall (fun c => p c = true) a -> drop_while p (a ++ x) = drop_while p x.
Proof.
  induction 1 as [|c t Hc Ht IH]; [reflexivity|]. simpl. rewrite Hc. exact IH.
Qed.

(** Stripping a text padded with white space gives the text. *)
Lemma strip_padded (a h b : text) :
  trimmed h -> h <> [] ->
  Forall (fun c => isspace c = true) a ->
  Forall (fun c => isspace c = true) b ->
  strip (a ++ h ++ b) = h.
Proof.
  intros [Hl Hr] Hne Ha Hb. unfold strip, lstrip, rstrip.
  rewrite drop_while_all by exact Ha.
  rewrite (drop_while_id (h ++ b)) by (apply lclean_app; assumption).
  rewrite rev_app_distr. rewrite drop_while_all by (apply Forall_rev, Hb).
  rewrite (drop_while_id (rev h)) by exact Hr. apply rev_involutive.
Qed.

(** A line that holds one of the listed headers and footers and white space
    around it, between two newlines, leaves no trace: the text cleans to
    what it cleans to without the line. *)
Theorem header_line_removed (h a b pre rest : text) :
  In h HEADERS_FOOTERS_TO_REMOVE ->
  Forall (fun c => isspace c = true) a -> nobreak a ->
  Forall (fun c => isspace c = true) b -> nobreak b ->
  clean_text (pre ++ nl :: (a ++ h ++ b) ++ nl :: rest)
  = clean_text (pre ++ nl :: rest).
Proof.
  intros Hh Ha Hna Hb Hnb.
  assert (Hfacts : trimmed h /\ h <> [] /\ nobreak h /\ in_headers h = true).
  { simpl in Hh. destruct Hh as [<-|[<-|[<-|[]]]];
      (split; [split; reflexivity|]); (split; [discriminate|]);
      (split; [repeat constructor | reflexivity]). }
  destruct Hfacts as (Htr & Hne & Hnh & Hin).
  assert (Hdrop : clean_line (a ++ h ++ b) = None).
  { unfold clean_line. rewrite (strip_padded Htr Hne Ha Hb).
    destruct h as [|c r]; [congruence|].
    destruct (fullmatch datetime_pattern (c :: r)); [reflexivity|].
    rewrite Hin. reflexivity. }
  apply clean_text_by_lines. unfold splitlines.
  rewrite (splitlines_from_app_nl (n := length pre) pre []
             ((a ++ h ++ b) ++ nl :: rest) (le_n _)).
  rewrite (splitlines_from_app_nl (n := length pre) pre [] rest (le_n _)).
  rewrite !filter_map_app. f_equal. unfold splitlines.
  rewrite splitlines_line_nl
    by (apply Forall_app; split; [exact Hna|];
        apply Forall_app; split; assumption).
  cbn [filter_map app]. rewrite Hdrop. reflexivity.
Qed.

Lemma header_line_removed_witness :
  clean_text (lit "Report" ++ nl :: (lit "  " ++ lit "Government of India"
                                     ++ lit " ") ++ nl :: lit "Text")
  = clean_text (lit "Report" ++ nl :: lit "Text").
Proof.
  apply header_line_removed.
  - right. left. reflexivity.
  - repeat constructor.
  - repeat constructor.
  - repeat constructor.
  - repeat constructor.
Defined.

Lemma splitlines_joined_sub (ls : list text) :
  Forall nobreak ls ->
  forall l, In l (splitlines (join [nl] ls)) -> In l ls.
Proof.
  induction 1 as [|l0 ls' Hl Hls IH]; intros l; [intros []|].
  destruct ls' as [|l2 ls''].
  - simpl join. unfold splitlines.
    pose proof (splitlines_from_line (l := l0) [] [] Hl) as H.
    rewrite app_nil_r in H. rewrite H. simpl.
    destruct l0; simpl; [intros [] | intros [<-|[]]; left; reflexivity].
  - rewrite join_cons by discriminate. change ([nl] ++ ?x) with (nl :: x).
    unfold splitlines. rewrite splitlines_line_nl by exact Hl.
    intros [<-|H]; [left; reflexivity|]. right. apply IH. exact H.
Qed.

(** No line of the text given to the JSON parser starts with "//", white
    space aside. *)
Theorem no_comment_line_parsed (topics_json_str l : text) :
  In l (splitlines (json_string_cleaned topics_json_str)) ->
  startswith (lit "//") (strip l) = false.
Proof.
  unfold json_string_cleaned. intros H. apply splitlines_joined_sub in H.
  - apply filter_In in H. destruct H as [_ H].
    apply negb_true_iff in H. exact H.
  - pose proof (splitlines_nobreak topics_json_str) as Hn.
    rewrite Forall_forall in *. intros x Hx. apply Hn.
    apply filter_In in Hx. apply Hx.
Qed.

End DroppedLines.

(** ** Runs of the tool and of the scraper as a whole *)

Section WholeRuns.
Import PyLib TrainSetRest.
Variable E : Env.

(** What a turn of the loop does to the dataset depends on the state
    through the model, the file and the buffer only. *)
Lemma process_one_same (a b : App) (p : text) :
  model a = model b -> jsonl a = jsonl b -> jsonl_buffer a = jsonl_buffer b ->
  jsonl (process_one E a p) = jsonl (process_one E b p)
  /\ jsonl_buffer (process_one E a p) = jsonl_buffer (process_one E b p).
Proof.
  intros Hm Hj Hb. unfold process_one.
  destruct (extract_and_clean_text E p) as [t|]; [|cbn; auto].
  destruct (other_language _); [cbn; auto|].
  rewrite (@generate_model E (count_attempt a) (count_attempt b) t
             (basename E p) Hm).
  destruct (generate_summary_and_topics E (count_attempt b) t (basename E p))
    as [s tp].
  destruct (json_dump E _).
  - cbn. rewrite Hj, Hb. auto.
  - destruct s; cbn; rewrite Hj, Hb; auto.
Qed.

Lemma process_loop_same (fs : list text) (a b : App) :
  model a = model b -> jsonl a = jsonl b -> jsonl_buffer a = jsonl_buffer b ->
  jsonl (fst (process_loop E fs a)) = jsonl (fst (process_loop E fs b))
  /\ jsonl_buffer (fst (process_loop E fs a))
     = jsonl_buffer (fst (process_loop E fs b))
  /\ snd (process_loop E fs a) = snd (process_loop E fs b).
Proof.
  revert a b. induction fs as [|f fs' IH]; intros a b Hm Hj Hb; simpl;
    [auto|].
  destruct (doc_close E f); [cbn; auto|].
  destruct (@process_one_same a b f Hm Hj Hb) as [Hj' Hb'].
  apply IH; [|exact Hj' | exact Hb'].
  rewrite (proj2 (process_one_frame E a f)), (proj2 (process_one_frame E b f)).
  exact Hm.
Qed.

Lemma run_loop_same (a b : App) (path : text) :
  model a = model b -> pdf_files a = pdf_files b ->
  (jsonl (run_loop E a path) = jsonl a /\ jsonl (run_loop E b path) = jsonl b)
  \/ jsonl (run_loop E a path) = jsonl (run_loop E b path).
Proof.
  intros Hm Hf. unfold run_loop.
  destruct (open_jsonl E path); [left; cbn; auto|]. right. rewrite <- Hf.
  destruct (@process_loop_same (pdf_files a) (open_dataset a) (open_dataset b)
              Hm eq_refl eq_refl) as (Hj & Hb & Hr).
  destruct (process_loop E (pdf_files a) (open_dataset a)) as [a1 r1].
  destruct (process_loop E (pdf_files a) (open_dataset b)) as [b1 r2].
  cbn [fst snd] in Hj, Hb, Hr. subst r2. unfold close_dataset.
  assert (Hj' : jsonl match r1 with
                      | Some e => critical_error a1 e
                      | None => a1
                      end
                = jsonl match r1 with
                        | Some e => critical_error b1 e
                        | None => b1
                        end) by (destruct r1; exact Hj).
  assert (Hb' : jsonl_buffer match r1 with
                             | Some e => critical_error a1 e
                             | None => a1
                             end
                = jsonl_buffer match r1 with
                               | Some e => critical_error b1 e
                               | None => b1
                               end) by (destruct r1; exact Hb).
  rewrite Hb'. destruct (close_jsonl E _) as [[n cut]|]; cbn; rewrite Hj';
    reflexivity.
Qed.

(** Two runs from states with the same list and the same model either both
    leave the dataset file as it is, or leave the same dataset. *)
Lemma process_files_same (a b : App) :
  processing_active a = false -> processing_active b = false ->
  pdf_files a = pdf_files b -> model a = model b ->
  (jsonl (process_files E a) = jsonl a /\ jsonl (process_files E b) = jsonl b)
  \/ jsonl (process_files E a) = jsonl (process_files E b).
Proof.
  intros Ha Hb Hf Hm. unfold process_files. rewrite Ha, Hb, <- Hf.
  destruct (pdf_files a) as [|f fs] eqn:Ef; [left; cbn; auto|].
  destruct (asksaveasfilename E) as [|c path]; [left; auto|].
  destruct (splitext E _) as [base_path|]; [|left; cbn; auto].
  destruct (open_log E _); [left; cbn; auto|].
  cbn [emit set_processing_active jsonl].
  apply (@run_loop_same (reset_stats (set_processing_active a true))
           (reset_stats (set_processing_active b true)) (c :: path)).
  - exact Hm.
  - cbn. congruence.
Qed.

(** A second run over the same list, the environment answering as before,
    does not add to the dataset: the file is written anew and holds the same
    lines. *)
Theorem process_files_again (a : App) :
  processing_active a = false -> pdf_files a <> [] ->
  jsonl (process_files E (process_files E a)) = jsonl (process_files E a).
Proof.
  intros Hbusy Hfiles.
  destruct (process_files_frame E a) as (Hf & Hm & Hb).
  destruct (@process_files_same (process_files E a) a (Hb Hbusy) Hbusy Hf Hm)
    as [[H _] | H]; exact H.
Qed.

Lemma lower_app (s t : text) : lower (s ++ t) = lower s ++ lower t.
Proof. apply map_app. Qed.

(** Every name the scraper gives a PDF passes the test of [on_drop], and a
    PDF of the scraper dropped on the tool is in the list afterwards. *)
Theorem scraped_pdf_is_accepted (relid : text) (year month day : Z) (a : App) :
  endswith (lit ".pdf") (lower (Scrape.pdf_filename relid year month day))
  = true
  /\ In (normpath E (Scrape.pdf_filename relid year month day))
       (pdf_files (on_drop E a [Scrape.pdf_filename relid year month day])).
Proof.
  assert (H : endswith (lit ".pdf")
                (lower (Scrape.pdf_filename relid year month day)) = true).
  { apply endswith_iff. unfold Scrape.pdf_filename.
    exists (lower (lit "PIB_" ++ relid ++ str_of_Z year
                   ++ zfill 2 (str_of_Z month) ++ lit "_"
                   ++ zfill 2 (str_of_Z day))).
    rewrite !lower_app. rewrite <- !app_assoc. reflexivity. }
  split; [exact H|]. unfold on_drop. cbn [filter]. rewrite H.
  rewrite add_pdf_files_list.
  destruct (add_loop_grows E [Scrape.pdf_filename relid year month day]
              (pdf_files a) 0) as (added & -> & _ & Hall).
  cbn [fst]. apply Hall. left. reflexivity.
Qed.

End WholeRuns.

Section WholeScrape.
Import Scrape ScrapeMain.
Local Open Scope scrape_scope.

Lemma save_keeps (pg : page) (relid : text) (year month day : Z) (w : world)
    (p : path) :
  fs w p <> None ->
  fs (snd (save_page_as_pdf pg relid year month day w)) p = fs w p.
Proof.
  destruct (save_shape pg relid year month day w) as (b & w' & -> & H).
  cbv zeta in H. cbn [snd].
  destruct (makedirs_frame (pdf_dir year month) w) as [_ Hf].
  assert (Hnone : forall q, fs (snd (makedirs (pdf_dir year month) w)) q = None
                            -> fs w q = None).
  { intros q Hq. destruct (Hf q) as [E|(E & _)]; congruence. }
  assert (Hkeep : fs w p <> None ->
                  fs (snd (makedirs (pdf_dir year month) w)) p = fs w p).
  { intros Hp. destruct (Hf p) as [E|(E & _)]; congruence. }
  intros Hp.
  destruct H as [[_ ->]|[(_ & dat & Hd & Hc & ->)
                        |(_ & dat & _ & Hd & Hc & [->| ->])]].
  - auto.
  - unfold fs_set. destruct (path_eq_dec _ _) as [->|_]; [|auto].
    apply Hnone in Hc. congruence.
  - unfold fs_set. destruct (path_eq_dec _ _) as [->|_]; [|auto].
    apply Hnone in Hd. congruence.
  - unfold fs_set. destruct (path_eq_dec _ _) as [->|_].
    + apply Hnone in Hc. congruence.
    + destruct (path_eq_dec _ _) as [->|_]; [|auto].
      apply Hnone in Hd. congruence.
Qed.

Lemma release_keeps (ctx : context) (ri : release_info) (w : world) (p : path) :
  fs w p <> None ->
  fs (snd (process_single_release ctx ri w)) p = fs w p.
Proof.
  intros Hp. unfold process_single_release.
  rewrite bind_emit, bind_run, try_run, bind_call.
  destruct (new_page ctx ri) as [pg|e]; [|reflexivity].
  unfold ret at 1. rewrite bind_run, try_run, bind_emit, bind_call.
  destruct (goto pg) as [[]|e].
  - match goal with |- context [save_page_as_pdf ?a ?b ?c ?d ?f ?w0] =>
      pose proof (save_keeps a b c d f w0 p) as Hk;
      destruct (save_never_raises a b c d f w0) as [b0 Hs];
      destruct (save_page_as_pdf a b c d f w0) as [r w1] end.
    cbn [fst snd fs] in Hs, Hk. subst r. specialize (Hk Hp).
    rewrite bind_run. destruct (is_closed pg); cbn [negb]; [exact Hk|].
    rewrite bind_emit. unfold call.
    destruct (close pg) as [[]|e]; exact Hk.
  - unfold ret at 1. rewrite bind_run.
    destruct (is_closed pg); cbn [negb]; [reflexivity|].
    rewrite bind_emit. unfold call.
    destruct (close pg) as [[]|e']; reflexivity.
Qed.

Lemma gather_keeps (ctx : context) (rs : list release_info) (w : world)
    (p : path) :
  fs w p <> None -> fs (snd (phase2 ctx rs w)) p = fs w p.
Proof.
  unfold phase2. revert w. induction rs as [|r rs' IH]; intros w Hp;
    [reflexivity|].
  cbn [map gather].
  pose proof (release_keeps ctx r w p Hp) as Hr.
  destruct (process_single_release ctx r w) as [res w1]. cbn [snd] in Hr.
  assert (Hp1 : fs w1 p <> None) by congruence.
  specialize (IH w1 Hp1).
  destruct (gather (map (process_single_release ctx) rs') w1) as [rss w2].
  cbn [snd] in *. congruence.
Qed.

(** Whatever the archive lists and whatever fails, the scraper changes
    nothing that is in the file system when it starts: through all the years
    no file and no directory is removed, replaced or overwritten. *)
Theorem scraper_overwrites_nothing (today : date) (site : listing)
    (ctx : context) (w : world) (p : path) :
  fs w p <> None -> fs (process_years today site ctx w) p = fs w p.
Proof.
  unfold process_years.
  generalize (py_range START_YEAR (dyear today + 1)). intros ys.
  revert w. induction ys as [|y ys' IH]; intros w Hp; [reflexivity|].
  cbn [fold_left].
  assert (Hy : fs (snd (process_year today site ctx w y)) p = fs w p).
  { unfold process_year. destruct (fst (phase1 today site y)) as [|r rs];
      [reflexivity|].
    pose proof (gather_keeps ctx (r :: rs) w p Hp) as Hg.
    destruct (phase2 ctx (r :: rs) w) as [res w']. exact Hg. }
  rewrite IH; [exact Hy | congruence].
Qed.

End WholeScrape.

(** ** The last properties on the sample runs *)

Section LastSamples.
Import PyLib TrainSetRest Demo DemoRest.

Lemma no_comment_line_parsed_witness :
  startswith (lit "//") (strip (lit "[]")) = false.
Proof.
  apply (@no_comment_line_parsed topics_block (lit "[]")).
  vm_compute. left. reflexivity.
Defined.

Lemma process_files_again_witness :
  jsonl (process_files env_ok (process_files env_ok (app env_ok)))
  = jsonl (process_files env_ok (app env_ok)).
Proof.
  apply process_files_again.
  - reflexivity.
  - vm_compute. discriminate.
Defined.

Lemma scraper_overwrites_nothing_witness :
  Scrape.fs (ScrapeMain.process_years today site ctx_ok world_with_collective)
    (Scrape.collective_pdf_path (lit "12345") 2004 1 5)
  = Scrape.fs world_with_collective
      (Scrape.collective_pdf_path (lit "12345") 2004 1 5).
Proof.
  apply scraper_overwrites_nothing. vm_compute. discriminate.
Defined.

End LastSamples.
